(** * Seat holds, seat status and geo-time gate over an expiring key-value store

    A shallow embedding of [lib/locks.js] (seat holds, booking index, seat
    status, geo-unlock gate) and of the bulk [PUT /api/geo-unlock] handler,
    with the properties of the design document stated over it.

    - JavaScript values are the inductive [value]; the built-ins the code
      calls ([JSON.parse], [JSON.stringify], [parseInt], string conversion,
      [toLowerCase], [Date] parsing) form the interface [JsRuntime];
    - the Redis client is a finite map from keys to entries that carry an
      absolute expiry time, behind a command layer in which any command may
      be refused by the store;
    - [async] functions are computations in a state-and-exception monad;
      a call runs at one instant [now] (milliseconds since the epoch). *)

From Stdlib Require Import ZArith Lia Ascii.
From stdpp Require Import gmap strings list fin_maps pretty.

#[local] Set Warnings "-clear-no-such-hyp".

Open Scope string_scope.
Open Scope Z_scope.

(** ** JavaScript values *)

#[warnings="-register-all"]
Inductive value : Type :=
| VUndef
| VNull
| VBool (b : bool)
| VNum (z : Z)
| VNaN
| VStr (s : string)
| VArr (items : list value)
| VObj (fields : list (string * value)).

(** The built-ins of the language runtime that the code relies on.
    [JSON_parse] answers [None] where [JSON.parse] throws a SyntaxError;
    [ToNumber], [parseInt] and [Date_parse] answer [None] for [NaN]. *)
Class JsRuntime := {
  JSON_parse : string -> option value;
  JSON_stringify : value -> string;
  ToString : value -> string;
  ToNumber : value -> option Z;
  parseInt : string -> option Z;
  toLowerCase : string -> string;
  Date_parse : string -> option Z
}.

(** Truthiness of a value in a condition. *)
Definition truthy (v : value) : bool :=
  match v with
  | VUndef | VNull | VNaN => false
  | VBool b => b
  | VNum z => negb (z =? 0)
  | VStr s => negb (String.eqb s "")
  | VArr _ | VObj _ => true
  end.

(** A string read from the store is [null] ([None]) or a string; [!data]. *)
Definition falsy_data (data : option string) : bool :=
  match data with
  | None => true
  | Some s => String.eqb s ""
  end.

Fixpoint assoc (k : string) (fields : list (string * value)) : value :=
  match fields with
  | [] => VUndef
  | (k', v) :: rest => if String.eqb k' k then v else assoc k rest
  end.

(** [v.k] for a value [v] that is neither [null] nor [undefined], and a
    name [k] that no prototype defines (the code reads [expiresAt],
    [userId], [sectionId] and [bookingId] only). *)
Definition prop (v : value) (k : string) : value :=
  match v with
  | VObj fields => assoc k fields
  | _ => VUndef
  end.

(** [obj[k] = v] for an object [v], on an object [obj] that [{}] created
    and that is filled in this way only: the name [__proto__] sets the
    prototype of [obj] and adds no entry. *)
Definition assign {A} (k : string) (v : A) (obj : gmap string A) : gmap string A :=
  if String.eqb k "__proto__" then obj else <[k := v]> obj.

Definition nullish (v : value) : bool :=
  match v with
  | VUndef | VNull => true
  | _ => false
  end.

Section Runtime.
Context `{JsRuntime}.

(** A value spliced into a template literal. *)
Definition tpl (v : value) : string :=
  match v with
  | VStr s => s
  | _ => ToString v
  end.

(** Numeric conversion of an operand of [<] or [*]. *)
Definition to_number (v : value) : option Z :=
  match v with
  | VNum z => Some z
  | VBool true => Some 1
  | VBool false => Some 0
  | VNull => Some 0
  | VUndef | VNaN => None
  | _ => ToNumber v
  end.

(** [v < n] for a number [n]; a comparison with [NaN] is false. *)
Definition js_lt (v : value) (n : Z) : bool :=
  match to_number v with
  | Some z => z <? n
  | None => false
  end.

(** [v === s] for a string [s]. *)
Definition strict_eq_str (v : value) (s : string) : bool :=
  match v with
  | VStr s' => String.eqb s' s
  | _ => false
  end.

End Runtime.

(** ** The lease store *)

(** A stored string with its absolute expiry time in milliseconds
    ([None]: the key has no TTL). *)
Record entry := Entry { e_val : string; e_exp : option Z }.

Definition live (now : Z) (e : entry) : bool :=
  match e_exp e with
  | None => true
  | Some t => now <? t
  end.

(** What [GET k] answers at time [now]. *)
Definition lookup_live (now : Z) (d : gmap string entry) (k : string) : option string :=
  match d !! k with
  | Some e => if live now e then Some (e_val e) else None
  | None => None
  end.

(** The store and the schedule of its failures: the head of [faults] tells
    whether the next command is refused; an empty schedule refuses nothing. *)
Record world := World { db : gmap string entry; faults : list bool }.

Inductive exn : Type :=
| StoreUnavailable
| SyntaxError
| TypeError
| RangeError
| Error (message : string).

Inductive result (A : Type) : Type :=
| Ok (a : A)
| Throw (e : exn).
Arguments Ok {A} a.
Arguments Throw {A} e.

(** ** Computations: state and exceptions *)

Definition M (S A : Type) : Type := S -> result A * S.

Definition ret {S A} (a : A) : M S A := fun s => (Ok a, s).

Definition throw {S A} (e : exn) : M S A := fun s => (Throw e, s).

Definition bind {S A B} (m : M S A) (k : A -> M S B) : M S B :=
  fun s =>
    match m s with
    | (Ok a, s') => k a s'
    | (Throw e, s') => (Throw e, s')
    end.

(** [try { m } catch (err) { h err }] *)
Definition try_catch {S A} (m : M S A) (h : exn -> M S A) : M S A :=
  fun s =>
    match m s with
    | (Ok a, s') => (Ok a, s')
    | (Throw e, s') => h e s'
    end.

Declare Scope js_scope.
Delimit Scope js_scope with js.
Notation "x <- m ;; k" := (bind m (fun x => k))
  (at level 100, m at next level, right associativity) : js_scope.
Notation "m ;; k" := (bind m (fun _ => k))
  (at level 100, right associativity) : js_scope.
Open Scope js_scope.

(** Modelled from the spec: the client of the lease store ([./redis], not
    part of these sources).  A command is atomic; when the store is
    unreachable it fails with StoreUnavailable and changes nothing. *)
Definition command {A} (f : gmap string entry -> A * gmap string entry) : M world A :=
  fun w =>
    match faults w with
    | true :: fs => (Throw StoreUnavailable, World (db w) fs)
    | false :: fs => let '(a, d) := f (db w) in (Ok a, World d fs)
    | [] => let '(a, d) := f (db w) in (Ok a, World d [])
    end.

(** Modelled from the spec: [ensureConnection] of [./redis]; it touches no
    key and fails when the store is unreachable. *)
Definition ensureConnection : M world unit :=
  command (fun d => (tt, d)).

(** [redis.get(k)] *)
Definition redis_get (now : Z) (k : string) : M world (option string) :=
  command (fun d => (lookup_live now d k, d)).

(** [redis.set(k, v)]: no TTL. *)
Definition redis_set (k v : string) : M world unit :=
  command (fun d => (tt, <[k := Entry v None]> d)).

(** [redis.set(k, v, "EX", ttl)] *)
Definition redis_set_ex (now : Z) (k v : string) (ttl : Z) : M world unit :=
  command (fun d => (tt, <[k := Entry v (Some (now + ttl * 1000))]> d)).

(** [redis.set(k, v, "NX", "EX", ttl)]: [true] stands for the reply "OK",
    [false] for the null reply of a key that exists. *)
Definition redis_set_nx_ex (now : Z) (k v : string) (ttl : Z) : M world bool :=
  command (fun d =>
    match lookup_live now d k with
    | Some _ => (false, d)
    | None => (true, <[k := Entry v (Some (now + ttl * 1000))]> d)
    end).

(** [redis.del(k)] *)
Definition redis_del (k : string) : M world unit :=
  command (fun d => (tt, delete k d)).

(** [redis.pipeline()] with one [get] per key, then [exec()]: one round
    trip; the replies come back in the order of the keys. *)
Definition pipeline_exec (now : Z) (keys : list string) : M world (list (option string)) :=
  command (fun d => (lookup_live now d <$> keys, d)).

(** ** lib/locks.js *)

Definition STATUS_KEY_PREFIX : string := "seat:status:".
Definition HOLD_TTL_SECONDS : Z := 120.

Definition hold_key (seatId : string) : string := "hold:seat:" +:+ seatId.
Definition booking_key (bookingId : string) : string := "booking:" +:+ bookingId.
Definition status_key (seatId : string) : string := STATUS_KEY_PREFIX +:+ seatId.
Definition geo_key (city : string) : string := "geo:unlock:" +:+ city.

Section Locks.
Context `{JsRuntime}.

(** [{ userId, bookingId, sectionId, expiresAt }] *)
Definition hold_object (userId bookingId sectionId : string) (expiresAt : Z) : value :=
  VObj [("userId", VStr userId); ("bookingId", VStr bookingId);
        ("sectionId", VStr sectionId); ("expiresAt", VNum expiresAt)].

(** [createHold] run at one instant: [now] is what [Date.now()] reads and
    also the time at which the store executes the two SET commands. *)
Definition createHold (now : Z) (seatId userId bookingId sectionId : string) : M world bool :=
  ensureConnection ;;
  let expiresAt := now + HOLD_TTL_SECONDS * 1000 in
  let holdData := JSON_stringify (hold_object userId bookingId sectionId expiresAt) in
  result <- redis_set_nx_ex now (hold_key seatId) holdData HOLD_TTL_SECONDS ;;
  if result then
    redis_set_ex now (booking_key bookingId) seatId HOLD_TTL_SECONDS ;;
    ret true
  else ret false.

(** [createHold] with its instants kept apart: [now] is what [Date.now()]
    reads for [expiresAt], [t1] and [t2] are the times at which the store
    executes the first and the second SET, from which their TTLs run. *)
Definition createHoldAt (now t1 t2 : Z) (seatId userId bookingId sectionId : string)
  : M world bool :=
  ensureConnection ;;
  let expiresAt := now + HOLD_TTL_SECONDS * 1000 in
  let holdData := JSON_stringify (hold_object userId bookingId sectionId expiresAt) in
  result <- redis_set_nx_ex t1 (hold_key seatId) holdData HOLD_TTL_SECONDS ;;
  if result then
    redis_set_ex t2 (booking_key bookingId) seatId HOLD_TTL_SECONDS ;;
    ret true
  else ret false.

(** [hold.expiresAt]: a TypeError when [hold] is [null]. *)
Definition member {S} (v : value) (k : string) : M S value :=
  if nullish v then throw TypeError else ret (prop v k).

Definition json_parse {S} (data : string) : M S value :=
  match JSON_parse data with
  | Some v => ret v
  | None => throw SyntaxError
  end.

Definition getHold (now : Z) (seatId : value) : M world value :=
  ensureConnection ;;
  data <- redis_get now (hold_key (tpl seatId)) ;;
  match data with
  | None => ret VNull
  | Some data =>
    if String.eqb data "" then ret VNull else
    try_catch
      (hold <- json_parse data ;;
       expiresAt <- member hold "expiresAt" ;;
       if truthy expiresAt && js_lt expiresAt now then
         redis_del (hold_key (tpl seatId)) ;;
         ret VNull
       else ret hold)
      (fun err => ret VNull)
  end.

(** One element of the [seats] array of [getHoldByBookingId]. *)
Definition seat_record (seatId hold : value) : value :=
  VObj [("seatId", seatId); ("userId", prop hold "userId");
        ("sectionId", prop hold "sectionId"); ("bookingId", prop hold "bookingId")].

(** The [for ... of seatIdArray] loop; [seats] is the array built so far. *)
Fixpoint collectSeats (now : Z) (seatIdArray : list value) (seats : list value)
  : M world (list value) :=
  match seatIdArray with
  | [] => ret seats
  | seatId :: rest =>
    hold <- getHold now seatId ;;
    if truthy hold then collectSeats now rest (seats ++ [seat_record seatId hold])
    else collectSeats now rest seats
  end.

Definition getHoldByBookingId (now : Z) (bookingId : string) : M world value :=
  ensureConnection ;;
  data <- redis_get now (booking_key bookingId) ;;
  match data with
  | None => ret VNull
  | Some data =>
    if String.eqb data "" then ret VNull else
    try_catch
      (seatIds <- json_parse data ;;
       let seatIdArray := match seatIds with VArr items => items | _ => [seatIds] end in
       seats <- collectSeats now seatIdArray [] ;;
       match seats with
       | [] => ret VNull
       | [seat] => ret seat
       | first :: _ =>
         ret (VObj [("bookingId", VStr bookingId); ("userId", prop first "userId");
                    ("seats", VArr seats)])
       end)
      (fun err =>
         let seatId := VStr data in
         hold <- getHold now seatId ;;
         if truthy hold then ret (seat_record seatId hold) else ret VNull)
  end.

Definition releaseHold (now : Z) (seatId userId : string) : M world bool :=
  ensureConnection ;;
  hold <- getHold now (VStr seatId) ;;
  if truthy hold && strict_eq_str (prop hold "userId") userId then
    redis_del (hold_key seatId) ;;
    redis_del (booking_key (tpl (prop hold "bookingId"))) ;;
    ret true
  else ret false.

Definition isHeld (now : Z) (seatId : string) : M world bool :=
  hold <- getHold now (VStr seatId) ;;
  ret (truthy hold).

Definition setSeatBooked (seatId : string) : M world unit :=
  ensureConnection ;;
  redis_set (status_key seatId) "BOOKED".

End Locks.

(** The two statuses the store is the authority for; [null] is [None]. *)
Inductive status : Type := BOOKED | HOLD.

Definition is_booked (reply : option string) : bool :=
  match reply with
  | Some s => String.eqb s "BOOKED"
  | None => false
  end.

Section Status.
Context `{JsRuntime}.

Definition getRedisSeatStatus (now : Z) (seatId : string) : M world (option status) :=
  ensureConnection ;;
  booked <- redis_get now (status_key seatId) ;;
  if is_booked booked then ret (Some BOOKED) else
  hold <- getHold now (VStr seatId) ;;
  if truthy hold then ret (Some HOLD) else ret None.

(** [results[i]]: the value of the [i]-th reply of the pipeline. *)
Definition reply_at (results : list (option string)) (i : nat) : option string :=
  match results !! i with
  | Some r => r
  | None => None
  end.

(** The body of the [for (let i = 0; i < numSeats; i++)] loop. *)
Definition statusStep (seatIds : list string) (results : list (option string))
    (numSeats : nat) (statuses : gmap string status) (i : nat) : gmap string status :=
  match seatIds !! i with
  | None => statuses
  | Some seatId =>
    let booked := reply_at results i in
    let holdData := reply_at results (i + numSeats) in
    if is_booked booked then <[seatId := BOOKED]> statuses
    else if negb (falsy_data holdData) then <[seatId := HOLD]> statuses
    else statuses
  end.

Definition getAllSeatStatuses (now : Z) (seatIds : list string) : M world (gmap string status) :=
  ensureConnection ;;
  results <- pipeline_exec now ((status_key <$> seatIds) ++ (hold_key <$> seatIds)) ;;
  let numSeats := length seatIds in
  ret (fold_left (statusStep seatIds results numSeats) (seq 0 numSeats) ∅).

End Status.

(** The local array [lockedSeats] of [createMultipleHolds] next to the
    store: the [catch] block reads what the [try] block pushed. *)
Record frame := Frame { lockedSeats : list string; fworld : world }.

Definition in_world {A} (m : M world A) : M frame A :=
  fun fr => let '(r, w) := m (fworld fr) in (r, Frame (lockedSeats fr) w).

Definition get_locked : M frame (list string) :=
  fun fr => (Ok (lockedSeats fr), fr).

Definition push_locked (seatId : string) : M frame unit :=
  fun fr => (Ok tt, Frame (lockedSeats fr ++ [seatId]) (fworld fr)).

Definition with_frame {A} (m : M frame A) : M world A :=
  fun w => let '(r, fr) := m (Frame [] w) in (r, fworld fr).

(** [for (const lockedSeatId of lockedSeats) await redis.del(...)] *)
Fixpoint releaseLocks (locked : list string) : M world unit :=
  match locked with
  | [] => ret tt
  | lockedSeatId :: rest => redis_del (hold_key lockedSeatId) ;; releaseLocks rest
  end.

Section MultipleHolds.
Context `{JsRuntime}.

(** The loop of the [try] block; [Some b] is its early [return b]. *)
Fixpoint lockLoop (now : Z) (seats : list (string * string)) (userId bookingId : string)
    (expiresAt : Z) : M frame (option bool) :=
  match seats with
  | [] => ret None
  | (seatId, sectionId) :: rest =>
    let holdData := JSON_stringify (hold_object userId bookingId sectionId expiresAt) in
    result <- in_world (redis_set_nx_ex now (hold_key seatId) holdData HOLD_TTL_SECONDS) ;;
    if negb result then
      locked <- get_locked ;;
      in_world (releaseLocks locked) ;;
      in_world (redis_del (booking_key bookingId)) ;;
      ret (Some false)
    else
      push_locked seatId ;;
      lockLoop now rest userId bookingId expiresAt
  end.

Definition createMultipleHolds (now : Z) (seats : list (string * string))
    (userId bookingId : string) : M world bool :=
  ensureConnection ;;
  let expiresAt := now + HOLD_TTL_SECONDS * 1000 in
  with_frame
    (try_catch
       (returned <- lockLoop now seats userId bookingId expiresAt ;;
        match returned with
        | Some b => ret b
        | None =>
          locked <- get_locked ;;
          in_world (redis_set_ex now (booking_key bookingId)
                      (JSON_stringify (VArr (VStr <$> locked))) HOLD_TTL_SECONDS) ;;
          ret true
        end)
       (fun err =>
          locked <- get_locked ;;
          in_world (releaseLocks locked) ;;
          in_world (redis_del (booking_key bookingId)) ;;
          throw err)).

End MultipleHolds.

(** ** Geo-time locking *)

Record geo_status := GeoStatus {
  isUnlocked : bool;
  unlocksAt : value;
  remainingSeconds : Z
}.

(** A time value a [Date] can hold; [toISOString] throws outside of it. *)
Definition valid_time (ms : Z) : bool :=
  (-8640000000000000 <=? ms) && (ms <=? 8640000000000000).

(** [if (!unlockedTime)] for a number or [null]: the number when truthy. *)
Definition truthy_number (v : value) : option Z :=
  match v with
  | VNum z => if z =? 0 then None else Some z
  | _ => None
  end.

Definition dquote : string := String (Ascii.ascii_of_nat 34) EmptyString.

Section Geo.
Context `{JsRuntime}.

(** [v.toString()]: a TypeError on [null] and [undefined]. *)
Definition method_toString {S} (v : value) : M S string :=
  if nullish v then throw TypeError else ret (tpl v).

(** [new Date(v * 1000).toISOString()], for its exception only. *)
Definition date_iso {S} (v : value) : M S unit :=
  match to_number v with
  | Some z => if valid_time (z * 1000) then ret tt else throw RangeError
  | None => throw RangeError
  end.

Definition setGeoUnlockTime (city : string) (unixTimestamp : value) : M world unit :=
  ensureConnection ;;
  text <- method_toString unixTimestamp ;;
  redis_set (geo_key (toLowerCase city)) text ;;
  date_iso unixTimestamp.

Definition getGeoUnlockTime (now : Z) (city : string) : M world value :=
  ensureConnection ;;
  timestamp <- redis_get now (geo_key (toLowerCase city)) ;;
  match timestamp with
  | None => ret VNull
  | Some timestamp =>
    if String.eqb timestamp "" then ret VNull else
    match parseInt timestamp with
    | Some z => ret (VNum z)
    | None => ret VNaN
    end
  end.

Definition isGeoUnlocked (now : Z) (city : string) : M world geo_status :=
  ensureConnection ;;
  unlockedTime <- getGeoUnlockTime now city ;;
  match truthy_number unlockedTime with
  | None => ret (GeoStatus true VNull 0)
  | Some unlockedTime =>
    let now := now / 1000 in
    let isUnlocked := unlockedTime <=? now in
    let remainingSeconds := Z.max 0 (unlockedTime - now) in
    ret (GeoStatus isUnlocked (VNum unlockedTime) remainingSeconds)
  end.

End Geo.

(** ** PUT /api/geo-unlock *)

Inductive response : Type :=
| BulkUpdated (updated : nat) (cities : gmap string value)
| InvalidTimeFormat (cause : exn) (city : string) (raw : value)
| InternalError (cause : exn).

Section GeoUnlockRoute.
Context `{JsRuntime}.

Definition invalid_date_message (city unlocksAt : string) : string :=
  "Invalid date format for city " +:+ dquote +:+ city +:+ dquote +:+ ": " +:+ unlocksAt.

(** The conversion at the head of the inner [try] block. *)
Definition toUnixTimestamp {S} (city : string) (unlocksAt : value) : M S value :=
  match unlocksAt with
  | VStr text =>
    match Date_parse text with
    | None => throw (Error (invalid_date_message city text))
    | Some ms => ret (VNum (ms / 1000))
    end
  | _ => ret unlocksAt
  end.

(** The loop over [Object.entries(body)]; [inl] is the response of the
    inner [catch], which leaves the handler. *)
Fixpoint putLoop (entries : list (string * value)) (results : gmap string value)
  : M world (response + gmap string value) :=
  match entries with
  | [] => ret (inr results)
  | (city, unlocksAt) :: rest =>
    step <- try_catch
      (unixTimestamp <- toUnixTimestamp city unlocksAt ;;
       setGeoUnlockTime city unixTimestamp ;;
       date_iso unixTimestamp ;;
       ret (inr (assign city unixTimestamp results)))
      (fun cityErr => ret (inl (InvalidTimeFormat cityErr city unlocksAt))) ;;
    match step with
    | inl resp => ret (inl resp)
    | inr results' => putLoop rest results'
    end
  end.

Definition PUT (body : list (string * value)) : M world response :=
  try_catch
    (outcome <- putLoop body ∅ ;;
     match outcome with
     | inl resp => ret resp
     | inr results => ret (BulkUpdated (size results) results)
     end)
    (fun err => ret (InternalError err)).

End GeoUnlockRoute.

(** ** The rest of lib/locks.js and the handlers built on it *)

(** More built-ins of the runtime: [Date.prototype.toISOString] of a valid
    time value, [String.prototype.split] and [String.prototype.trim]. *)
Class JsText := {
  toISOString : Z -> string;
  split : string -> string -> list string;
  trim : string -> string
}.

(** [s] without the leading [pat], when it starts with it. *)
Fixpoint strip_prefix (pat s : string) : option string :=
  match pat with
  | EmptyString => Some s
  | String a pat' =>
    match s with
    | String b s' => if Ascii.eqb a b then strip_prefix pat' s' else None
    | EmptyString => None
    end
  end.

(** [s.replace(pat, rep)] for a string pattern and a replacement without
    [$]: the first occurrence is replaced. *)
Fixpoint replace_first (pat rep s : string) : string :=
  match strip_prefix pat s with
  | Some rest => rep +:+ rest
  | None =>
    match s with
    | String c r => String c (replace_first pat rep r)
    | EmptyString => EmptyString
    end
  end.

Definition starts_with (pat s : string) : bool :=
  match strip_prefix pat s with
  | Some _ => true
  | None => false
  end.

(** Modelled from the spec: [redis.keys(prefix + "*")], the key
    enumeration by prefix of the lease store; the keys that exist at [now],
    in the order the store lists them. *)
Definition redis_keys (now : Z) (prefix : string) : M world (list string) :=
  command (fun d =>
    ((map_to_list (filter (fun item => live now item.2 = true
                                       /\ starts_with prefix item.1 = true) d)).*1, d)).

(** [a === b]; two objects or arrays that come from different places are
    different objects. *)
Definition strict_eq (a b : value) : bool :=
  match a, b with
  | VUndef, VUndef => true
  | VNull, VNull => true
  | VBool x, VBool y => Bool.eqb x y
  | VNum x, VNum y => x =? y
  | VStr x, VStr y => String.eqb x y
  | _, _ => false
  end.

Definition status_name (st : status) : string :=
  match st with
  | BOOKED => "BOOKED"
  | HOLD => "HOLD"
  end.

Section MoreLocks.
Context `{JsRuntime} `{JsText}.

(** [releaseHold] for arguments of any kind, as the release handler passes
    them on from the request body. *)
Definition releaseHoldAny (now : Z) (seatId userId : value) : M world bool :=
  ensureConnection ;;
  hold <- getHold now seatId ;;
  if truthy hold && strict_eq (prop hold "userId") userId then
    redis_del (hold_key (tpl seatId)) ;;
    redis_del (booking_key (tpl (prop hold "bookingId"))) ;;
    ret true
  else ret false.

(** The loop of [getGeoUnlockStatus]. *)
Fixpoint geoStatusLoop (now : Z) (cities : list string) (status : gmap string geo_status)
  : M world (gmap string geo_status) :=
  match cities with
  | [] => ret status
  | city :: rest =>
    geoStatus <- isGeoUnlocked now city ;;
    geoStatusLoop now rest (assign city geoStatus status)
  end.

Definition getGeoUnlockStatus (now : Z) (cities : list string)
  : M world (gmap string geo_status) :=
  ensureConnection ;;
  geoStatusLoop now cities ∅.

(** [parseInt(timestamp)] of a reply of the store; [parseInt(null)] is
    [NaN]. *)
Definition parse_reply (timestamp : option string) : value :=
  match timestamp with
  | None => VNaN
  | Some text =>
    match parseInt text with
    | Some z => VNum z
    | None => VNaN
    end
  end.

(** [new Date(v * 1000).toISOString()] *)
Definition iso_of_seconds {S} (v : value) : M S string :=
  match to_number v with
  | Some z => if valid_time (z * 1000) then ret (toISOString (z * 1000)) else throw RangeError
  | None => throw RangeError
  end.

(** The loop of [getAllGeoUnlockTimes]; an entry of the result is the
    pair of [timestamp] and [date]. *)
Fixpoint unlockTimesLoop (now : Z) (keys : list string) (result : gmap string (value * string))
  : M world (gmap string (value * string)) :=
  match keys with
  | [] => ret result
  | key :: rest =>
    let city := replace_first "geo:unlock:" "" key in
    timestamp <- redis_get now key ;;
    date <- iso_of_seconds (parse_reply timestamp) ;;
    unlockTimesLoop now rest (assign city (parse_reply timestamp, date) result)
  end.

Definition getAllGeoUnlockTimes (now : Z) : M world (gmap string (value * string)) :=
  ensureConnection ;;
  keys <- redis_keys now "geo:unlock:" ;;
  unlockTimesLoop now keys ∅.

End MoreLocks.

(** *** GET and POST /api/geo-unlock *)

(** [{ ...geoStatus, unlocksAtDate }] *)
Record geo_view := GeoView { view_status : geo_status; unlocksAtDate : option string }.

Inductive get_response : Type :=
| CityStatus (city : string) (view : geo_view)
| ManyStatuses (result : gmap string geo_view)
| GetInternalError (cause : exn).

Inductive post_response : Type :=
| UnlockTimeSet (city unlocksAt : value) (unlocksAtDate : string)
| PostInvalidRequest
| PostInvalidTime
| PostInternalError (cause : exn).

Section GeoUnlockQueries.
Context `{JsRuntime} `{JsText}.

(** [status.unlocksAt ? new Date(status.unlocksAt * 1000).toISOString() : null] *)
Definition optional_date {S} (status : geo_status) : M S (option string) :=
  if truthy (unlocksAt status) then
    date <- iso_of_seconds (unlocksAt status) ;; ret (Some date)
  else ret None.

(** The loop over [Object.entries(statuses)] of the [cities] branch. *)
Fixpoint viewLoop (statuses : list (string * geo_status)) (result : gmap string geo_view)
  : M world (gmap string geo_view) :=
  match statuses with
  | [] => ret result
  | (city, status) :: rest =>
    date <- optional_date status ;;
    viewLoop rest (assign city (GeoView status date) result)
  end.

(** The loop over [Object.entries(allTimes)] of the last branch. *)
Fixpoint allCitiesLoop (now : Z) (cities : list string) (result : gmap string geo_view)
  : M world (gmap string geo_view) :=
  match cities with
  | [] => ret result
  | city :: rest =>
    geoStatus <- isGeoUnlocked now city ;;
    date <- iso_of_seconds (unlocksAt geoStatus) ;;
    allCitiesLoop now rest (assign city (GeoView geoStatus (Some date)) result)
  end.

(** [city] and [citiesParam] are [searchParams.get("city")] and
    [searchParams.get("cities")]. *)
Definition GET (now : Z) (city citiesParam : option string) : M world get_response :=
  try_catch
    (if negb (falsy_data city) then
       let city := default "" city in
       geoStatus <- isGeoUnlocked now city ;;
       date <- optional_date geoStatus ;;
       ret (CityStatus city (GeoView geoStatus date))
     else if negb (falsy_data citiesParam) then
       let cities := trim <$> split (default "" citiesParam) "," in
       statuses <- getGeoUnlockStatus now cities ;;
       result <- viewLoop (map_to_list statuses) ∅ ;;
       ret (ManyStatuses result)
     else
       allTimes <- getAllGeoUnlockTimes now ;;
       result <- allCitiesLoop now (map_to_list allTimes).*1 ∅ ;;
       ret (ManyStatuses result))
    (fun err => ret (GetInternalError err)).

Definition POST (now : Z) (body : value) : M world post_response :=
  try_catch
    (city <- member body "city" ;;
     unlocksAt <- member body "unlocksAt" ;;
     if negb (truthy city) || negb (truthy unlocksAt) then ret PostInvalidRequest else
     let unixTimestamp :=
       match unlocksAt with
       | VStr text =>
         match Date_parse text with
         | Some ms => VNum (ms / 1000)
         | None => VNaN
         end
       | _ => unlocksAt
       end in
     let now := now / 1000 in
     if js_lt unixTimestamp (now - 60) then ret PostInvalidTime else
     match city with
     | VStr name => setGeoUnlockTime name unixTimestamp
     | _ => ensureConnection ;; throw TypeError
     end ;;
     date <- iso_of_seconds unixTimestamp ;;
     ret (UnlockTimeSet city unixTimestamp date))
    (fun err => ret (PostInternalError err)).

End GeoUnlockQueries.

(** *** POST /api/release-hold *)

(** Modelled from the spec: the notification sink, [emitSeatUpdate] of
    [@/lib/socketEmit] (not in these files), fire-and-forget: a call hands
    over one update and returns without an exception.  The record is the
    argument of the call. *)
Record seat_update := SeatUpdate { update_seatId : value; update_status : string; update_ts : Z }.

Inductive release_response : Type :=
| Released
| HoldValidationFailed
| ReleaseInvalidRequest
| ReleaseInternalError (cause : exn).

Section ReleaseRoute.
Context `{JsRuntime}.

(** The response, and the updates handed to [emitSeatUpdate]. *)
Definition POST_release_hold (now : Z) (body : value)
  : M world (release_response * list seat_update) :=
  try_catch
    (seatId <- member body "seatId" ;;
     userId <- member body "userId" ;;
     if negb (truthy seatId) || negb (truthy userId) then ret (ReleaseInvalidRequest, []) else
     released <- releaseHoldAny now seatId userId ;;
     if released then ret (Released, [SeatUpdate seatId "AVAILABLE" now])
     else ret (HoldValidationFailed, []))
    (fun err => ret (ReleaseInternalError err, [])).

End ReleaseRoute.

(** *** GET /api/seats *)

(** Modelled from the spec: a row of the inventory source, [getAllSeats]
    of [@/lib/db] (not in these files): the id of the seat, the id of its
    section and the baseline status. *)
Record seat_row := SeatRow { seat_id : string; section_id : string; seat_status : string }.

(** The answer: the object [sections] as a map from the id of a section to
    its seats, each a pair of [seatId] and [status].  The order in which
    [Object.entries] lists the sections is left out. *)
Inductive seats_response : Type :=
| Sections (sections : gmap string (list (string * string)))
| SeatsInternalError (cause : exn).

(** The names that [Object.prototype] defines.  Under one of them an object
    created by [{}] already answers with a function, or, for [__proto__],
    with the prototype itself: a truthy value that has no [push]. *)
Definition prototype_names : list string :=
  ["__defineGetter__"; "__defineSetter__"; "__lookupGetter__"; "__lookupSetter__";
   "__proto__"; "constructor"; "hasOwnProperty"; "isPrototypeOf";
   "propertyIsEnumerable"; "toLocaleString"; "toString"; "valueOf"].

(** The body of the loop over the rows: the status of the store, when it
    has one, replaces the status of the row, and the seat joins the list of
    its section.  For a section named as a member of [Object.prototype],
    [sections[seat.section_id]] is truthy from the start, no list is
    created, and the call of [push] throws a TypeError. *)
Definition placeSeat (redisStatuses : gmap string status)
    (sections : gmap string (list (string * string))) (seat : seat_row)
  : result (gmap string (list (string * string))) :=
  let status :=
    match redisStatuses !! seat_id seat with
    | Some redisStatus => status_name redisStatus
    | None => seat_status seat
    end in
  if bool_decide (section_id seat ∈ prototype_names) then Throw TypeError
  else Ok (<[section_id seat := (default [] (sections !! section_id seat)
                                 ++ [(seat_id seat, status)])%list]> sections).

(** The loop [for (const seat of seats)]. *)
Fixpoint placeSeats (redisStatuses : gmap string status) (seats : list seat_row)
    (sections : gmap string (list (string * string)))
  : result (gmap string (list (string * string))) :=
  match seats with
  | [] => Ok sections
  | seat :: rest =>
    match placeSeat redisStatuses sections seat with
    | Ok sections' => placeSeats redisStatuses rest sections'
    | Throw err => Throw err
    end
  end.

Section SeatsRoute.
Context `{JsRuntime}.

(** What follows the initialisation, inside the [try] block. *)
Definition listSeats (now : Z) (getAllSeats : result (list seat_row)) : M world seats_response :=
  seats <- (fun w => (getAllSeats, w)) ;;
  let seatIds := seat_id <$> seats in
  redisStatuses <- getAllSeatStatuses now seatIds ;;
  sections <- (fun w => (placeSeats redisStatuses seats ∅, w)) ;;
  ret (Sections sections).

(** The handler with the module variable [dbInitialized] before and after
    the request; [initDB] and [getAllSeats] are parameters, the outcomes
    of the two calls to [@/lib/db], the first used only while
    [dbInitialized] is false. *)
Definition GET_seats (now : Z) (dbInitialized : bool) (initDB : result unit)
    (getAllSeats : result (list seat_row)) : M world (seats_response * bool) :=
  fun w =>
    match (if dbInitialized then Ok tt else initDB) with
    | Throw err => (Ok (SeatsInternalError err, dbInitialized), w)
    | Ok _ =>
      try_catch
        (response <- listSeats now getAllSeats ;; ret (response, true))
        (fun err => ret (SeatsInternalError err, true)) w
    end.

End SeatsRoute.

(** ** A reference runtime

    An executable instance of [JsRuntime], used to run the code on concrete
    stores.  Numbers are the integers: a JSON number or a numeric string
    whose value is not an integer has no counterpart in [value] and is
    answered with [None]; dates are read in the ISO form with the [Z]
    designator or as a date alone.  The general theorems below hold for
    every runtime and do not depend on this one. *)
Module Reference.

Definition code (c : ascii) : Z := Z.of_nat (nat_of_ascii c).

Definition is_space (c : ascii) : bool :=
  let n := code c in
  (n =? 32) || (n =? 9) || (n =? 10) || (n =? 11) || (n =? 12) || (n =? 13).

Definition json_space (c : ascii) : bool :=
  let n := code c in
  (n =? 32) || (n =? 9) || (n =? 10) || (n =? 13).

Fixpoint skip (space : ascii -> bool) (s : string) : string :=
  match s with
  | String c r => if space c then skip space r else s
  | EmptyString => s
  end.

(** The digit of [c] in radix [radix] (at most 16). *)
Definition digit (radix : Z) (c : ascii) : option Z :=
  let n := code c in
  let d := if (48 <=? n) && (n <=? 57) then n - 48
           else if (97 <=? n) && (n <=? 102) then n - 87
           else if (65 <=? n) && (n <=? 70) then n - 55
           else 16 in
  if d <? radix then Some d else None.

(** The longest prefix of digits: its value, its length, what follows. *)
Fixpoint digits (radix : Z) (s : string) (acc : Z) (count : nat) : Z * nat * string :=
  match s with
  | String c r =>
    match digit radix c with
    | Some d => digits radix r (acc * radix + d) (S count)
    | None => (acc, count, s)
    end
  | EmptyString => (acc, count, s)
  end.

Definition signed (s : string) : Z * string :=
  match s with
  | String "-" r => (-1, r)
  | String "+" r => (1, r)
  | _ => (1, s)
  end.

Definition ref_parseInt (s : string) : option Z :=
  let '(sign, s) := signed (skip is_space s) in
  let '(radix, s) :=
    match s with
    | String "0" (String "x" r) | String "0" (String "X" r) => (16, r)
    | _ => (10, s)
    end in
  match digits radix s 0 0 with
  | (_, O, _) => None
  | (n, _, _) => Some (sign * n)
  end.

(** Numeric value of a whole string: decimal integers. *)
Definition string_to_number (s : string) : option Z :=
  match skip is_space s with
  | EmptyString => Some 0
  | s =>
    let '(sign, s) := signed s in
    match digits 10 s 0 0 with
    | (_, O, _) => None
    | (n, _, r) =>
      match skip is_space r with
      | EmptyString => Some (sign * n)
      | _ => None
      end
    end
  end.

Definition lower (c : ascii) : ascii :=
  let n := code c in
  if (65 <=? n) && (n <=? 90) then ascii_of_nat (Z.to_nat (n + 32)) else c.

Fixpoint ref_toLowerCase (s : string) : string :=
  match s with
  | String c r => String (lower c) (ref_toLowerCase r)
  | EmptyString => EmptyString
  end.

Fixpoint join (sep : string) (parts : list string) : string :=
  match parts with
  | [] => ""
  | [p] => p
  | p :: rest => p +:+ sep +:+ join sep rest
  end.

Fixpoint ref_ToString (v : value) : string :=
  match v with
  | VUndef => "undefined"
  | VNull => "null"
  | VBool true => "true"
  | VBool false => "false"
  | VNum z => pretty z
  | VNaN => "NaN"
  | VStr s => s
  | VArr items =>
    join "," (map (fun item => if nullish item then "" else ref_ToString item) items)
  | VObj _ => "[object Object]"
  end.

Definition ref_ToNumber (v : value) : option Z :=
  match v with
  | VObj _ => None
  | _ => string_to_number (ref_ToString v)
  end.

(** *** JSON text *)

Definition hex_char (d : Z) : ascii :=
  ascii_of_nat (Z.to_nat (if d <? 10 then 48 + d else 87 + d)).

Definition escape (c : ascii) : string :=
  let n := code c in
  if n =? 34 then String "\" dquote
  else if n =? 92 then "\\"
  else if n =? 8 then "\b"
  else if n =? 9 then "\t"
  else if n =? 10 then "\n"
  else if n =? 12 then "\f"
  else if n =? 13 then "\r"
  else if n <? 32 then "\u00" +:+ String (hex_char (n / 16)) (String (hex_char (n mod 16)) "")
  else String c "".

Fixpoint escaped (s : string) : string :=
  match s with
  | String c r => escape c +:+ escaped r
  | EmptyString => EmptyString
  end.

Definition quoted (s : string) : string := dquote +:+ escaped s +:+ dquote.

Fixpoint ref_stringify (v : value) : string :=
  match v with
  | VUndef | VNull | VNaN => "null"
  | VBool true => "true"
  | VBool false => "false"
  | VNum z => pretty z
  | VStr s => quoted s
  | VArr items => "[" +:+ join "," (map ref_stringify items) +:+ "]"
  | VObj fields =>
    "{" +:+ join ","
      (flat_map (fun field =>
                   match field with
                   | (_, VUndef) => []
                   | (k, v) => [quoted k +:+ ":" +:+ ref_stringify v]
                   end) fields) +:+ "}"
  end.

Definition expect (word : string) (s : string) (v : value) : option (value * string) :=
  if String.prefix word s
  then Some (v, String.substring (String.length word) (String.length s - String.length word) s)
  else None.

(** The characters of a string literal after its opening quote. *)
Fixpoint parse_chars (s : string) (acc : string) : option (string * string) :=
  match s with
  | EmptyString => None
  | String c r =>
    let n := code c in
    if n =? 34 then Some (acc, r)
    else if n <? 32 then None
    else if n =? 92 then
      match r with
      | String e r' =>
        let m := code e in
        let plain (x : Z) := parse_chars r' (acc +:+ String (ascii_of_nat (Z.to_nat x)) "") in
        if (m =? 34) || (m =? 92) || (m =? 47) then plain m
        else if m =? 98 then plain 8
        else if m =? 102 then plain 12
        else if m =? 110 then plain 10
        else if m =? 114 then plain 13
        else if m =? 116 then plain 9
        else if m =? 117 then
          match r' with
          | String a (String b (String c' (String d r''))) =>
            match digit 16 a, digit 16 b, digit 16 c', digit 16 d with
            | Some 0, Some 0, Some x, Some y =>
              parse_chars r'' (acc +:+ String (ascii_of_nat (Z.to_nat (16 * x + y))) "")
            | _, _, _, _ => None
            end
          | _ => None
          end
        else None
      | EmptyString => None
      end
    else parse_chars r (acc +:+ String c "")
  end.

Definition parse_number (s : string) : option (value * string) :=
  let '(sign, s) := match s with String "-" r => (-1, r) | _ => (1, s) end in
  let whole :=
    match s with
    | String "0" r => Some (0, r)
    | _ => match digits 10 s 0 0 with
           | (_, O, _) => None
           | (n, _, r) => Some (n, r)
           end
    end in
  match whole with
  | None => None
  | Some (n, r) =>
    let fraction :=
      match r with
      | String "." r' =>
        match digits 10 r' n 0 with
        | (_, O, _) => None
        | (n', count, r'') => Some (n', Z.of_nat count, r'')
        end
      | _ => Some (n, 0, r)
      end in
    match fraction with
    | None => None
    | Some (mantissa, places, r) =>
      let exponent :=
        match r with
        | String "e" r' | String "E" r' =>
          let '(esign, r') := signed r' in
          match digits 10 r' 0 0 with
          | (_, O, _) => None
          | (e, _, r'') => Some (esign * e, r'')
          end
        | _ => Some (0, r)
        end in
      match exponent with
      | None => None
      | Some (e, r) =>
        let shift := e - places in
        if 0 <=? shift then Some (VNum (sign * mantissa * 10 ^ shift), r)
        else if mantissa mod 10 ^ (- shift) =? 0
        then Some (VNum (sign * (mantissa / 10 ^ (- shift))), r)
        else None
      end
    end
  end.

(** [obj[k] = v] while an object literal is read: a repeated name keeps its
    place and takes the later value. *)
Fixpoint set_field (k : string) (v : value) (fields : list (string * value))
  : list (string * value) :=
  match fields with
  | [] => [(k, v)]
  | (k', v') :: rest =>
    if String.eqb k' k then (k, v) :: rest else (k', v') :: set_field k v rest
  end.

Fixpoint parse_value (fuel : nat) (s : string) : option (value * string) :=
  match fuel with
  | O => None
  | S fuel =>
    match skip json_space s with
    | String "n" r => expect "ull" r VNull
    | String "t" r => expect "rue" r (VBool true)
    | String "f" r => expect "alse" r (VBool false)
    | String "034" r =>
      match parse_chars r "" with
      | Some (text, r') => Some (VStr text, r')
      | None => None
      end
    | String "[" r =>
      match skip json_space r with
      | String "]" r' => Some (VArr [], r')
      | r' => parse_items fuel r' []
      end
    | String "{" r =>
      match skip json_space r with
      | String "}" r' => Some (VObj [], r')
      | r' => parse_members fuel r' []
      end
    | r => parse_number r
    end
  end
with parse_items (fuel : nat) (s : string) (acc : list value) : option (value * string) :=
  match fuel with
  | O => None
  | S fuel =>
    match parse_value fuel s with
    | Some (v, r) =>
      match skip json_space r with
      | String "," r' => parse_items fuel r' (acc ++ [v])
      | String "]" r' => Some (VArr (acc ++ [v]), r')
      | _ => None
      end
    | None => None
    end
  end
with parse_members (fuel : nat) (s : string) (acc : list (string * value))
  : option (value * string) :=
  match fuel with
  | O => None
  | S fuel =>
    match skip json_space s with
    | String "034" r =>
      match parse_chars r "" with
      | Some (k, r') =>
        match skip json_space r' with
        | String ":" r'' =>
          match parse_value fuel r'' with
          | Some (v, r3) =>
            match skip json_space r3 with
            | String "," r4 => parse_members fuel r4 (set_field k v acc)
            | String "}" r4 => Some (VObj (set_field k v acc), r4)
            | _ => None
            end
          | None => None
          end
        | _ => None
        end
      | None => None
      end
    | _ => None
    end
  end.

Definition ref_parse (s : string) : option value :=
  match parse_value (2 * String.length s + 2) s with
  | Some (v, r) =>
    match skip json_space r with
    | EmptyString => Some v
    | _ => None
    end
  | None => None
  end.

(** *** Dates *)

(** Exactly [n] decimal digits. *)
Definition fixed (n : nat) (s : string) : option (Z * string) :=
  match digits 10 (String.substring 0 n s) 0 0 with
  | (v, count, EmptyString) =>
    if Nat.eqb count n
    then Some (v, String.substring n (String.length s - n) s)
    else None
  | _ => None
  end.

Definition leap (y : Z) : bool :=
  ((y mod 4 =? 0) && negb (y mod 100 =? 0)) || (y mod 400 =? 0).

Definition days_in_month (y m : Z) : Z :=
  if m =? 2 then (if leap y then 29 else 28)
  else if (m =? 4) || (m =? 6) || (m =? 9) || (m =? 11) then 30
  else 31.

(** Days from 1970-01-01 to the given civil date. *)
Definition days_from_civil (y m d : Z) : Z :=
  let y := if m <=? 2 then y - 1 else y in
  let era := y / 400 in
  let yoe := y - era * 400 in
  let mp := (m + 9) mod 12 in
  let doy := (153 * mp + 2) / 5 + d - 1 in
  let doe := yoe * 365 + yoe / 4 - yoe / 100 + doy in
  era * 146097 + doe - 719468.

Definition after (c : ascii) (s : string) : option string :=
  match s with
  | String c' r => if Ascii.eqb c c' then Some r else None
  | EmptyString => None
  end.

Definition ref_Date_parse (s : string) : option Z :=
  y ← fixed 4 s; s1 ← after "-" y.2;
  m ← fixed 2 s1; s2 ← after "-" m.2;
  d ← fixed 2 s2;
  if negb ((1 <=? m.1) && (m.1 <=? 12) && (1 <=? d.1) && (d.1 <=? days_in_month y.1 m.1))
  then None else
  let day := days_from_civil y.1 m.1 d.1 * 86400000 in
  match d.2 with
  | EmptyString => Some day
  | rest =>
    s3 ← after "T" rest;
    h ← fixed 2 s3; s4 ← after ":" h.2;
    mi ← fixed 2 s4; s5 ← after ":" mi.2;
    sec ← fixed 2 s5;
    if negb ((h.1 <=? 23) && (mi.1 <=? 59) && (sec.1 <=? 59)) then None else
    let time := day + ((h.1 * 60 + mi.1) * 60 + sec.1) * 1000 in
    match sec.2 with
    | String "Z" EmptyString => Some time
    | String "." frac =>
      ms ← fixed 3 frac;
      match ms.2 with
      | String "Z" EmptyString => Some (time + ms.1)
      | _ => None
      end
    | _ => None
    end
  end.

#[export] Instance runtime : JsRuntime := {|
  JSON_parse := ref_parse;
  JSON_stringify := ref_stringify;
  ToString := ref_ToString;
  ToNumber := ref_ToNumber;
  parseInt := ref_parseInt;
  toLowerCase := ref_toLowerCase;
  Date_parse := ref_Date_parse
|}.

End Reference.

(** ** Reference text built-ins

    An executable instance of [JsText]: dates of the years 0 to 9999 are
    printed (other years are printed with a sign and six digits), and
    white space is the white space of ASCII. *)
Module ReferenceText.

(** The decimal digits of [n], at least [width] of them. *)
Definition padded (width : nat) (n : Z) : string :=
  let digits := pretty (Z.abs n) in
  String.concat "" (replicate (width - String.length digits) "0") +:+ digits.

(** The civil date of a number of days since 1970-01-01. *)
Definition civil_from_days (days : Z) : Z * Z * Z :=
  let z := days + 719468 in
  let era := z / 146097 in
  let doe := z - era * 146097 in
  let yoe := (doe - doe / 1460 + doe / 36524 - doe / 146096) / 365 in
  let doy := doe - (365 * yoe + yoe / 4 - yoe / 100) in
  let mp := (5 * doy + 2) / 153 in
  let d := doy - (153 * mp + 2) / 5 + 1 in
  let m := if mp <? 10 then mp + 3 else mp - 9 in
  let y := yoe + era * 400 + (if m <=? 2 then 1 else 0) in
  (y, m, d).

Definition ref_toISOString (ms : Z) : string :=
  let '(y, m, d) := civil_from_days (ms / 86400000) in
  let rest := ms mod 86400000 in
  let year := if (0 <=? y) && (y <=? 9999) then padded 4 y
              else (if y <? 0 then "-" else "+") +:+ padded 6 y in
  year +:+ "-" +:+ padded 2 m +:+ "-" +:+ padded 2 d +:+ "T"
  +:+ padded 2 (rest / 3600000) +:+ ":" +:+ padded 2 (rest / 60000 mod 60) +:+ ":"
  +:+ padded 2 (rest / 1000 mod 60) +:+ "." +:+ padded 3 (rest mod 1000) +:+ "Z".

(** [s.split(sep)] for a separator that is not empty: [cur] is the piece
    under way, [skip] the characters of a separator still to pass. *)
Fixpoint split_go (sep s cur : string) (skip : nat) : list string :=
  match s with
  | EmptyString => [cur]
  | String c r =>
    match skip with
    | S skip' => split_go sep r cur skip'
    | O =>
      if starts_with sep s then cur :: split_go sep r "" (String.length sep - 1)
      else split_go sep r (cur +:+ String c "") 0
    end
  end.

Definition ref_split (s sep : string) : list string := split_go sep s "" 0.

Fixpoint rev_string (s acc : string) : string :=
  match s with
  | String c r => rev_string r (String c acc)
  | EmptyString => acc
  end.

Definition ref_trim (s : string) : string :=
  let left := Reference.skip Reference.is_space s in
  rev_string (Reference.skip Reference.is_space (rev_string left "")) "".

#[export] Instance text : JsText := {|
  toISOString := ref_toISOString;
  split := ref_split;
  trim := ref_trim
|}.

End ReferenceText.

(** * Vocabulary of the properties *)

(** ** Schedules of refusals *)

(** Schedules in which the store refuses at most one command. *)
Inductive one_fault : list bool -> Prop :=
| of_none : one_fault []
| of_now : one_fault [true]
| of_later fs : one_fault fs -> one_fault (false :: fs).

(** The next command is refused. *)
Definition refused (fs : list bool) : bool :=
  match fs with
  | true :: _ => true
  | _ => false
  end.

(** How the schedule [fs] relates to what is left of it, [fs'], by the
    outcome: an exception is the refusal of a command, and a refusal that
    is still pending has not been used up. *)
Definition fault_outcome {A} (fs fs' : list bool) (r : result A) : Prop :=
  match r with
  | Ok _ => one_fault fs' /\ (true ∈ fs <-> true ∈ fs')
  | Throw e => e = StoreUnavailable /\ fs' = [] /\ true ∈ fs
  end.

(** The store without the hold keys of [locked]. *)
Definition deleted (locked : list string) (d : gmap string entry) : gmap string entry :=
  fold_left (fun d seatId => delete (hold_key seatId) d) locked d.

(** ** Outcomes of a multi-seat acquisition *)

Section HoldOutcomes.
Context `{JsRuntime}.
Variables (now : Z) (userId bookingId : string).

(** The expiry of what a call at [now] stores. *)
Definition expiry : Z := now + HOLD_TTL_SECONDS * 1000.

(** The entry a successful acquisition stores for a seat of [sectionId]. *)
Definition hold_entry (sectionId : string) : entry :=
  Entry (JSON_stringify (hold_object userId bookingId sectionId expiry)) (Some expiry).

(** The state after a complete rollback of [locked]. *)
Definition rolled_back (locked : list string) (d d' : gmap string entry) : Prop :=
  forall k, d' !! k = if decide (k ∈ hold_key <$> locked \/ k = booking_key bookingId)
                      then None else d !! k.

(** The state while a rollback of [locked] is under way. *)
Definition rolling_back (locked : list string) (d d' : gmap string entry) : Prop :=
  forall k, k ∉ hold_key <$> locked -> k <> booking_key bookingId -> d' !! k = d !! k.

(** No key but the booking-index key differs for a reader at [now], and
    the entries that were live are the very same entries. *)
Definition unchanged_but_index (d d' : gmap string entry) : Prop :=
  forall k, k <> booking_key bookingId ->
    lookup_live now d' k = lookup_live now d k
    /\ (lookup_live now d k <> None -> d' !! k = d !! k).

(** What a call leaves behind, by its outcome. *)
Definition all_or_nothing (seats : list (string * string)) (d : gmap string entry)
    (refusedConnection : bool) (r : result bool) (d' : gmap string entry) : Prop :=
  match r with
  | Ok true =>
    (forall seatId sectionId, (seatId, sectionId) ∈ seats ->
       d' !! hold_key seatId = Some (hold_entry sectionId))
    /\ d' !! booking_key bookingId
       = Some (Entry (JSON_stringify (VArr (VStr <$> seats.*1))) (Some expiry))
  | Ok false => unchanged_but_index d d' /\ d' !! booking_key bookingId = None
  | Throw e =>
    e = StoreUnavailable
    /\ unchanged_but_index d d'
    /\ (if refusedConnection then d' = d else d' !! booking_key bookingId = None)
  end.

End HoldOutcomes.

(** ** Hold records as the code reads them *)

Section Readings.
Context `{JsRuntime}.

(** The payload of a hold key as the code decodes it: a stored, non-empty
    text that [JSON.parse] reads as something other than [null]. *)
Definition decode_hold (data : option string) : option value :=
  match data with
  | None => None
  | Some text =>
    if String.eqb text "" then None else
    match JSON_parse text with
    | Some hold => if nullish hold then None else Some hold
    | None => None
    end
  end.

(** The defensive check of [getHold]: [expiresAt] is set and in the past. *)
Definition stale (now : Z) (hold : value) : bool :=
  truthy (prop hold "expiresAt") && js_lt (prop hold "expiresAt") now.

(** A payload with the fields of a Hold. *)
Definition is_hold (v : value) : bool :=
  match prop v "userId", prop v "bookingId", prop v "sectionId", prop v "expiresAt" with
  | VStr _, VStr _, VStr _, VNum _ => true
  | _, _, _, _ => false
  end.

(** A live hold of [seatId] as [releaseHold] sees it. *)
Definition live_hold (now : Z) (d : gmap string entry) (seatId : string) (hold : value) : Prop :=
  decode_hold (lookup_live now d (hold_key seatId)) = Some hold
  /\ stale now hold = false /\ truthy hold = true.

(** The record of a referenced seat whose hold is live. *)
Definition resolve_seat (now : Z) (d : gmap string entry) (seatId : value) : option value :=
  match decode_hold (lookup_live now d (hold_key (tpl seatId))) with
  | Some hold =>
    if stale now hold then None
    else if truthy hold then Some (seat_record seatId hold) else None
  | None => None
  end.

(** The store once the stale records of the referenced seats are deleted. *)
Fixpoint without_stale (now : Z) (seatIds : list value) (d : gmap string entry)
  : gmap string entry :=
  match seatIds with
  | [] => d
  | seatId :: rest =>
    match decode_hold (lookup_live now d (hold_key (tpl seatId))) with
    | Some hold =>
      if stale now hold then without_stale now rest (delete (hold_key (tpl seatId)) d)
      else without_stale now rest d
    | None => without_stale now rest d
    end
  end.

(** The seats a booking-index text refers to: the items of a JSON array,
    the one value of any other JSON text, the text itself when it is not
    JSON. *)
Definition decode_index (text : string) : list value :=
  match JSON_parse text with
  | Some (VArr items) => items
  | Some seatId => [seatId]
  | None => [VStr text]
  end.

(** Null, the flat record, or the grouped record. *)
Definition assemble (bookingId : string) (seats : list value) : value :=
  match seats with
  | [] => VNull
  | [seat] => seat
  | first :: _ =>
    VObj [("bookingId", VStr bookingId); ("userId", prop first "userId");
          ("seats", VArr seats)]
  end.

(** The status [getRedisSeatStatus] answers for one seat on store [d]. *)
Definition resolveOne (now : Z) (d : gmap string entry) (seatId : string) : option status :=
  match (getRedisSeatStatus now seatId (World d [])).1 with
  | Ok st => st
  | Throw _ => None
  end.

(** The mapping of the per-seat answers, [null] answers left out. *)
Definition resolve_each (now : Z) (d : gmap string entry) (seatIds : list string)
  : gmap string status :=
  fold_left (fun statuses seatId =>
               match resolveOne now d seatId with
               | Some st => <[seatId := st]> statuses
               | None => statuses
               end) seatIds ∅.

(** What the batched loop records for one seat: it looks at the raw text
    of the hold key only. *)
Definition batch_step (now : Z) (d : gmap string entry) (statuses : gmap string status)
    (seatId : string) : gmap string status :=
  if is_booked (lookup_live now d (status_key seatId)) then <[seatId := BOOKED]> statuses
  else if negb (falsy_data (lookup_live now d (hold_key seatId)))
       then <[seatId := HOLD]> statuses
       else statuses.

(** The seat is held in the eyes of [getHold]. *)
Definition held (now : Z) (d : gmap string entry) (seatId : string) : bool :=
  match decode_hold (lookup_live now d (hold_key seatId)) with
  | Some hold => negb (stale now hold) && truthy hold
  | None => false
  end.

(** ** Entries of a bulk update *)

(** The epoch-seconds an entry of the documented kinds (an ISO string or a
    number of seconds) converts to. *)
Definition epoch_seconds (unlocksAt : value) : option Z :=
  match unlocksAt with
  | VStr text => (fun ms => ms / 1000) <$> Date_parse text
  | VNum z => Some z
  | _ => None
  end.

(** An entry the handler writes and carries on from. *)
Definition accepted (item : string * value) : Prop :=
  exists z, epoch_seconds item.2 = Some z /\ valid_time (z * 1000) = true.

(** The store and the [results] object after an accepted entry. *)
Definition write_entry (d : gmap string entry) (item : string * value) : gmap string entry :=
  match epoch_seconds item.2 with
  | Some z => <[geo_key (toLowerCase item.1) := Entry (ToString (VNum z)) None]> d
  | None => d
  end.

Definition record_entry (results : gmap string value) (item : string * value)
  : gmap string value :=
  match epoch_seconds item.2 with
  | Some z => assign item.1 (VNum z) results
  | None => results
  end.

End Readings.

(** ** Stores and answers of the further properties *)

Section Answers.
Context `{JsRuntime} `{JsText}.

(** The store after a granted [createHold]. *)
Definition granted (now : Z) (seatId userId bookingId sectionId : string)
    (d : gmap string entry) : gmap string entry :=
  <[booking_key bookingId := Entry seatId (Some (now + HOLD_TTL_SECONDS * 1000))]>
    (<[hold_key seatId :=
         Entry (JSON_stringify
                  (hold_object userId bookingId sectionId (now + HOLD_TTL_SECONDS * 1000)))
               (Some (now + HOLD_TTL_SECONDS * 1000))]> d).

(** The store after a granted [createHoldAt]. *)
Definition grantedAt (now t1 t2 : Z) (seatId userId bookingId sectionId : string)
    (d : gmap string entry) : gmap string entry :=
  <[booking_key bookingId := Entry seatId (Some (t2 + HOLD_TTL_SECONDS * 1000))]>
    (<[hold_key seatId :=
         Entry (JSON_stringify
                  (hold_object userId bookingId sectionId (now + HOLD_TTL_SECONDS * 1000)))
               (Some (t1 + HOLD_TTL_SECONDS * 1000))]> d).

(** The record [getHoldByBookingId] shows for a seat of a granted booking. *)
Definition granted_record (now : Z) (userId bookingId : string) (seat : string * string)
  : value :=
  seat_record (VStr seat.1) (hold_object userId bookingId seat.2 (now + 120000)).

(** The status the batched reading gives a seat it was asked for. *)
Definition batch_status (now : Z) (d : gmap string entry) (seatId : string) : option status :=
  if is_booked (lookup_live now d (status_key seatId)) then Some BOOKED
  else if negb (falsy_data (lookup_live now d (hold_key seatId))) then Some HOLD
  else None.

(** The answer of [isGeoUnlocked] to what the store replied for the city. *)
Definition geo_answer (now : Z) (reply : option string) : geo_status :=
  match reply with
  | None => GeoStatus true VNull 0
  | Some text =>
    if String.eqb text "" then GeoStatus true VNull 0 else
    match parseInt text with
    | Some t =>
      if t =? 0 then GeoStatus true VNull 0
      else GeoStatus (t <=? now / 1000) (VNum t) (Z.max 0 (t - now / 1000))
    | None => GeoStatus true VNull 0
    end
  end.

(** The entry of the listing for a stored text. *)
Definition listed (text : string) : value * string :=
  match parseInt text with
  | Some z => (VNum z, toISOString (z * 1000))
  | None => (VNaN, "")
  end.

(** A stored text the listing can print: a number within the range of a
    [Date]. *)
Definition printable (text : string) : Prop :=
  exists z, parseInt text = Some z /\ valid_time (z * 1000) = true.

(** The entry the handler shows for a row: the status of the row unless
    the store has one for the seat. *)
Definition shown (now : Z) (d : gmap string entry) (seat : seat_row) : string * string :=
  (seat_id seat,
   match batch_status now d (seat_id seat) with
   | Some st => status_name st
   | None => seat_status seat
   end).

(** The rows of a section, in the order of the inventory. *)
Definition rows_of (sectionId : string) (seats : list seat_row) : list seat_row :=
  filter (fun seat => section_id seat = sectionId) seats.

End Answers.

(** ** Stores of the examples *)

(** The store after [createHold("A1", u1, bk1, s1)] at time 0. *)
Definition after_first_hold : gmap string entry :=
  db (createHold (H := Reference.runtime) 0 "A1" "u1" "bk1" "s1" (World ∅ [])).2.

(** A hold of seat A1 written at time 0 by a client whose command reached
    the store half a second later: the payload expires at 120000, the key
    at 120500. *)
Definition lagging_hold : gmap string entry :=
  {[ hold_key "A1" :=
       Entry (Reference.ref_stringify (hold_object "u1" "bk1" "s1" 120000)) (Some 120500) ]}.

(** A record that lost all fields of a Hold but one. *)
Definition truncated_hold : gmap string entry :=
  {[ hold_key "A1" := Entry (Reference.ref_stringify (VObj [("userId", VStr "u1")])) (Some 120000) ]}.

(** The store of [after_first_hold] once seat A2 is marked as booked. *)
Definition marked_store : gmap string entry :=
  <[status_key "A2" := Entry "BOOKED" None]> after_first_hold.

(** A gate for Pune that opens at 1700000000 seconds. *)
Definition pune_gate : gmap string entry :=
  <[geo_key "pune" := Entry "1700000000" None]> ∅.

(** The entry a bulk update leaves behind for a time given in
    microseconds. *)
Definition broken_gate : gmap string entry :=
  <[geo_key "pune" := Entry "1708837200000000" None]> ∅.

(** An inventory of three seats in two sections. *)
Definition inventory : list seat_row :=
  [SeatRow "A1" "s1" "AVAILABLE"; SeatRow "B1" "s2" "AVAILABLE"; SeatRow "A2" "s1" "AVAILABLE"].

(** * Properties *)

(** ** Keys *)

Lemma hold_key_inj a b : hold_key a = hold_key b -> a = b.
Proof. unfold hold_key. cbv [String.append]. congruence. Qed.

Lemma hold_key_booking_key a b : hold_key a <> booking_key b.
Proof. unfold hold_key, booking_key. cbv [String.append]. congruence. Qed.

Lemma status_key_hold_key a b : status_key a <> hold_key b.
Proof. unfold hold_key, status_key, STATUS_KEY_PREFIX. cbv [String.append]. congruence. Qed.

Lemma status_key_booking_key a b : status_key a <> booking_key b.
Proof. unfold booking_key, status_key, STATUS_KEY_PREFIX. cbv [String.append]. congruence. Qed.

(** ** Commands of a store that refuses nothing *)

Lemma command_ok {A} (f : gmap string entry -> A * gmap string entry) d :
  command f (World d []) = (Ok (f d).1, World (f d).2 []).
Proof. unfold command. simpl. destruct (f d). reflexivity. Qed.

Lemma bind_ok {S A B} (m : M S A) (k : A -> M S B) s a s' :
  m s = (Ok a, s') -> bind m k s = k a s'.
Proof. intros Hm. unfold bind. rewrite Hm. reflexivity. Qed.

Lemma bind_throw {S A B} (m : M S A) (k : A -> M S B) s e s' :
  m s = (Throw e, s') -> bind m k s = (Throw e, s').
Proof. intros Hm. unfold bind. rewrite Hm. reflexivity. Qed.

Lemma ensureConnection_ok d : ensureConnection (World d []) = (Ok tt, World d []).
Proof. apply command_ok. Qed.

Lemma redis_get_ok now k d :
  redis_get now k (World d []) = (Ok (lookup_live now d k), World d []).
Proof. apply command_ok. Qed.

Lemma redis_del_ok k d : redis_del k (World d []) = (Ok tt, World (delete k d) []).
Proof. apply command_ok. Qed.

Lemma redis_set_ok k v d :
  redis_set k v (World d []) = (Ok tt, World (<[k := Entry v None]> d) []).
Proof. apply command_ok. Qed.

Lemma redis_set_ex_ok now k v ttl d :
  redis_set_ex now k v ttl (World d [])
  = (Ok tt, World (<[k := Entry v (Some (now + ttl * 1000))]> d) []).
Proof. apply command_ok. Qed.

Lemma redis_set_nx_ex_held now k v ttl d old :
  lookup_live now d k = Some old ->
  redis_set_nx_ex now k v ttl (World d []) = (Ok false, World d []).
Proof. intros Hold. unfold redis_set_nx_ex. rewrite command_ok, Hold. reflexivity. Qed.

Lemma redis_set_nx_ex_free now k v ttl d :
  lookup_live now d k = None ->
  redis_set_nx_ex now k v ttl (World d [])
  = (Ok true, World (<[k := Entry v (Some (now + ttl * 1000))]> d) []).
Proof. intros Hfree. unfold redis_set_nx_ex. rewrite command_ok, Hfree. reflexivity. Qed.

Lemma lookup_live_insert_eq now k v t d :
  now < t -> lookup_live now (<[k := Entry v (Some t)]> d) k = Some v.
Proof.
  intros Hlt. unfold lookup_live. rewrite lookup_insert_eq. unfold live. simpl.
  destruct (Z.ltb_spec now t); [reflexivity | lia].
Qed.

Lemma lookup_live_insert_ne now k k' e d :
  k <> k' -> lookup_live now (<[k := e]> d) k' = lookup_live now d k'.
Proof. intros Hne. unfold lookup_live. rewrite lookup_insert_ne by done. reflexivity. Qed.

Lemma lookup_live_delete_ne now k k' d :
  k <> k' -> lookup_live now (delete k d) k' = lookup_live now d k'.
Proof. intros Hne. unfold lookup_live. rewrite lookup_delete_ne by done. reflexivity. Qed.

(** ** Commands of a store that refuses at most one command *)

Lemma command_run {A} (f : gmap string entry -> A * gmap string entry) d fs :
  command f (World d fs)
  = if refused fs then (Throw StoreUnavailable, World d (tail fs))
    else (Ok (f d).1, World (f d).2 (tail fs)).
Proof. unfold command. simpl. destruct fs as [|[] fs]; simpl; destruct (f d); reflexivity. Qed.

Lemma one_fault_tail fs : one_fault fs -> one_fault (tail fs).
Proof. intros Hfs. destruct Hfs; simpl; auto using one_fault. Qed.

Lemma one_fault_refused fs : one_fault fs -> refused fs = true -> tail fs = [].
Proof. intros Hfs. destruct Hfs; simpl; congruence. Qed.

Lemma refused_pending fs : refused fs = true -> true ∈ fs.
Proof. destruct fs as [|[] fs]; simpl; [done| |done]. intros _. set_solver. Qed.

Lemma pending_tail fs : refused fs = false -> true ∈ fs -> true ∈ tail fs.
Proof. destruct fs as [|[] fs]; simpl; [done|done|]. intros _. set_solver. Qed.

Lemma tail_pending fs : true ∈ tail fs -> true ∈ fs.
Proof. destruct fs as [|b fs]; simpl; [done|]. set_solver. Qed.

Lemma fault_outcome_tail {A} fs fs' (r : result A) :
  refused fs = false -> fault_outcome (tail fs) fs' r -> fault_outcome fs fs' r.
Proof.
  intros Hfs. destruct r; simpl.
  - intros [? Hp]. split; [done|]. rewrite <- Hp. split; [by apply pending_tail | apply tail_pending].
  - intros (? & ? & ?). auto using tail_pending.
Qed.

Lemma fault_outcome_refused {A} fs e :
  one_fault fs -> refused fs = true -> e = StoreUnavailable ->
  @fault_outcome A fs (tail fs) (Throw e).
Proof. intros Hfs Hr ->. simpl. auto using one_fault_refused, refused_pending. Qed.

(** *** The rollback loop *)

Lemma deleted_lookup locked : forall d k,
  deleted locked d !! k = if decide (k ∈ hold_key <$> locked) then None else d !! k.
Proof.
  induction locked as [|s locked IH]; intros d k.
  - simpl. reflexivity.
  - cbn [deleted fold_left]. fold (deleted locked (delete (hold_key s) d)).
    rewrite IH, fmap_cons. repeat case_decide; try reflexivity.
    + exfalso. set_solver.
    + destruct (decide (k = hold_key s)) as [->|Hne].
      * by rewrite lookup_delete_eq.
      * exfalso. set_solver.
    + rewrite lookup_delete_ne; [reflexivity|]. set_solver.
Qed.

Lemma releaseLocks_ok locked : forall d,
  releaseLocks locked (World d []) = (Ok tt, World (deleted locked d) []).
Proof.
  induction locked as [|s locked IH]; intros d; simpl; [reflexivity|].
  rewrite (bind_ok _ _ _ _ _ (redis_del_ok _ _)). apply IH.
Qed.

(** Whatever the store refuses, the rollback loop touches hold keys of
    [locked] only. *)
Lemma releaseLocks_run locked : forall d fs,
  one_fault fs ->
  exists r d' fs',
    releaseLocks locked (World d fs) = (r, World d' fs')
    /\ (forall k, k ∉ hold_key <$> locked -> d' !! k = d !! k)
    /\ fault_outcome fs fs' r
    /\ ((exists u, r = Ok u) -> d' = deleted locked d).
Proof.
  induction locked as [|s locked IH]; intros d fs Hfs; simpl.
  - exists (Ok tt), d, fs. repeat split; auto.
  - unfold bind at 1. unfold redis_del at 1. rewrite command_run.
    destruct (refused fs) eqn:Hr.
    + exists (Throw StoreUnavailable), d, (tail fs). repeat split; auto.
      * by apply one_fault_refused.
      * by apply refused_pending.
      * intros [u Hu]. discriminate.
    + simpl. destruct (IH (delete (hold_key s) d) (tail fs) (one_fault_tail _ Hfs))
        as (r & d' & fs' & Hrun & Hframe & Hr' & Hok).
      exists r, d', fs'. split; [exact Hrun|]. split; [|split; [|exact Hok]].
      * intros k Hk. rewrite Hframe by set_solver.
        apply lookup_delete_ne. set_solver.
      * by apply fault_outcome_tail.
Qed.

Section HoldProperties.
Context `{JsRuntime}.

(** *** createHold *)

Lemma createHold_held now d seatId userId bookingId sectionId old :
  lookup_live now d (hold_key seatId) = Some old ->
  createHold now seatId userId bookingId sectionId (World d []) = (Ok false, World d []).
Proof.
  intros Hold. unfold createHold.
  rewrite (bind_ok _ _ _ _ _ (ensureConnection_ok d)).
  rewrite (bind_ok _ _ _ _ _ (redis_set_nx_ex_held _ _ _ _ _ _ Hold)).
  reflexivity.
Qed.

Lemma createHold_free now d seatId userId bookingId sectionId :
  lookup_live now d (hold_key seatId) = None ->
  createHold now seatId userId bookingId sectionId (World d [])
  = (Ok true,
     World (<[booking_key bookingId := Entry seatId (Some (now + HOLD_TTL_SECONDS * 1000))]>
             (<[hold_key seatId :=
                  Entry (JSON_stringify
                           (hold_object userId bookingId sectionId (now + HOLD_TTL_SECONDS * 1000)))
                        (Some (now + HOLD_TTL_SECONDS * 1000))]> d)) []).
Proof.
  intros Hfree. unfold createHold.
  rewrite (bind_ok _ _ _ _ _ (ensureConnection_ok d)).
  rewrite (bind_ok _ _ _ _ _ (redis_set_nx_ex_free _ _ _ _ _ Hfree)).
  rewrite (bind_ok _ _ _ _ _ (redis_set_ex_ok _ _ _ _ _)).
  reflexivity.
Qed.

End HoldProperties.

(** ** createMultipleHolds *)

Section MultipleHoldsProperties.
Context `{JsRuntime}.
Variables (now : Z) (userId bookingId : string).

Lemma in_world_run {A} (m : M world A) locked w r w' :
  m w = (r, w') -> in_world m (Frame locked w) = (r, Frame locked w').
Proof. intros Hm. unfold in_world. simpl. rewrite Hm. reflexivity. Qed.

Lemma in_world_command {A} (f : gmap string entry -> A * gmap string entry) locked d fs :
  in_world (command f) (Frame locked (World d fs))
  = if refused fs then (Throw StoreUnavailable, Frame locked (World d (tail fs)))
    else (Ok (f d).1, Frame locked (World (f d).2 (tail fs))).
Proof. unfold in_world. cbn [fworld lockedSeats]. rewrite command_run. by destruct (refused fs). Qed.

Lemma rollback_ok {A} (k : M frame A) locked d :
  (locked0 <- get_locked ;;
   in_world (releaseLocks locked0) ;;
   in_world (redis_del (booking_key bookingId)) ;; k) (Frame locked (World d []))
  = k (Frame locked (World (delete (booking_key bookingId) (deleted locked d)) [])).
Proof.
  unfold bind, get_locked. cbn [lockedSeats].
  rewrite (in_world_run _ _ _ _ _ (releaseLocks_ok locked d)).
  rewrite (in_world_run _ _ _ _ _ (redis_del_ok _ _)). reflexivity.
Qed.

Lemma rolled_back_deleted locked d :
  rolled_back bookingId locked d (delete (booking_key bookingId) (deleted locked d)).
Proof.
  intros k. destruct (decide (k = booking_key bookingId)) as [->|Hne].
  - rewrite lookup_delete_eq. case_decide; [reflexivity | tauto].
  - rewrite lookup_delete_ne by done. rewrite deleted_lookup.
    repeat case_decide; try reflexivity; tauto.
Qed.

Lemma rollback_run {A} (k : M frame A) locked d fs :
  one_fault fs ->
  (exists d' fs',
      (locked0 <- get_locked ;;
       in_world (releaseLocks locked0) ;;
       in_world (redis_del (booking_key bookingId)) ;; k) (Frame locked (World d fs))
      = k (Frame locked (World d' fs'))
      /\ one_fault fs' /\ (true ∈ fs <-> true ∈ fs') /\ rolled_back bookingId locked d d')
  \/ (exists d',
      (locked0 <- get_locked ;;
       in_world (releaseLocks locked0) ;;
       in_world (redis_del (booking_key bookingId)) ;; k) (Frame locked (World d fs))
      = (Throw StoreUnavailable, Frame locked (World d' []))
      /\ true ∈ fs /\ rolling_back bookingId locked d d').
Proof.
  intros Hfs. unfold bind, get_locked. cbn [lockedSeats].
  destruct (releaseLocks_run locked d fs Hfs) as (r & d1 & fs1 & Hrun & Hframe & Hr & Hok).
  rewrite (in_world_run _ _ _ _ _ Hrun).
  destruct r as [[]|e].
  - destruct Hr as [Hfs1 Hp]. rewrite Hok in * by eauto.
    unfold redis_del. rewrite !in_world_command.
    destruct (refused fs1) eqn:Hrefused.
    + right. exists (deleted locked d). rewrite (one_fault_refused _ Hfs1 Hrefused).
      split; [reflexivity|]. split.
      * by apply Hp, refused_pending.
      * intros key Hkey _. by apply Hframe.
    + left. exists (delete (booking_key bookingId) (deleted locked d)), (tail fs1).
      cbn [fst snd]. split; [reflexivity|].
      split; [by apply one_fault_tail|]. split; [|apply rolled_back_deleted].
      rewrite Hp. split; [by apply pending_tail | apply tail_pending].
  - destruct Hr as (-> & -> & Hp). right. exists d1. split; [reflexivity|].
    split; [done|]. intros key Hkey _. by apply Hframe.
Qed.

Lemma lockLoop_run seats : forall (locked : list string) d0 dc fs,
  one_fault fs ->
  (forall s, s ∈ locked -> lookup_live now d0 (hold_key s) = None) ->
  (forall k, k ∉ hold_key <$> locked -> dc !! k = d0 !! k) ->
  exists res locked' d' fs',
    lockLoop now seats userId bookingId (expiry now) (Frame locked (World dc fs))
    = (res, Frame locked' (World d' fs'))
    /\ (forall s, s ∈ locked' -> lookup_live now d0 (hold_key s) = None)
    /\ fault_outcome fs fs' res
    /\ match res with
       | Ok None =>
         locked' = (locked ++ seats.*1)%list
         /\ (forall k, k ∉ hold_key <$> locked' -> d' !! k = d0 !! k)
         /\ (forall k, lookup_live now dc k <> None -> d' !! k = dc !! k)
         /\ (forall s sec, (s, sec) ∈ seats -> d' !! hold_key s = Some (hold_entry now userId bookingId sec))
       | Ok (Some r) => r = false /\ rolled_back bookingId locked' d0 d'
       | Throw e => rolling_back bookingId locked' d0 d'
       end.
Proof.
  induction seats as [|[s sec] rest IH]; intros locked d0 dc fs Hfs Hfree Hframe.
  - exists (Ok None), locked, dc, fs. simpl. rewrite app_nil_r. repeat split; auto.
    intros ? ? Hin. inversion Hin.
  - cbn [lockLoop]. unfold bind at 1.
    unfold redis_set_nx_ex at 1. rewrite in_world_command.
    destruct (refused fs) eqn:Hrefused.
    { exists (Throw StoreUnavailable), locked, dc, (tail fs).
      split; [reflexivity|]. split; [exact Hfree|].
      split; [by apply fault_outcome_refused|]. intros k Hk _. by apply Hframe. }
    cbn [fst snd].
    destruct (lookup_live now dc (hold_key s)) as [old|] eqn:Hs; cbn [fst snd negb].
    + destruct (rollback_run (ret (Some false)) locked dc (tail fs) (one_fault_tail _ Hfs))
        as [(d' & fs' & -> & Hfs' & Hp & Hd')|(d' & -> & Hp & Hd')].
      * exists (Ok (Some false)), locked, d', fs'.
        split; [reflexivity|]. split; [exact Hfree|].
        split; [by apply fault_outcome_tail|]. split; [reflexivity|].
        intros k. rewrite Hd'. case_decide as Hk; [reflexivity|].
        apply Hframe. tauto.
      * exists (Throw StoreUnavailable), locked, d', [].
        split; [reflexivity|]. split; [exact Hfree|].
        split; [by apply fault_outcome_tail|].
        intros k Hk Hbk. rewrite Hd' by done. by apply Hframe.
    + unfold bind at 1. unfold push_locked at 1. cbn [lockedSeats fworld].
      change (Entry _ (Some (now + HOLD_TTL_SECONDS * 1000))) with (hold_entry now userId bookingId sec).
      set (dc1 := <[hold_key s := hold_entry now userId bookingId sec]> dc).
      assert (Hlive1 : lookup_live now dc1 (hold_key s) <> None).
      { unfold dc1, hold_entry. rewrite lookup_live_insert_eq; [done|].
        unfold expiry, HOLD_TTL_SECONDS. lia. }
      destruct (IH (locked ++ [s])%list d0 dc1 (tail fs))
        as (res & locked' & d' & fs' & Hrun & Hfree' & Hfo & Hres).
      * by apply one_fault_tail.
      * intros s' [Hs'|Hs']%elem_of_app; [by apply Hfree|].
        apply list_elem_of_singleton in Hs' as ->.
        destruct (decide (s ∈ locked)) as [Hin|Hnin]; [by apply Hfree|].
        unfold lookup_live. rewrite <- Hframe; [exact Hs|].
        intros (s'' & Heq & Hin)%list_elem_of_fmap. apply hold_key_inj in Heq as ->. done.
      * intros k Hk. rewrite fmap_app in Hk. unfold dc1.
        rewrite lookup_insert_ne by set_solver. apply Hframe. set_solver.
      * exists res, locked', d', fs'. split; [exact Hrun|]. split; [exact Hfree'|].
        split; [by apply fault_outcome_tail|].
        destruct res as [[r|]|e]; [exact Hres| |exact Hres].
        destruct Hres as (-> & Hfr & Hkeep & Hseats).
        split; [by rewrite <- app_assoc|]. split; [exact Hfr|].
        assert (Hother : forall k, lookup_live now dc k <> None -> k <> hold_key s).
        { intros k Hk ->. congruence. }
        split.
        -- intros k Hk. rewrite Hkeep.
           ++ unfold dc1. apply lookup_insert_ne. by apply not_eq_sym, Hother.
           ++ unfold dc1. rewrite lookup_live_insert_ne; [done|]. by apply not_eq_sym, Hother.
        -- intros s' sec' [Heq|Hin]%elem_of_cons.
           ++ injection Heq as -> ->. rewrite Hkeep by done. unfold dc1.
              apply lookup_insert_eq.
           ++ by apply Hseats.
Qed.

Lemma rolled_back_unchanged locked d d' :
  (forall s, s ∈ locked -> lookup_live now d (hold_key s) = None) ->
  rolled_back bookingId locked d d' ->
  unchanged_but_index now bookingId d d' /\ d' !! booking_key bookingId = None.
Proof.
  intros Hfree Hd'. split.
  - intros k Hk. unfold lookup_live at 1. rewrite !Hd'. case_decide as Hin.
    + destruct Hin as [(s & -> & Hin)%list_elem_of_fmap|]; [|done].
      rewrite (Hfree s Hin). done.
    + done.
  - rewrite Hd'. case_decide; [reflexivity | tauto].
Qed.

Lemma rolling_back_finish locked d d' :
  rolling_back bookingId locked d d' ->
  rolled_back bookingId locked d (delete (booking_key bookingId) (deleted locked d')).
Proof.
  intros Hd' k. rewrite (rolled_back_deleted locked d' k).
  case_decide as Hin; [reflexivity|]. apply Hd'; tauto.
Qed.

Lemma createMultipleHolds_run seats d fs :
  one_fault fs ->
  exists r d' fs',
    createMultipleHolds now seats userId bookingId (World d fs) = (r, World d' fs')
    /\ fault_outcome fs fs' r
    /\ all_or_nothing now userId bookingId seats d (refused fs) r d'.
Proof.
  intros Hfs. unfold createMultipleHolds, ensureConnection. unfold bind at 1.
  rewrite command_run. destruct (refused fs) eqn:Hrefused.
  { exists (Throw StoreUnavailable), d, (tail fs). split; [reflexivity|].
    split; [by apply fault_outcome_refused|]. simpl. repeat split; auto. }
  cbn [fst snd]. unfold with_frame, try_catch. unfold bind at 1.
  fold (expiry now).
  destruct (lockLoop_run seats [] d d (tail fs))
    as (res & locked & d1 & fs1 & Hrun & Hfree & Hfo & Hres).
  { by apply one_fault_tail. } { intros s Hs. inversion Hs. } { done. }
  apply fault_outcome_tail in Hfo; [|done].
  rewrite Hrun. destruct res as [[r|]|e].
  - destruct Hres as (-> & Hd1). exists (Ok false), d1, fs1.
    split; [reflexivity|]. split; [exact Hfo|]. by apply (rolled_back_unchanged locked).
  - destruct Hres as (-> & Hfr & _ & Hseats). destruct Hfo as [Hfs1 Hp]. simpl app.
    unfold bind at 1, get_locked at 1. cbn [lockedSeats]. unfold bind at 1.
    unfold redis_set_ex at 1. rewrite in_world_command.
    destruct (refused fs1) eqn:Hrefused1.
    + rewrite (one_fault_refused _ Hfs1 Hrefused1), rollback_ok.
      eexists _, _, _. split; [reflexivity|]. split.
      { simpl. repeat split; auto. by apply Hp, refused_pending. }
      split; [reflexivity|].
      apply (rolled_back_unchanged seats.*1); [exact Hfree|].
      apply rolling_back_finish. intros k Hk _. by apply Hfr.
    + cbn [fst snd]. eexists _, _, _. split; [reflexivity|]. split.
      { simpl. split; [by apply one_fault_tail|]. rewrite Hp.
        split; [by apply pending_tail | apply tail_pending]. }
      split.
      * intros s sec Hin. rewrite lookup_insert_ne by (apply not_eq_sym, hold_key_booking_key).
        by apply Hseats.
      * cbn [db]. rewrite lookup_insert_eq. reflexivity.
  - destruct Hfo as (-> & -> & Hp). rewrite rollback_ok.
    eexists _, _, _. split; [reflexivity|]. split; [by simpl|]. split; [reflexivity|].
    apply (rolled_back_unchanged locked); [exact Hfree|]. by apply rolling_back_finish.
Qed.

(** A store that refuses nothing: the loop returns early exactly on
    contention. *)
Lemma lockLoop_ok seats : forall (locked : list string) dc,
  exists res locked' d',
    lockLoop now seats userId bookingId (expiry now) (Frame locked (World dc []))
    = (Ok res, Frame locked' (World d' []))
    /\ (res = None \/ res = Some false)
    /\ (res = None <->
        NoDup seats.*1 /\ forall s, s ∈ seats.*1 -> lookup_live now dc (hold_key s) = None).
Proof.
  induction seats as [|[s sec] rest IH]; intros locked dc.
  - exists None, locked, dc. split; [reflexivity|]. split; [by left|].
    split; [|done]. intros _. split; [constructor|]. intros s Hs. inversion Hs.
  - cbn [lockLoop]. unfold bind at 1. unfold redis_set_nx_ex at 1.
    rewrite in_world_command. cbn [refused fst snd tail].
    destruct (lookup_live now dc (hold_key s)) as [old|] eqn:Hs; cbn [fst snd negb].
    + rewrite rollback_ok. eexists _, _, _. split; [reflexivity|]. split; [by right|].
      split; [done|]. intros [_ Hfree]. rewrite Hfree in Hs; [done|]. set_solver.
    + unfold bind at 1. unfold push_locked at 1. cbn [lockedSeats fworld].
      change (Entry _ (Some (now + HOLD_TTL_SECONDS * 1000))) with (hold_entry now userId bookingId sec).
      destruct (IH (locked ++ [s])%list (<[hold_key s := hold_entry now userId bookingId sec]> dc))
        as (res & locked' & d' & Hrun & Hres & Hiff).
      exists res, locked', d'. split; [exact Hrun|]. split; [exact Hres|].
      rewrite Hiff. cbn [fmap list_fmap fst]. rewrite NoDup_cons. split.
      * intros [Hnd Hfree]. 
        assert (Hnin : s ∉ rest.*1).
        { intros Hin. specialize (Hfree s Hin). unfold hold_entry in Hfree.
          rewrite lookup_live_insert_eq in Hfree; [done|].
          unfold expiry, HOLD_TTL_SECONDS. lia. }
        split; [done|]. intros s' [->|Hin]%elem_of_cons; [done|].
        specialize (Hfree s' Hin). rewrite lookup_live_insert_ne in Hfree; [done|].
        intros Heq%hold_key_inj. congruence.
      * intros [[Hnin Hnd] Hfree]. split; [done|]. intros s' Hin.
        rewrite lookup_live_insert_ne.
        -- apply Hfree. set_solver.
        -- intros Heq%hold_key_inj. congruence.
Qed.

Lemma createMultipleHolds_ok seats d :
  exists b d',
    createMultipleHolds now seats userId bookingId (World d []) = (Ok b, World d' [])
    /\ (b = true <->
        NoDup seats.*1 /\ forall s, s ∈ seats.*1 -> lookup_live now d (hold_key s) = None).
Proof.
  unfold createMultipleHolds. rewrite (bind_ok _ _ _ _ _ (ensureConnection_ok d)).
  unfold with_frame, try_catch. unfold bind at 1. fold (expiry now).
  destruct (lockLoop_ok seats [] d) as (res & locked & d' & Hrun & Hres & Hiff).
  rewrite Hrun. destruct Hres as [-> | ->].
  - unfold bind at 1, get_locked at 1. cbn [lockedSeats]. unfold bind at 1.
    unfold redis_set_ex at 1. rewrite in_world_command. cbn [refused fst snd tail].
    eexists _, _. split; [reflexivity|]. rewrite <- Hiff. done.
  - eexists _, _. split; [reflexivity|]. rewrite <- Hiff. done.
Qed.



End MultipleHoldsProperties.

(** ** Mutual exclusion *)

Section Exclusion.
Context `{JsRuntime}.

Lemma createMultipleHolds_held now seats userId bookingId d seatId old :
  lookup_live now d (hold_key seatId) = Some old ->
  seatId ∈ seats.*1 ->
  exists d',
    createMultipleHolds now seats userId bookingId (World d []) = (Ok false, World d' [])
    /\ d' !! hold_key seatId = d !! hold_key seatId.
Proof.
  intros Hold Hin.
  destruct (createMultipleHolds_ok now userId bookingId seats d) as (b & d' & Hok & Hiff).
  assert (b = false) as ->.
  { destruct b; [|done]. destruct Hiff as [Hiff _].
    destruct (Hiff eq_refl) as [_ Hfree]. rewrite (Hfree _ Hin) in Hold. done. }
  exists d'. split; [exact Hok|].
  destruct (createMultipleHolds_run now userId bookingId seats d [] of_none)
    as (r & d'' & fs' & Hrun & _ & Haon).
  rewrite Hok in Hrun. injection Hrun as <- <- <-.
  destruct Haon as [Hsame _].
  apply Hsame; [apply hold_key_booking_key | congruence].
Qed.

(** C2. At most one live hold per seat.  While a hold entry for [seatId]
    is live, [createHold] on that seat returns [false] without an error and
    without touching the store, and a [createMultipleHolds] whose list
    names the seat returns [false] with the entry of that seat left as it
    was; so of two [createHold] calls on one seat, the second within the
    TTL of the first, at most one returns [true]. *)
Theorem at_most_one_live_hold now d seatId :
  (forall old, lookup_live now d (hold_key seatId) = Some old ->
     (forall userId bookingId sectionId,
        createHold now seatId userId bookingId sectionId (World d [])
        = (Ok false, World d []))
     /\ (forall seats userId bookingId, seatId ∈ seats.*1 ->
          exists d',
            createMultipleHolds now seats userId bookingId (World d [])
            = (Ok false, World d' [])
            /\ d' !! hold_key seatId = d !! hold_key seatId))
  /\ (forall user1 booking1 section1 user2 booking2 section2 now2 r1 w1 r2 w2,
        now <= now2 < now + HOLD_TTL_SECONDS * 1000 ->
        createHold now seatId user1 booking1 section1 (World d []) = (r1, w1) ->
        createHold now2 seatId user2 booking2 section2 w1 = (r2, w2) ->
        r1 = Ok true -> r2 = Ok false /\ w2 = w1).
Proof.
  split.
  - intros old Hold. split.
    + intros. by eapply createHold_held.
    + intros. by eapply createMultipleHolds_held.
  - intros user1 booking1 section1 user2 booking2 section2 now2 r1 w1 r2 w2 Hnow2 Hfirst Hsecond ->.
    destruct (lookup_live now d (hold_key seatId)) as [old|] eqn:Hseat.
    + rewrite (createHold_held _ _ _ _ _ _ _ Hseat) in Hfirst. discriminate.
    + rewrite (createHold_free _ _ _ _ _ _ Hseat) in Hfirst. injection Hfirst as <-.
      erewrite createHold_held in Hsecond.
      * injection Hsecond as <- <-. done.
      * rewrite lookup_live_insert_ne by (apply not_eq_sym, hold_key_booking_key).
        apply lookup_live_insert_eq. lia.
Qed.

End Exclusion.

(** ** Reading holds *)

Section ReadingHolds.
Context `{JsRuntime}.

Lemma getHold_ok now seatId d :
  getHold now seatId (World d [])
  = match decode_hold (lookup_live now d (hold_key (tpl seatId))) with
    | Some hold =>
      if stale now hold then (Ok VNull, World (delete (hold_key (tpl seatId)) d) [])
      else (Ok hold, World d [])
    | None => (Ok VNull, World d [])
    end.
Proof.
  unfold getHold. rewrite (bind_ok _ _ _ _ _ (ensureConnection_ok d)).
  rewrite (bind_ok _ _ _ _ _ (redis_get_ok _ _ _)).
  destruct (lookup_live now d (hold_key (tpl seatId))) as [text|]; [|reflexivity].
  unfold decode_hold. destruct (String.eqb text ""); [reflexivity|].
  unfold try_catch, bind, json_parse, member.
  destruct (JSON_parse text) as [hold|]; [|reflexivity].
  unfold ret at 1. destruct (nullish hold); [reflexivity|].
  unfold ret at 1. fold (stale now hold). destruct (stale now hold); [|reflexivity].
  rewrite redis_del_ok. reflexivity.
Qed.

(** C6 (as amended). [getHold] returns [null] when no record, or an empty
    one, is stored; when the stored text is not JSON, or is the JSON text
    [null], it returns [null] without raising; when the text parses and its
    [expiresAt] is truthy and, as a number, below the current time (for a
    number: non-zero and below the current time) it deletes the record and
    returns [null]; in every other case it returns the parsed payload as it
    is, with or without the fields of a Hold, and leaves the store alone. *)
Theorem getHold_cases now seatId d :
  let key := hold_key (tpl seatId) in
  (lookup_live now d key = None \/ lookup_live now d key = Some "" ->
     getHold now seatId (World d []) = (Ok VNull, World d []))
  /\ (forall text, lookup_live now d key = Some text ->
        JSON_parse text = None
        \/ (exists hold, JSON_parse text = Some hold /\ nullish hold = true) ->
        getHold now seatId (World d []) = (Ok VNull, World d []))
  /\ (forall text hold, lookup_live now d key = Some text -> text <> "" ->
        JSON_parse text = Some hold -> nullish hold = false -> stale now hold = true ->
        getHold now seatId (World d []) = (Ok VNull, World (delete key d) []))
  /\ (forall text hold, lookup_live now d key = Some text -> text <> "" ->
        JSON_parse text = Some hold -> nullish hold = false -> stale now hold = false ->
        getHold now seatId (World d []) = (Ok hold, World d []))
  /\ (forall hold,
        stale now hold = true
        <-> truthy (prop hold "expiresAt") = true
            /\ exists z, to_number (prop hold "expiresAt") = Some z /\ z < now)
  /\ (forall hold t, prop hold "expiresAt" = VNum t ->
        stale now hold = true <-> t <> 0 /\ t < now).
Proof.
  intros key. unfold key. rewrite getHold_ok.
  split; [|split; [|split; [|split; [|split]]]].
  - intros [-> | ->]; reflexivity.
  - intros text -> [Hp|(hold & Hp & Hnull)]; unfold decode_hold; rewrite Hp;
      [|rewrite Hnull]; destruct (String.eqb text ""); reflexivity.
  - intros text hold -> Htext Hp Hnull Hstale. unfold decode_hold.
    apply String.eqb_neq in Htext. rewrite Htext, Hp, Hnull, Hstale. reflexivity.
  - intros text hold -> Htext Hp Hnull Hstale. unfold decode_hold.
    apply String.eqb_neq in Htext. rewrite Htext, Hp, Hnull, Hstale. reflexivity.
  - intros hold. unfold stale, js_lt. rewrite andb_true_iff.
    destruct (to_number (prop hold "expiresAt")) as [z|].
    + rewrite Z.ltb_lt. split.
      * intros [Ht Hlt]. split; [exact Ht|]. by exists z.
      * intros [Ht (z' & [= <-] & Hlt)]. done.
    + split; [intros [_ ?]; done | intros [_ (z & ? & _)]; done].
  - intros hold t Hexp. unfold stale, js_lt. rewrite Hexp. cbn [truthy to_number].
    rewrite andb_true_iff, negb_true_iff, Z.eqb_neq, Z.ltb_lt. reflexivity.
Qed.

(** *** releaseHold *)

Lemma releaseHold_ok now seatId userId d :
  releaseHold now seatId userId (World d [])
  = match decode_hold (lookup_live now d (hold_key seatId)) with
    | Some hold =>
      if stale now hold then (Ok false, World (delete (hold_key seatId) d) [])
      else if truthy hold && strict_eq_str (prop hold "userId") userId
      then (Ok true,
            World (delete (booking_key (tpl (prop hold "bookingId")))
                     (delete (hold_key seatId) d)) [])
      else (Ok false, World d [])
    | None => (Ok false, World d [])
    end.
Proof.
  unfold releaseHold. rewrite (bind_ok _ _ _ _ _ (ensureConnection_ok d)).
  unfold bind at 1. rewrite getHold_ok. cbn [tpl].
  destruct (decode_hold (lookup_live now d (hold_key seatId))) as [hold|]; [|reflexivity].
  destruct (stale now hold); [reflexivity|].
  destruct (truthy hold && strict_eq_str (prop hold "userId") userId); [|reflexivity].
  rewrite (bind_ok _ _ _ _ _ (redis_del_ok _ _)).
  rewrite (bind_ok _ _ _ _ _ (redis_del_ok _ _)). reflexivity.
Qed.

(** C4 (as amended). [releaseHold] returns [true] exactly when a live hold
    of the seat exists whose [userId] is the caller's, and it then deletes
    that hold and the booking-index entry of the hold's bookingId.  In
    every other case it returns [false]; the store is then unchanged,
    except that a record that is still stored with an [expiresAt] in the
    past is deleted (its booking-index entry is left). *)
Theorem releaseHold_cases now seatId userId d :
  exists b d',
    releaseHold now seatId userId (World d []) = (Ok b, World d' [])
    /\ (b = true <->
        exists hold, live_hold now d seatId hold
                     /\ prop hold "userId" = VStr userId)
    /\ (forall hold, live_hold now d seatId hold -> prop hold "userId" = VStr userId ->
          d' = delete (booking_key (tpl (prop hold "bookingId")))
                 (delete (hold_key seatId) d))
    /\ (b = false ->
          d' = match decode_hold (lookup_live now d (hold_key seatId)) with
               | Some hold => if stale now hold then delete (hold_key seatId) d else d
               | None => d
               end).
Proof.
  rewrite releaseHold_ok. unfold live_hold.
  destruct (decode_hold (lookup_live now d (hold_key seatId))) as [hold|] eqn:Hd.
  - destruct (stale now hold) eqn:Hstale.
    + eexists _, _. split; [reflexivity|]. split; [|split].
      * split; [done|]. intros (h & (Hh & Hs & _) & _). congruence.
      * intros h (Hh & Hs & _). congruence.
      * done.
    + destruct (truthy hold) eqn:Htruthy; cbn [andb].
      * destruct (strict_eq_str (prop hold "userId") userId) eqn:Huser.
        -- eexists _, _. split; [reflexivity|]. split; [|split].
           ++ split; [|done]. intros _. exists hold. split; [done|].
              unfold strict_eq_str in Huser. destruct (prop hold "userId"); try discriminate.
              apply String.eqb_eq in Huser. by subst.
           ++ intros h (Hh & _ & _) _. congruence.
           ++ done.
        -- eexists _, _. split; [reflexivity|]. split; [|split].
           ++ split; [done|]. intros (h & (Hh & _ & _) & Hu).
              assert (h = hold) as -> by congruence. rewrite Hu in Huser. simpl in Huser.
              rewrite String.eqb_refl in Huser. done.
           ++ intros h (Hh & _ & _) Hu.
              assert (h = hold) as -> by congruence. rewrite Hu in Huser. simpl in Huser.
              rewrite String.eqb_refl in Huser. done.
           ++ done.
      * eexists _, _. split; [reflexivity|]. split; [|split].
        -- split; [done|]. intros (h & (Hh & _ & Ht) & _). congruence.
        -- intros h (Hh & _ & Ht). congruence.
        -- done.
  - eexists _, _. split; [reflexivity|]. split; [|split].
    + split; [done|]. intros (h & (Hh & _) & _). done.
    + intros h (Hh & _). done.
    + done.
Qed.

(** *** getHoldByBookingId *)

Lemma resolve_seat_delete_stale now d key hold seatId :
  decode_hold (lookup_live now d key) = Some hold -> stale now hold = true ->
  resolve_seat now (delete key d) seatId = resolve_seat now d seatId.
Proof.
  intros Hd Hstale. unfold resolve_seat.
  destruct (decide (key = hold_key (tpl seatId))) as [->|Hne].
  - rewrite Hd, Hstale. unfold lookup_live. rewrite lookup_delete_eq. reflexivity.
  - rewrite lookup_live_delete_ne by done. reflexivity.
Qed.

Lemma collectSeats_ok now seatIds : forall d seats,
  collectSeats now seatIds seats (World d [])
  = (Ok (seats ++ omap (resolve_seat now d) seatIds)%list,
     World (without_stale now seatIds d) []).
Proof.
  induction seatIds as [|seatId seatIds IH]; intros d seats.
  - simpl. by rewrite app_nil_r.
  - cbn [collectSeats omap list_omap without_stale]. unfold bind at 1. rewrite getHold_ok.
    change (resolve_seat now d seatId)
      with (match decode_hold (lookup_live now d (hold_key (tpl seatId))) with
            | Some hold =>
              if stale now hold then None
              else if truthy hold then Some (seat_record seatId hold) else None
            | None => None
            end).
    destruct (decode_hold (lookup_live now d (hold_key (tpl seatId)))) as [hold|] eqn:Hd.
    + destruct (stale now hold) eqn:Hstale.
      * cbn [truthy]. rewrite IH. f_equal. f_equal. f_equal.
        apply list_omap_ext, Forall2_same_length_lookup_2; [done|].
        intros i x y Hx Hy. assert (x = y) as -> by congruence.
        by eapply resolve_seat_delete_stale.
      * destruct (truthy hold).
        -- rewrite IH. by rewrite <- app_assoc.
        -- apply IH.
    + cbn [truthy]. apply IH.
Qed.

Lemma getHoldByBookingId_ok now bookingId d :
  getHoldByBookingId now bookingId (World d [])
  = match lookup_live now d (booking_key bookingId) with
    | None => (Ok VNull, World d [])
    | Some text =>
      if String.eqb text "" then (Ok VNull, World d []) else
      (Ok (assemble bookingId (omap (resolve_seat now d) (decode_index text))),
       World (without_stale now (decode_index text) d) [])
    end.
Proof.
  unfold getHoldByBookingId.
  rewrite (bind_ok _ _ _ _ _ (ensureConnection_ok d)).
  rewrite (bind_ok _ _ _ _ _ (redis_get_ok _ _ _)).
  destruct (lookup_live now d (booking_key bookingId)) as [text|]; [|reflexivity].
  destruct (String.eqb text ""); [reflexivity|].
  unfold try_catch, decode_index. unfold bind at 1. unfold json_parse.
  destruct (JSON_parse text) as [parsed|].
  - unfold ret at 1. unfold bind at 1.
    set (seatIds := match parsed with VArr items => items | _ => [parsed] end).
    rewrite collectSeats_ok. simpl app.
    replace (match parsed with VArr items => items | _ => [parsed] end) with seatIds
      by (destruct parsed; reflexivity).
    unfold assemble. destruct (omap (resolve_seat now d) seatIds) as [|seat [|second seats]];
      reflexivity.
  - unfold throw at 1. unfold bind. rewrite getHold_ok.
    cbn [omap list_omap without_stale]. unfold resolve_seat.
    destruct (decode_hold (lookup_live now d (hold_key (tpl (VStr text))))) as [hold|];
      [|reflexivity].
    destruct (stale now hold); [reflexivity|]. destruct (truthy hold); reflexivity.
Qed.

(** What the lookup by booking does: it returns [null] when no index entry
    is stored.  A stored text that is not JSON is read as the seatId of the
    older encoding; a stored JSON array is read as the list of seatIds of
    the current encoding; any other JSON text is read as the one seat it
    parses to.  Each referenced seat is resolved to its live hold and the
    others are dropped; no seat left gives [null], one seat the flat
    record, more seats the grouped record of all of them. *)
Lemma getHoldByBookingId_cases now bookingId d :
  (lookup_live now d (booking_key bookingId) = None ->
     (getHoldByBookingId now bookingId (World d [])).1 = Ok VNull)
  /\ (forall text, lookup_live now d (booking_key bookingId) = Some text -> text <> "" ->
        (JSON_parse text = None ->
           (getHoldByBookingId now bookingId (World d [])).1
           = Ok (assemble bookingId (omap (resolve_seat now d) [VStr text])))
        /\ (forall items, JSON_parse text = Some (VArr items) ->
              (getHoldByBookingId now bookingId (World d [])).1
              = Ok (assemble bookingId (omap (resolve_seat now d) items)))
        /\ (forall parsed, JSON_parse text = Some parsed ->
              (forall items, parsed <> VArr items) ->
              (getHoldByBookingId now bookingId (World d [])).1
              = Ok (assemble bookingId (omap (resolve_seat now d) [parsed]))))
  /\ (forall seats,
        assemble bookingId [] = VNull
        /\ (forall seat, assemble bookingId [seat] = seat)
        /\ (forall first second,
              assemble bookingId (first :: second :: seats)
              = VObj [("bookingId", VStr bookingId); ("userId", prop first "userId");
                      ("seats", VArr (first :: second :: seats))])).
Proof.
  rewrite getHoldByBookingId_ok. split; [|split].
  - intros ->. reflexivity.
  - intros text -> Htext. apply String.eqb_neq in Htext. rewrite Htext.
    unfold decode_index. repeat split.
    + intros ->. reflexivity.
    + intros items ->. reflexivity.
    + intros parsed -> Hscalar. destruct parsed; try reflexivity.
      by destruct (Hscalar items).
  - intros seats. repeat split.
Qed.

End ReadingHolds.

(** ** Seat status *)

Section StatusProperties.
Context `{JsRuntime}.

Lemma getRedisSeatStatus_ok now seatId d :
  getRedisSeatStatus now seatId (World d [])
  = if is_booked (lookup_live now d (status_key seatId)) then (Ok (Some BOOKED), World d [])
    else match decode_hold (lookup_live now d (hold_key seatId)) with
         | Some hold =>
           if stale now hold then (Ok None, World (delete (hold_key seatId) d) [])
           else (Ok (if truthy hold then Some HOLD else None), World d [])
         | None => (Ok None, World d [])
         end.
Proof.
  unfold getRedisSeatStatus. rewrite (bind_ok _ _ _ _ _ (ensureConnection_ok d)).
  rewrite (bind_ok _ _ _ _ _ (redis_get_ok _ _ _)).
  destruct (is_booked (lookup_live now d (status_key seatId))); [reflexivity|].
  unfold bind. rewrite getHold_ok. cbn [tpl].
  destruct (decode_hold (lookup_live now d (hold_key seatId))) as [hold|]; [|reflexivity].
  destruct (stale now hold); [reflexivity|]. destruct (truthy hold); reflexivity.
Qed.

(** C7. [setSeatBooked] writes the permanent marker of the seat and
    nothing else: every other key, every hold entry among them, is as it
    was; and from then on [getRedisSeatStatus] answers BOOKED for the
    seat, whatever hold it still has. *)
Theorem setSeatBooked_authoritative now seatId d :
  exists d',
    setSeatBooked seatId (World d []) = (Ok tt, World d' [])
    /\ d' !! status_key seatId = Some (Entry "BOOKED" None)
    /\ (forall k, k <> status_key seatId -> d' !! k = d !! k)
    /\ (forall held, d' !! hold_key held = d !! hold_key held)
    /\ getRedisSeatStatus now seatId (World d' []) = (Ok (Some BOOKED), World d' []).
Proof.
  exists (<[status_key seatId := Entry "BOOKED" None]> d). split; [|split; [|split; [|split]]].
  - unfold setSeatBooked. rewrite (bind_ok _ _ _ _ _ (ensureConnection_ok d)).
    apply redis_set_ok.
  - apply lookup_insert_eq.
  - intros k Hk. by apply lookup_insert_ne.
  - intros held. apply lookup_insert_ne, status_key_hold_key.
  - rewrite getRedisSeatStatus_ok. unfold lookup_live at 1.
    rewrite lookup_insert_eq. reflexivity.
Qed.

(** *** The batched reading *)

Lemma resolveOne_ok now d seatId :
  resolveOne now d seatId
  = if is_booked (lookup_live now d (status_key seatId)) then Some BOOKED
    else if held now d seatId then Some HOLD else None.
Proof.
  unfold resolveOne, held. rewrite getRedisSeatStatus_ok.
  destruct (is_booked (lookup_live now d (status_key seatId))); [reflexivity|].
  destruct (decode_hold (lookup_live now d (hold_key seatId))) as [hold|]; [|reflexivity].
  destruct (stale now hold); [reflexivity|]. destruct (truthy hold); reflexivity.
Qed.

Lemma statusLoop_fold now d (seatIds post : list string) : forall pre statuses,
  seatIds = (pre ++ post)%list ->
  fold_left
    (statusStep seatIds
       (lookup_live now d <$> ((status_key <$> seatIds) ++ (hold_key <$> seatIds))%list)
       (length seatIds))
    (seq (length pre) (length post)) statuses
  = fold_left (batch_step now d) post statuses.
Proof.
  induction post as [|seatId post IH]; intros pre statuses Hsplit; [reflexivity|].
  cbn [length seq fold_left].
  assert (Hlen : (length pre < length seatIds)%nat).
  { rewrite Hsplit, length_app. simpl. lia. }
  assert (Hseat : seatIds !! length pre = Some seatId).
  { rewrite Hsplit. by rewrite list_lookup_middle. }
  assert (statusStep seatIds
            (lookup_live now d <$> ((status_key <$> seatIds) ++ (hold_key <$> seatIds))%list)
            (length seatIds) statuses (length pre)
          = batch_step now d statuses seatId) as ->.
  { unfold statusStep, batch_step, reply_at. rewrite Hseat.
    rewrite !list_lookup_fmap.
    rewrite lookup_app_l by (by rewrite length_fmap).
    rewrite lookup_app_r by (rewrite length_fmap; lia).
    rewrite length_fmap, Nat.add_sub, !list_lookup_fmap, Hseat. reflexivity. }
  specialize (IH (pre ++ [seatId])%list (batch_step now d statuses seatId)).
  rewrite length_app in IH. simpl in IH. rewrite Nat.add_1_r in IH.
  apply IH. by rewrite <- app_assoc.
Qed.

Lemma getAllSeatStatuses_ok now seatIds d :
  getAllSeatStatuses now seatIds (World d [])
  = (Ok (fold_left (batch_step now d) seatIds ∅), World d []).
Proof.
  unfold getAllSeatStatuses. rewrite (bind_ok _ _ _ _ _ (ensureConnection_ok d)).
  unfold pipeline_exec. unfold bind. rewrite command_ok. cbn [fst snd]. unfold ret.
  by rewrite (statusLoop_fold now d seatIds seatIds [] ∅ eq_refl).
Qed.

(** Where every hold key that holds a text holds a record that [getHold]
    accepts (and no other), the batched reading is the per-seat reading. *)
Lemma getAllSeatStatuses_agrees now seatIds d :
  (forall seatId, seatId ∈ seatIds ->
     is_booked (lookup_live now d (status_key seatId)) = false ->
     negb (falsy_data (lookup_live now d (hold_key seatId))) = held now d seatId) ->
  getAllSeatStatuses now seatIds (World d []) = (Ok (resolve_each now d seatIds), World d []).
Proof.
  intros Hsound. rewrite getAllSeatStatuses_ok. f_equal. f_equal.
  unfold resolve_each. generalize (∅ : gmap string status).
  induction seatIds as [|seatId seatIds IH]; intros statuses; [reflexivity|].
  cbn [fold_left]. rewrite IH by (intros; apply Hsound; set_solver). f_equal.
  unfold batch_step. rewrite resolveOne_ok.
  destruct (is_booked (lookup_live now d (status_key seatId))) eqn:Hb; [reflexivity|].
  rewrite Hsound by (done || set_solver). destruct (held now d seatId); reflexivity.
Qed.

End StatusProperties.

(** ** The geo-time gate *)

Section GeoProperties.
Context `{JsRuntime}.

Lemma getGeoUnlockTime_ok now city d :
  getGeoUnlockTime now city (World d [])
  = (Ok match lookup_live now d (geo_key (toLowerCase city)) with
        | None => VNull
        | Some text =>
          if String.eqb text "" then VNull else
          match parseInt text with
          | Some z => VNum z
          | None => VNaN
          end
        end, World d []).
Proof.
  unfold getGeoUnlockTime. rewrite (bind_ok _ _ _ _ _ (ensureConnection_ok d)).
  rewrite (bind_ok _ _ _ _ _ (redis_get_ok _ _ _)).
  destruct (lookup_live now d (geo_key (toLowerCase city))) as [text|]; [|reflexivity].
  destruct (String.eqb text ""); [reflexivity|]. destruct (parseInt text); reflexivity.
Qed.

(** C8. [isGeoUnlocked] fails open: with no entry stored under the
    lower-cased key it answers [{isUnlocked: true, unlocksAt: null,
    remainingSeconds: 0}]; with an entry whose text reads as the number
    [t] it answers [isUnlocked = (now >= t)] and [remainingSeconds =
    max(0, t - now)] for the current time in whole seconds, and
    [unlocksAt = t] when [t] is not zero. *)
Theorem isGeoUnlocked_cases now city d :
  (lookup_live now d (geo_key (toLowerCase city)) = None ->
     isGeoUnlocked now city (World d []) = (Ok (GeoStatus true VNull 0), World d []))
  /\ (forall text t,
        lookup_live now d (geo_key (toLowerCase city)) = Some text ->
        text <> "" -> parseInt text = Some t -> 0 <= now ->
        exists st,
          isGeoUnlocked now city (World d []) = (Ok st, World d [])
          /\ isUnlocked st = (t <=? now / 1000)
          /\ remainingSeconds st = Z.max 0 (t - now / 1000)
          /\ (t <> 0 -> unlocksAt st = VNum t)).
Proof.
  unfold isGeoUnlocked. rewrite (bind_ok _ _ _ _ _ (ensureConnection_ok d)).
  rewrite (bind_ok _ _ _ _ _ (getGeoUnlockTime_ok _ _ _)). split.
  - intros ->. reflexivity.
  - intros text t -> Htext Ht Hnow. apply String.eqb_neq in Htext. rewrite Htext, Ht.
    assert (0 <= now / 1000) by (apply Z.div_pos; lia).
    cbn [truthy_number]. destruct (Z.eqb_spec t 0) as [->|Hne].
    + eexists. split; [reflexivity|]. cbn [isUnlocked remainingSeconds unlocksAt].
      repeat split; [|lia|done]. symmetry. by apply Z.leb_le.
    + eexists. split; [reflexivity|]. cbn [isUnlocked remainingSeconds unlocksAt]. done.
Qed.

End GeoProperties.

(** ** Bulk update of unlock times *)

Section BulkUpdateProperties.
Context `{JsRuntime}.

Lemma setGeoUnlockTime_number city z d :
  valid_time (z * 1000) = true ->
  setGeoUnlockTime city (VNum z) (World d [])
  = (Ok tt, World (<[geo_key (toLowerCase city) := Entry (ToString (VNum z)) None]> d) []).
Proof.
  intros Hvalid. unfold setGeoUnlockTime.
  rewrite (bind_ok _ _ _ _ _ (ensureConnection_ok d)).
  unfold method_toString. cbn [nullish tpl]. unfold bind at 1, ret at 1.
  rewrite (bind_ok _ _ _ _ _ (redis_set_ok _ _ _)).
  unfold date_iso. cbn [to_number]. rewrite Hvalid. reflexivity.
Qed.

Lemma putLoop_accepted pre : forall rest results d,
  Forall accepted pre ->
  putLoop (pre ++ rest) results (World d [])
  = putLoop rest (fold_left record_entry pre results) (World (fold_left write_entry pre d) []).
Proof.
  induction pre as [|[city unlocksAt] pre IH]; intros rest results d Hpre; [reflexivity|].
  inversion Hpre as [|? ? (z & Hz & Hvalid) Hpre']; subst. cbn [fst snd] in Hz.
  cbn [app putLoop fold_left]. unfold bind at 1, try_catch at 1, bind at 1.
  assert (toUnixTimestamp city unlocksAt (World d []) = (Ok (VNum z), World d [])) as ->.
  { unfold toUnixTimestamp. destruct unlocksAt; try discriminate.
    - simpl in Hz. by injection Hz as ->.
    - simpl in Hz. destruct (Date_parse s); [|discriminate]. simpl in Hz.
      by injection Hz as ->. }
  rewrite (bind_ok _ _ _ _ _ (setGeoUnlockTime_number _ _ _ Hvalid)).
  unfold bind at 1, date_iso at 1. cbn [to_number]. rewrite Hvalid. unfold ret at 1 2.
  rewrite IH by done. unfold write_entry at 3, record_entry at 3. cbn [fst snd].
  rewrite Hz. reflexivity.
Qed.

(** The bulk update checks each string entry before it writes it.  When
    the entries before a string that does not parse as a date were all
    accepted, the handler has written exactly those entries, writes
    neither the offending entry nor any later one, and answers with the
    failure that names the offending city and its raw value; the entries
    written before the failure stay in the store. *)
Lemma PUT_stops_at_first_invalid pre city text post d :
  Forall accepted pre ->
  Date_parse text = None ->
  PUT (pre ++ (city, VStr text) :: post) (World d [])
  = (Ok (InvalidTimeFormat (Error (invalid_date_message city text)) city (VStr text)),
     World (fold_left write_entry pre d) []).
Proof.
  intros Hpre Hbad. unfold PUT, try_catch. unfold bind at 1.
  rewrite putLoop_accepted by done. cbn [putLoop].
  unfold bind at 1, try_catch at 1, bind at 1, toUnixTimestamp at 1.
  rewrite Hbad. reflexivity.
Qed.

Lemma PUT_all_accepted body d :
  Forall accepted body ->
  PUT body (World d [])
  = (Ok (BulkUpdated (size (fold_left record_entry body ∅)) (fold_left record_entry body ∅)),
     World (fold_left write_entry body d) []).
Proof.
  intros Hbody. unfold PUT, try_catch. unfold bind at 1.
  rewrite <- (app_nil_r body) at 1. rewrite putLoop_accepted by done. reflexivity.
Qed.

End BulkUpdateProperties.

(** * Further properties *)

(** ** The life of a single hold *)

Section HoldLife.
Context `{JsRuntime}.

Lemma lookup_live_entry t k v e d :
  lookup_live t (<[k := Entry v (Some e)]> d) k = if t <? e then Some v else None.
Proof. unfold lookup_live. rewrite lookup_insert_eq. reflexivity. Qed.

Lemma stale_hold_object t userId bookingId sectionId e :
  stale t (hold_object userId bookingId sectionId e) = negb (e =? 0) && (e <? t).
Proof. reflexivity. Qed.

Lemma fresh_hold_object t now userId bookingId sectionId :
  t <= now + 120000 -> stale t (hold_object userId bookingId sectionId (now + 120000)) = false.
Proof.
  intros Hle. rewrite stale_hold_object.
  destruct (Z.ltb_spec (now + 120000) t); [lia | apply andb_false_r].
Qed.

Lemma granted_reads now seatId userId bookingId sectionId d t :
  lookup_live t (granted now seatId userId bookingId sectionId d) (hold_key seatId)
  = (if t <? now + 120000
     then Some (JSON_stringify (hold_object userId bookingId sectionId (now + 120000)))
     else None)
  /\ lookup_live t (granted now seatId userId bookingId sectionId d) (booking_key bookingId)
     = (if t <? now + 120000 then Some seatId else None).
Proof.
  unfold granted, HOLD_TTL_SECONDS. change (120 * 1000) with 120000. split.
  - rewrite lookup_live_insert_ne by (apply not_eq_sym, hold_key_booking_key).
    apply lookup_live_entry.
  - apply lookup_live_entry.
Qed.

Lemma createHoldAt_one_instant now seatId userId bookingId sectionId :
  createHoldAt now now now seatId userId bookingId sectionId
  = createHold now seatId userId bookingId sectionId.
Proof. reflexivity. Qed.

Lemma createHoldAt_held now t1 t2 d seatId userId bookingId sectionId old :
  lookup_live t1 d (hold_key seatId) = Some old ->
  createHoldAt now t1 t2 seatId userId bookingId sectionId (World d [])
  = (Ok false, World d []).
Proof.
  intros Hold. unfold createHoldAt.
  rewrite (bind_ok _ _ _ _ _ (ensureConnection_ok d)).
  rewrite (bind_ok _ _ _ _ _ (redis_set_nx_ex_held _ _ _ _ _ _ Hold)).
  reflexivity.
Qed.

Lemma createHoldAt_free now t1 t2 d seatId userId bookingId sectionId :
  lookup_live t1 d (hold_key seatId) = None ->
  createHoldAt now t1 t2 seatId userId bookingId sectionId (World d [])
  = (Ok true, World (grantedAt now t1 t2 seatId userId bookingId sectionId d) []).
Proof.
  intros Hfree. unfold createHoldAt.
  rewrite (bind_ok _ _ _ _ _ (ensureConnection_ok d)).
  rewrite (bind_ok _ _ _ _ _ (redis_set_nx_ex_free _ _ _ _ _ Hfree)).
  rewrite (bind_ok _ _ _ _ _ (redis_set_ex_ok _ _ _ _ _)).
  reflexivity.
Qed.

Lemma grantedAt_reads now t1 t2 seatId userId bookingId sectionId d t :
  lookup_live t (grantedAt now t1 t2 seatId userId bookingId sectionId d) (hold_key seatId)
  = (if t <? t1 + 120000
     then Some (JSON_stringify (hold_object userId bookingId sectionId (now + 120000)))
     else None)
  /\ lookup_live t (grantedAt now t1 t2 seatId userId bookingId sectionId d)
       (booking_key bookingId)
     = (if t <? t2 + 120000 then Some seatId else None).
Proof.
  unfold grantedAt, HOLD_TTL_SECONDS. change (120 * 1000) with 120000. split.
  - rewrite lookup_live_insert_ne by (apply not_eq_sym, hold_key_booking_key).
    apply lookup_live_entry.
  - apply lookup_live_entry.
Qed.

(** X1. The three clocks of a granted hold.  The payload carries
    [expiresAt], 120 seconds after the reading of [Date.now()]; the hold
    entry is readable until 120 seconds after the store executed the first
    SET, the booking-index entry until 120 seconds after it executed the
    second.  As the second SET is not executed before the first, the index
    entry is readable whenever the hold entry is. *)
Theorem createHoldAt_expiries now t1 t2 seatId userId bookingId sectionId d :
  lookup_live t1 d (hold_key seatId) = None ->
  exists d',
    createHoldAt now t1 t2 seatId userId bookingId sectionId (World d [])
    = (Ok true, World d' [])
    /\ forall t,
        lookup_live t d' (hold_key seatId)
        = (if t <? t1 + 120000
           then Some (JSON_stringify (hold_object userId bookingId sectionId (now + 120000)))
           else None)
        /\ lookup_live t d' (booking_key bookingId)
           = (if t <? t2 + 120000 then Some seatId else None)
        /\ (t1 <= t2 ->
            lookup_live t d' (hold_key seatId) <> None ->
            lookup_live t d' (booking_key bookingId) <> None).
Proof.
  intros Hfree. exists (grantedAt now t1 t2 seatId userId bookingId sectionId d).
  split; [by apply createHoldAt_free|]. intros t.
  destruct (grantedAt_reads now t1 t2 seatId userId bookingId sectionId d t) as [-> ->].
  split; [reflexivity|]. split; [reflexivity|]. intros Horder.
  destruct (Z.ltb_spec t (t1 + 120000)); [|done].
  destruct (Z.ltb_spec t (t2 + 120000)); [done | lia].
Qed.

(** X2. The life of a granted hold under [getHold], where the runtime reads
    back the hold it printed and the clock is past the epoch.  While the
    hold key is live and [expiresAt] has not passed, [getHold] returns the
    hold and [isHeld] is true, the store untouched.  While the key is live
    but [expiresAt] has passed (the key was set after the clock was read),
    [getHold] deletes the hold entry and returns [null].  Once the key has
    expired [getHold] returns [null] and the store is untouched. *)
Theorem createHoldAt_then_getHold now t1 t2 seatId userId bookingId sectionId d t :
  let hold := hold_object userId bookingId sectionId (now + 120000) in
  0 <= now ->
  lookup_live t1 d (hold_key seatId) = None ->
  JSON_parse (JSON_stringify hold) = Some hold ->
  JSON_stringify hold <> "" ->
  exists d',
    createHoldAt now t1 t2 seatId userId bookingId sectionId (World d [])
    = (Ok true, World d' [])
    /\ getHold t (VStr seatId) (World d' [])
       = (if t <? t1 + 120000
          then if now + 120000 <? t
               then (Ok VNull, World (delete (hold_key seatId) d') [])
               else (Ok hold, World d' [])
          else (Ok VNull, World d' []))
    /\ (isHeld t seatId (World d' [])).1
       = Ok ((t <? t1 + 120000) && negb (now + 120000 <? t)).
Proof.
  intros hold Hepoch Hfree Hlaw Htext.
  pose proof (fun t => grantedAt_reads now t1 t2 seatId userId bookingId sectionId d t) as Hread.
  set (d' := grantedAt now t1 t2 seatId userId bookingId sectionId d) in Hread.
  exists d'. split; [by apply createHoldAt_free|].
  assert (Hget : getHold t (VStr seatId) (World d' [])
                 = (if t <? t1 + 120000
                    then if now + 120000 <? t
                         then (Ok VNull, World (delete (hold_key seatId) d') [])
                         else (Ok hold, World d' [])
                    else (Ok VNull, World d' []))).
  { rewrite getHold_ok. cbn [tpl]. rewrite (proj1 (Hread t)).
    destruct (t <? t1 + 120000); [|reflexivity].
    unfold decode_hold. fold hold. apply String.eqb_neq in Htext. rewrite Htext, Hlaw.
    unfold hold at 1 2. cbn [nullish hold_object]. rewrite stale_hold_object.
    destruct (Z.eqb_spec (now + 120000) 0); [lia|]. cbn [negb andb]. reflexivity. }
  split; [exact Hget|]. unfold isHeld, bind. rewrite Hget.
  destruct (t <? t1 + 120000); [|reflexivity].
  destruct (now + 120000 <? t); reflexivity.
Qed.

(** X3. A granted hold bars the seat exactly as long as its key lives, that
    is until 120 seconds after the store executed its SET, whatever the
    clocks of the callers read: a [createHold] whose SET reaches the store
    before that is refused and changes nothing; one whose SET reaches the
    store at that time or later is granted, and the hold entry is then its
    own. *)
Theorem createHoldAt_bars_until_key_expiry now t1 t2 seatId user1 booking1 section1 d
    now' t1' t2' user2 booking2 section2 :
  lookup_live t1 d (hold_key seatId) = None ->
  exists d',
    createHoldAt now t1 t2 seatId user1 booking1 section1 (World d [])
    = (Ok true, World d' [])
    /\ (t1' < t1 + 120000 ->
        createHoldAt now' t1' t2' seatId user2 booking2 section2 (World d' [])
        = (Ok false, World d' []))
    /\ (t1 + 120000 <= t1' ->
        exists d'',
          createHoldAt now' t1' t2' seatId user2 booking2 section2 (World d' [])
          = (Ok true, World d'' [])
          /\ d'' !! hold_key seatId
             = Some (Entry (JSON_stringify
                              (hold_object user2 booking2 section2 (now' + 120000)))
                       (Some (t1' + 120000)))).
Proof.
  intros Hfree.
  pose proof (fun t => grantedAt_reads now t1 t2 seatId user1 booking1 section1 d t) as Hread.
  set (d' := grantedAt now t1 t2 seatId user1 booking1 section1 d) in Hread.
  exists d'. split; [by apply createHoldAt_free|]. split.
  - intros Hbefore. eapply createHoldAt_held. rewrite (proj1 (Hread t1')).
    destruct (Z.ltb_spec t1' (t1 + 120000)); [reflexivity | lia].
  - intros Hafter.
    assert (Hfree' : lookup_live t1' d' (hold_key seatId) = None).
    { rewrite (proj1 (Hread t1')). destruct (Z.ltb_spec t1' (t1 + 120000)); [lia | done]. }
    exists (grantedAt now' t1' t2' seatId user2 booking2 section2 d').
    split; [by apply createHoldAt_free|].
    unfold grantedAt. rewrite lookup_insert_ne by (apply not_eq_sym, hold_key_booking_key).
    apply lookup_insert_eq.
Qed.

(** X4. [createHold] does not look at the permanent marker: on a seat that
    [setSeatBooked] has marked and that has no hold, it is granted; the
    status of the seat stays BOOKED. *)
Theorem createHold_ignores_booked_marker now seatId userId bookingId sectionId d t :
  lookup_live now d (hold_key seatId) = None ->
  exists d1 d2,
    setSeatBooked seatId (World d []) = (Ok tt, World d1 [])
    /\ createHold now seatId userId bookingId sectionId (World d1 []) = (Ok true, World d2 [])
    /\ getRedisSeatStatus t seatId (World d2 []) = (Ok (Some BOOKED), World d2 []).
Proof.
  intros Hfree.
  exists (<[status_key seatId := Entry "BOOKED" None]> d),
    (granted now seatId userId bookingId sectionId
       (<[status_key seatId := Entry "BOOKED" None]> d)).
  split; [|split].
  - unfold setSeatBooked. rewrite (bind_ok _ _ _ _ _ (ensureConnection_ok d)).
    apply redis_set_ok.
  - apply createHold_free. by rewrite lookup_live_insert_ne by apply status_key_hold_key.
  - unfold getRedisSeatStatus.
    rewrite (bind_ok _ _ _ _ _ (ensureConnection_ok _)).
    rewrite (bind_ok _ _ _ _ _ (redis_get_ok _ _ _)).
    unfold granted.
    rewrite lookup_live_insert_ne by (apply not_eq_sym, status_key_booking_key).
    rewrite lookup_live_insert_ne by (apply not_eq_sym, status_key_hold_key).
    unfold lookup_live. rewrite lookup_insert_eq. reflexivity.
Qed.

(** X5. Two granted [createHold] calls under one bookingId leave one index
    entry, the seat of the later call; where that seatId is not JSON text
    and the runtime reads back the hold it printed, [getHoldByBookingId]
    reports the later seat alone, though the hold of the earlier seat is
    live. *)
Theorem createHold_overwrites_index now seat1 seat2 user bookingId section1 section2 d :
  let hold2 := hold_object user bookingId section2 (now + 120000) in
  seat1 <> seat2 ->
  lookup_live now d (hold_key seat1) = None ->
  lookup_live now d (hold_key seat2) = None ->
  seat2 <> "" -> JSON_parse seat2 = None ->
  JSON_parse (JSON_stringify hold2) = Some hold2 -> JSON_stringify hold2 <> "" ->
  exists d1 d2,
    createHold now seat1 user bookingId section1 (World d []) = (Ok true, World d1 [])
    /\ createHold now seat2 user bookingId section2 (World d1 []) = (Ok true, World d2 [])
    /\ lookup_live now d2 (hold_key seat1) <> None
    /\ lookup_live now d2 (booking_key bookingId) = Some seat2
    /\ getHoldByBookingId now bookingId (World d2 [])
       = (Ok (seat_record (VStr seat2) hold2), World d2 []).
Proof.
  intros hold2 Hne Hfree1 Hfree2 Hseat Hraw Hlaw Htext.
  set (d1 := granted now seat1 user bookingId section1 d).
  set (d2 := granted now seat2 user bookingId section2 d1).
  assert (Hfree2' : lookup_live now d1 (hold_key seat2) = None).
  { unfold d1, granted.
    rewrite lookup_live_insert_ne by (apply not_eq_sym, hold_key_booking_key).
    rewrite lookup_live_insert_ne; [done|]. intros Heq%hold_key_inj. done. }
  assert (Hhold2 : lookup_live now d2 (hold_key seat2) = Some (JSON_stringify hold2)).
  { unfold d2, granted.
    rewrite lookup_live_insert_ne by (apply not_eq_sym, hold_key_booking_key).
    rewrite lookup_live_entry. unfold HOLD_TTL_SECONDS.
    destruct (Z.ltb_spec now (now + 120 * 1000)); [reflexivity | lia]. }
  assert (Hindex : lookup_live now d2 (booking_key bookingId) = Some seat2).
  { unfold d2, granted. rewrite lookup_live_entry. unfold HOLD_TTL_SECONDS.
    destruct (Z.ltb_spec now (now + 120 * 1000)); [reflexivity | lia]. }
  exists d1, d2. split; [by apply createHold_free|]. split; [by apply createHold_free|].
  split; [|split; [exact Hindex|]].
  - unfold d2, granted.
    rewrite lookup_live_insert_ne by (apply not_eq_sym, hold_key_booking_key).
    rewrite lookup_live_insert_ne by (intros Heq%hold_key_inj; done).
    unfold d1, granted.
    rewrite lookup_live_insert_ne by (apply not_eq_sym, hold_key_booking_key).
    rewrite lookup_live_entry. unfold HOLD_TTL_SECONDS.
    destruct (Z.ltb_spec now (now + 120 * 1000)); [done | lia].
  - assert (Hdecode : decode_hold (lookup_live now d2 (hold_key seat2)) = Some hold2).
    { rewrite Hhold2. unfold decode_hold. apply String.eqb_neq in Htext.
      by rewrite Htext, Hlaw. }
    assert (Hstale : stale now hold2 = false) by (apply fresh_hold_object; lia).
    rewrite getHoldByBookingId_ok, Hindex. apply String.eqb_neq in Hseat. rewrite Hseat.
    unfold decode_index. rewrite Hraw. cbn [omap list_omap without_stale tpl].
    unfold resolve_seat. cbn [tpl]. rewrite Hdecode, Hstale. reflexivity.
Qed.

(** X6. Release is for the owner: where the runtime reads back the hold it
    printed, [releaseHold] by the user of a granted hold, before its
    expiry, returns [true] and takes the hold and the index entry away, so
    that the next [createHold] on the seat is granted; by any other user it
    returns [false] and changes nothing. *)
Theorem release_by_owner_only now seatId userId bookingId sectionId d now2 other :
  let hold := hold_object userId bookingId sectionId (now + 120000) in
  lookup_live now d (hold_key seatId) = None ->
  JSON_parse (JSON_stringify hold) = Some hold -> JSON_stringify hold <> "" ->
  now2 < now + 120000 ->
  other <> userId ->
  exists d',
    createHold now seatId userId bookingId sectionId (World d []) = (Ok true, World d' [])
    /\ releaseHold now2 seatId other (World d' []) = (Ok false, World d' [])
    /\ releaseHold now2 seatId userId (World d' [])
       = (Ok true, World (delete (booking_key bookingId) (delete (hold_key seatId) d')) [])
    /\ forall user2 booking2 section2,
        (createHold now2 seatId user2 booking2 section2
           (World (delete (booking_key bookingId) (delete (hold_key seatId) d')) [])).1
        = Ok true.
Proof.
  intros hold Hfree Hlaw Htext Hbefore Hother.
  pose proof (fun t => granted_reads now seatId userId bookingId sectionId d t) as Hread.
  set (d' := granted now seatId userId bookingId sectionId d) in Hread.
  assert (Hdecode : decode_hold (lookup_live now2 d' (hold_key seatId)) = Some hold).
  { rewrite (proj1 (Hread now2)). destruct (Z.ltb_spec now2 (now + 120000)); [|lia].
    unfold decode_hold. fold hold. apply String.eqb_neq in Htext. by rewrite Htext, Hlaw. }
  assert (Hstale : stale now2 hold = false) by (apply fresh_hold_object; lia).
  exists d'. split; [by apply createHold_free|]. split; [|split].
  - rewrite releaseHold_ok, Hdecode, Hstale. cbn.
    destruct (String.eqb_spec userId other); [congruence | reflexivity].
  - rewrite releaseHold_ok, Hdecode, Hstale. cbn. rewrite String.eqb_refl. reflexivity.
  - intros user2 booking2 section2. erewrite createHold_free; [reflexivity|].
    rewrite lookup_live_delete_ne by (apply not_eq_sym, hold_key_booking_key).
    unfold lookup_live. by rewrite lookup_delete_eq.
Qed.

End HoldLife.

(** ** Bookings of several seats *)

Section BookingLife.
Context `{JsRuntime}.

(** X7. A list that names a seat twice is never granted: the second
    attempt on the seat meets the hold of the first; the call returns
    [false], no key but the booking-index key has changed, and the
    booking-index key is absent. *)
Theorem createMultipleHolds_duplicate_seat now seats userId bookingId d :
  ~ NoDup seats.*1 ->
  exists d',
    createMultipleHolds now seats userId bookingId (World d []) = (Ok false, World d' [])
    /\ unchanged_but_index now bookingId d d'
    /\ d' !! booking_key bookingId = None.
Proof.
  intros Hdup.
  destruct (createMultipleHolds_ok now userId bookingId seats d) as (b & d' & Hok & Hiff).
  assert (b = false) as ->.
  { destruct b; [|done]. destruct (proj1 Hiff eq_refl) as [Hnd _]. done. }
  exists d'. split; [exact Hok|].
  destruct (createMultipleHolds_run now userId bookingId seats d [] of_none)
    as (r & d'' & fs' & Hrun & _ & Haon).
  rewrite Hok in Hrun. injection Hrun as <- <- <-. exact Haon.
Qed.

(** X8. An empty list is granted: the call writes the index entry of no
    seats and nothing else; where the runtime reads back the empty array it
    printed, [getHoldByBookingId] on that booking returns [null]. *)
Theorem createMultipleHolds_empty now userId bookingId d t :
  JSON_parse (JSON_stringify (VArr [])) = Some (VArr []) ->
  let d' := <[booking_key bookingId :=
                Entry (JSON_stringify (VArr [])) (Some (now + 120000))]> d in
  createMultipleHolds now [] userId bookingId (World d []) = (Ok true, World d' [])
  /\ getHoldByBookingId t bookingId (World d' []) = (Ok VNull, World d' []).
Proof.
  intros Hlaw d'. split.
  - unfold createMultipleHolds. rewrite (bind_ok _ _ _ _ _ (ensureConnection_ok d)).
    unfold with_frame, try_catch, bind. cbn [lockLoop]. unfold ret at 1.
    unfold get_locked at 1. cbn [lockedSeats]. unfold redis_set_ex.
    rewrite in_world_command. reflexivity.
  - rewrite getHoldByBookingId_ok.
    destruct (lookup_live t d' (booking_key bookingId)) as [text|] eqn:Hread; [|reflexivity].
    assert (text = JSON_stringify (VArr [])) as ->.
    { unfold d' in Hread. rewrite lookup_live_entry in Hread.
      destruct (t <? now + 120000); congruence. }
    destruct (String.eqb _ ""); [reflexivity|].
    unfold decode_index. rewrite Hlaw. reflexivity.
Qed.

Lemma resolve_granted now userId bookingId t d' (seats : list (string * string)) :
  t <= now + 120000 ->
  (forall seat, seat ∈ seats ->
     lookup_live t d' (hold_key seat.1)
     = Some (JSON_stringify (hold_object userId bookingId seat.2 (now + 120000)))
     /\ JSON_parse (JSON_stringify (hold_object userId bookingId seat.2 (now + 120000)))
        = Some (hold_object userId bookingId seat.2 (now + 120000))
     /\ JSON_stringify (hold_object userId bookingId seat.2 (now + 120000)) <> "") ->
  omap (resolve_seat t d') (VStr <$> seats.*1) = granted_record now userId bookingId <$> seats
  /\ without_stale t (VStr <$> seats.*1) d' = d'.
Proof.
  intros Ht. induction seats as [|[seatId sectionId] seats IH]; intros Hseats; [done|].
  destruct (Hseats (seatId, sectionId)) as (Hread & Hlaw & Htext); [set_solver|].
  cbn [fst snd] in *. apply String.eqb_neq in Htext.
  destruct IH as [IH1 IH2]; [intros; apply Hseats; set_solver|].
  assert (Hdecode : decode_hold (lookup_live t d' (hold_key seatId))
                    = Some (hold_object userId bookingId sectionId (now + 120000))).
  { rewrite Hread. unfold decode_hold. by rewrite Htext, Hlaw. }
  cbn [fmap list_fmap omap list_omap without_stale fst tpl].
  change (list_fmap _ _ VStr (list_fmap _ _ fst seats)) with (VStr <$> seats.*1).
  change (list_omap ?f ?l) with (omap f l).
  rewrite Hdecode, fresh_hold_object by done. split; [|exact IH2].
  unfold resolve_seat at 1. cbn [tpl]. rewrite Hdecode, fresh_hold_object by done.
  cbn [truthy hold_object]. rewrite IH1. reflexivity.
Qed.

(** X9. Where the runtime reads back what it printed, a granted booking of
    distinct free seats is what [getHoldByBookingId] shows until it
    expires: the seats in the order of the call, each with the user, the
    section and the bookingId of the call (one seat as the flat record,
    more as the grouped record), and the store is left as it is. *)
Theorem createMultipleHolds_then_getHoldByBookingId now seats userId bookingId d t :
  NoDup seats.*1 ->
  (forall s, s ∈ seats.*1 -> lookup_live now d (hold_key s) = None) ->
  (forall seat, seat ∈ seats ->
     JSON_parse (JSON_stringify (hold_object userId bookingId seat.2 (now + 120000)))
     = Some (hold_object userId bookingId seat.2 (now + 120000))
     /\ JSON_stringify (hold_object userId bookingId seat.2 (now + 120000)) <> "") ->
  JSON_parse (JSON_stringify (VArr (VStr <$> seats.*1))) = Some (VArr (VStr <$> seats.*1)) ->
  JSON_stringify (VArr (VStr <$> seats.*1)) <> "" ->
  t < now + 120000 ->
  exists d',
    createMultipleHolds now seats userId bookingId (World d []) = (Ok true, World d' [])
    /\ getHoldByBookingId t bookingId (World d' [])
       = (Ok (assemble bookingId (granted_record now userId bookingId <$> seats)),
          World d' []).
Proof.
  intros Hnd Hfree Hlaws Hindex Htext Ht.
  destruct (createMultipleHolds_ok now userId bookingId seats d) as (b & d' & Hok & Hiff).
  assert (b = true) as -> by (by apply Hiff).
  exists d'. split; [exact Hok|].
  destruct (createMultipleHolds_run now userId bookingId seats d [] of_none)
    as (r & d'' & fs' & Hrun & _ & Haon).
  rewrite Hok in Hrun. injection Hrun as <- <- <-. destruct Haon as [Hholds Hbooking].
  assert (Hlt : (t <? expiry now) = true).
  { apply Z.ltb_lt. unfold expiry, HOLD_TTL_SECONDS. lia. }
  rewrite getHoldByBookingId_ok. unfold lookup_live at 1. rewrite Hbooking.
  unfold live. cbn [e_exp e_val]. rewrite Hlt.
  apply String.eqb_neq in Htext. rewrite Htext.
  unfold decode_index. rewrite Hindex.
  destruct (resolve_granted now userId bookingId t d' seats) as [-> ->]; [lia| |reflexivity].
  intros [seatId sectionId] Hin. destruct (Hlaws _ Hin) as [Hlaw Hne].
  split; [|done]. cbn [fst snd]. unfold lookup_live. rewrite (Hholds seatId sectionId Hin).
  unfold live, hold_entry. cbn [e_exp e_val]. rewrite Hlt. reflexivity.
Qed.

(** X10. The release of one seat takes the whole index entry of its booking:
    after [releaseHold] has released a live hold of [bookingId], the hold
    entries of all other seats are as they were, and [getHoldByBookingId]
    on that bookingId returns [null]. *)
Theorem releaseHold_drops_whole_index now seatId userId bookingId d hold :
  live_hold now d seatId hold ->
  prop hold "userId" = VStr userId ->
  prop hold "bookingId" = VStr bookingId ->
  exists d',
    releaseHold now seatId userId (World d []) = (Ok true, World d' [])
    /\ (forall other, other <> seatId -> d' !! hold_key other = d !! hold_key other)
    /\ getHoldByBookingId now bookingId (World d' []) = (Ok VNull, World d' []).
Proof.
  intros (Hdecode & Hstale & Htruthy) Huser Hbooking.
  exists (delete (booking_key bookingId) (delete (hold_key seatId) d)). split; [|split].
  - rewrite releaseHold_ok, Hdecode, Hstale, Htruthy, Huser, Hbooking. cbn.
    rewrite String.eqb_refl. reflexivity.
  - intros other Hother.
    rewrite lookup_delete_ne by (apply not_eq_sym, hold_key_booking_key).
    apply lookup_delete_ne. intros Heq%hold_key_inj. done.
  - rewrite getHoldByBookingId_ok. unfold lookup_live. rewrite lookup_delete_eq. reflexivity.
Qed.

End BookingLife.

(** ** The batched reading of statuses *)

Section BatchedReading.
Context `{JsRuntime}.

Lemma batch_fold_lookup now d (seatIds : list string) : forall statuses s,
  fold_left (batch_step now d) seatIds statuses !! s
  = match (if decide (s ∈ seatIds) then batch_status now d s else None) with
    | Some st => Some st
    | None => statuses !! s
    end.
Proof.
  induction seatIds as [|seatId seatIds IH]; intros statuses s.
  - cbn [fold_left]. case_decide; [set_solver | reflexivity].
  - cbn [fold_left]. rewrite IH.
    assert (Hstep : forall s', batch_step now d statuses seatId !! s'
                     = if decide (s' = seatId)
                       then match batch_status now d seatId with
                            | Some st => Some st
                            | None => statuses !! s'
                            end
                       else statuses !! s').
    { intros s'. unfold batch_step, batch_status.
      destruct (is_booked _); [|destruct (negb _)]; case_decide; subst;
        rewrite ?lookup_insert_eq, ?lookup_insert_ne by done; reflexivity. }
    rewrite Hstep. destruct (decide (s = seatId)) as [->|Hne].
    + rewrite (decide_True (P := seatId ∈ seatId :: seatIds)) by set_solver.
      destruct (decide (seatId ∈ seatIds)); destruct (batch_status now d seatId);
        reflexivity.
    + destruct (decide (s ∈ seatIds)).
      * rewrite (decide_True (P := s ∈ seatId :: seatIds)) by set_solver. reflexivity.
      * rewrite (decide_False (P := s ∈ seatId :: seatIds)) by set_solver. reflexivity.
Qed.

(** X11. [getAllSeatStatuses] only reads: the store is as it was.  Its
    result has an entry for a seat exactly when the seat was asked for and
    carries the BOOKED marker (BOOKED) or, without the marker, a hold key
    with some text (HOLD); a seat that was not asked for, or that has
    neither, has no entry; no seat asked for gives the empty mapping. *)
Theorem getAllSeatStatuses_lookup now seatIds d :
  exists statuses,
    getAllSeatStatuses now seatIds (World d []) = (Ok statuses, World d [])
    /\ (forall s, statuses !! s
                  = if decide (s ∈ seatIds) then batch_status now d s else None)
    /\ (seatIds = [] -> statuses = ∅).
Proof.
  exists (fold_left (batch_step now d) seatIds ∅). split; [apply getAllSeatStatuses_ok|].
  split.
  - intros s. rewrite batch_fold_lookup, lookup_empty.
    by destruct (if decide (s ∈ seatIds) then batch_status now d s else None).
  - intros ->. reflexivity.
Qed.

(** X12. The batched reading never shows as free a seat that the per-seat
    reading shows as taken: whatever status [getRedisSeatStatus] gives a
    seat that was asked for, [getAllSeatStatuses] gives it the same. *)
Theorem getAllSeatStatuses_never_misses now seatIds d s st statuses :
  s ∈ seatIds ->
  resolveOne now d s = Some st ->
  (getAllSeatStatuses now seatIds (World d [])).1 = Ok statuses ->
  statuses !! s = Some st.
Proof.
  intros Hin Hone Hrun. rewrite getAllSeatStatuses_ok in Hrun. injection Hrun as <-.
  rewrite batch_fold_lookup, decide_True by done.
  rewrite resolveOne_ok in Hone. unfold batch_status.
  destruct (is_booked (lookup_live now d (status_key s))); [by rewrite Hone|].
  unfold held in Hone.
  destruct (lookup_live now d (hold_key s)) as [text|] eqn:Hraw; [|done].
  unfold decode_hold in Hone. cbn [falsy_data].
  destruct (String.eqb text ""); [done|]. cbn [negb].
  destruct (JSON_parse text) as [hold|]; [|done].
  destruct (nullish hold); [done|].
  destruct (negb (stale now hold) && truthy hold); [by rewrite Hone | done].
Qed.

End BatchedReading.

(** ** The gate through its life *)

Lemma geo_key_inj a b : geo_key a = geo_key b -> a = b.
Proof. unfold geo_key. cbv [String.append]. congruence. Qed.

Lemma strip_prefix_app pat s : strip_prefix pat (pat +:+ s) = Some s.
Proof.
  induction pat as [|c pat IH]; [reflexivity|].
  cbn [String.append strip_prefix]. cbv [String.append]. fold String.append.
  by rewrite Ascii.eqb_refl.
Qed.

Lemma strip_prefix_Some pat s rest : strip_prefix pat s = Some rest -> s = pat +:+ rest.
Proof.
  revert s. induction pat as [|c pat IH]; intros s; cbn [strip_prefix].
  - intros [= ->]. reflexivity.
  - destruct s as [|b s]; [done|]. destruct (Ascii.eqb_spec c b) as [->|]; [|done].
    intros Hs%IH. cbv [String.append]. fold String.append. by rewrite <- Hs.
Qed.

Lemma replace_first_prefix pat s : replace_first pat "" (pat +:+ s) = s.
Proof.
  pose proof (strip_prefix_app pat s) as Hs.
  destruct (pat +:+ s); cbn [replace_first]; rewrite Hs; reflexivity.
Qed.

Section GateLife.
Context `{JsRuntime} `{JsText}.

Lemma isGeoUnlocked_ok now city d :
  isGeoUnlocked now city (World d [])
  = (Ok (geo_answer now (lookup_live now d (geo_key (toLowerCase city)))), World d []).
Proof.
  unfold isGeoUnlocked. rewrite (bind_ok _ _ _ _ _ (ensureConnection_ok d)).
  rewrite (bind_ok _ _ _ _ _ (getGeoUnlockTime_ok _ _ _)). unfold geo_answer.
  destruct (lookup_live now d (geo_key (toLowerCase city))) as [text|]; [|reflexivity].
  destruct (String.eqb text ""); [reflexivity|].
  destruct (parseInt text) as [t|]; [|reflexivity].
  cbn [truthy_number]. destruct (t =? 0); reflexivity.
Qed.

(** X13. What [setGeoUnlockTime] stores for a city is what
    [getGeoUnlockTime] reads, at any later time (the entry has no TTL) and
    under any spelling of the city that lower-cases alike, where the
    runtime reads back the number it printed; the entries of the other
    cities are as they were. *)
Theorem setGeoUnlockTime_then_get city z d city' t :
  valid_time (z * 1000) = true ->
  parseInt (ToString (VNum z)) = Some z -> ToString (VNum z) <> "" ->
  toLowerCase city' = toLowerCase city ->
  exists d',
    setGeoUnlockTime city (VNum z) (World d []) = (Ok tt, World d' [])
    /\ getGeoUnlockTime t city' (World d' []) = (Ok (VNum z), World d' [])
    /\ forall other, other <> toLowerCase city -> d' !! geo_key other = d !! geo_key other.
Proof.
  intros Hvalid Hlaw Htext Hsame.
  exists (<[geo_key (toLowerCase city) := Entry (ToString (VNum z)) None]> d).
  split; [by apply setGeoUnlockTime_number|]. split.
  - rewrite getGeoUnlockTime_ok, Hsame. unfold lookup_live. rewrite lookup_insert_eq.
    cbn [live e_exp e_val]. apply String.eqb_neq in Htext. by rewrite Htext, Hlaw.
  - intros other Hother. apply lookup_insert_ne. intros Heq%geo_key_inj. done.
Qed.

(** X14. [isGeoUnlocked] only reads, and its answer is coherent: the city
    is unlocked exactly when no seconds remain, and the seconds that remain
    are never negative. *)
Theorem isGeoUnlocked_coherent now city d :
  exists st,
    isGeoUnlocked now city (World d []) = (Ok st, World d [])
    /\ (isUnlocked st = true <-> remainingSeconds st = 0)
    /\ 0 <= remainingSeconds st.
Proof.
  eexists. split; [apply isGeoUnlocked_ok|]. unfold geo_answer.
  destruct (lookup_live now d (geo_key (toLowerCase city))) as [text|]; [|done].
  destruct (String.eqb text ""); [done|]. destruct (parseInt text) as [t|]; [|done].
  destruct (t =? 0); [done|]. cbn [isUnlocked remainingSeconds].
  split; [|lia]. rewrite Z.leb_le. lia.
Qed.

(** X15. Time only opens the gate: on one store, a later question finds no
    more seconds remaining than an earlier one, and a city that was
    unlocked is unlocked still. *)
Theorem isGeoUnlocked_monotone now1 now2 city d st1 st2 :
  now1 <= now2 ->
  (isGeoUnlocked now1 city (World d [])).1 = Ok st1 ->
  (isGeoUnlocked now2 city (World d [])).1 = Ok st2 ->
  remainingSeconds st2 <= remainingSeconds st1
  /\ (isUnlocked st1 = true -> isUnlocked st2 = true).
Proof.
  intros Hle. rewrite !isGeoUnlocked_ok. intros [= <-] [= <-].
  assert (Hdiv : now1 / 1000 <= now2 / 1000) by (apply Z.div_le_mono; lia).
  unfold lookup_live. destruct (d !! geo_key (toLowerCase city)) as [e|]; [|done].
  assert (Hlive : live now2 e = true -> live now1 e = true).
  { unfold live. destruct (e_exp e) as [x|]; [|done]. rewrite !Z.ltb_lt. lia. }
  destruct (live now2 e).
  - rewrite Hlive by done. unfold geo_answer. destruct (String.eqb (e_val e) ""); [done|].
    destruct (parseInt (e_val e)) as [t|]; [|done]. destruct (t =? 0); [done|].
    cbn [isUnlocked remainingSeconds]. rewrite !Z.leb_le. lia.
  - cbn [geo_answer isUnlocked remainingSeconds]. split; [|done].
    destruct (live now1 e); [|done]. unfold geo_answer.
    destruct (String.eqb (e_val e) ""); [done|].
    destruct (parseInt (e_val e)) as [t|]; [|done]. destruct (t =? 0); [done|].
    cbn [remainingSeconds]. lia.
Qed.

Lemma lookup_assign {A} (k k' : string) (v : A) (obj : gmap string A) :
  assign k v obj !! k'
  = if decide (k' = k /\ k' <> "__proto__") then Some v else obj !! k'.
Proof.
  unfold assign. destruct (String.eqb_spec k "__proto__") as [->|Hk].
  - rewrite decide_False; [reflexivity|]. intros [-> ?]. done.
  - destruct (decide (k' = k)) as [->|Hne].
    + rewrite decide_True by done. apply lookup_insert_eq.
    + rewrite decide_False by (intros [? _]; done). by apply lookup_insert_ne.
Qed.

Lemma assigned_cons (city c : string) (cities : list string) :
  city ∈ c :: cities /\ city <> "__proto__"
  <-> (city = c /\ city <> "__proto__") \/ (city ∈ cities /\ city <> "__proto__").
Proof. rewrite elem_of_cons. tauto. Qed.

Lemma geoStatusLoop_ok now d (cities : list string) : forall status,
  exists result,
    geoStatusLoop now cities status (World d []) = (Ok result, World d [])
    /\ forall city,
         result !! city
         = if decide (city ∈ cities /\ city <> "__proto__")
           then Some (geo_answer now (lookup_live now d (geo_key (toLowerCase city))))
           else status !! city.
Proof.
  induction cities as [|c cities IH]; intros status.
  - exists status. split; [reflexivity|]. intros city.
    rewrite decide_False; [reflexivity|]. intros [Hin _]. by apply elem_of_nil in Hin.
  - cbn [geoStatusLoop]. rewrite (bind_ok _ _ _ _ _ (isGeoUnlocked_ok _ _ _)).
    destruct (IH (assign c (geo_answer now (lookup_live now d (geo_key (toLowerCase c))))
                    status)) as (result & Hrun & Hresult).
    exists result. split; [exact Hrun|]. intros city. rewrite Hresult, lookup_assign.
    pose proof (assigned_cons city c cities) as Hcons.
    destruct (decide (city ∈ cities /\ city <> "__proto__")) as [Hlater|Hlater].
    + rewrite decide_True by tauto. reflexivity.
    + destruct (decide (city = c /\ city <> "__proto__")) as [[-> Hname]|Hhere].
      * rewrite decide_True by tauto. reflexivity.
      * rewrite decide_False by tauto. reflexivity.
Qed.

(** X16. [getGeoUnlockStatus] only reads; its result has an entry exactly
    for the cities it was asked for, [__proto__] apart, under the spelling
    of the question, and the entry is the answer of [isGeoUnlocked] for
    that city.  A city named [__proto__] gets no entry. *)
Theorem getGeoUnlockStatus_lookup now cities d :
  exists result,
    getGeoUnlockStatus now cities (World d []) = (Ok result, World d [])
    /\ forall city,
         result !! city
         = if decide (city ∈ cities /\ city <> "__proto__")
           then match (isGeoUnlocked now city (World d [])).1 with
                | Ok st => Some st
                | Throw _ => None
                end
           else None.
Proof.
  destruct (geoStatusLoop_ok now d cities ∅) as (result & Hrun & Hresult).
  exists result. split.
  - unfold getGeoUnlockStatus. by rewrite (bind_ok _ _ _ _ _ (ensureConnection_ok d)).
  - intros city. rewrite Hresult, isGeoUnlocked_ok, lookup_empty. reflexivity.
Qed.

(** *** The listing of all cities *)

Lemma redis_keys_ok now prefix d :
  exists keys,
    redis_keys now prefix (World d []) = (Ok keys, World d [])
    /\ NoDup keys
    /\ forall k, k ∈ keys <-> exists text rest,
                               lookup_live now d k = Some text /\ k = prefix +:+ rest.
Proof.
  eexists. split; [apply command_ok|]. cbn [fst snd]. split; [apply NoDup_fst_map_to_list|].
  intros k. rewrite list_elem_of_fmap. split.
  - intros ([k' e] & -> & Hin). apply elem_of_map_to_list in Hin.
    apply map_lookup_filter_Some in Hin as [Hk [Hlive Hstart]]. cbn [fst snd] in *.
    unfold starts_with in Hstart.
    destruct (strip_prefix prefix k') as [rest|] eqn:Hstrip; [|done].
    exists (e_val e), rest. split; [|by apply strip_prefix_Some].
    unfold lookup_live. by rewrite Hk, Hlive.
  - intros (text & rest & Hread & ->). unfold lookup_live in Hread.
    destruct (d !! (prefix +:+ rest)) as [e|] eqn:Hk; [|done].
    destruct (live now e) eqn:Hlive; [|done].
    exists (prefix +:+ rest, e). split; [reflexivity|].
    apply elem_of_map_to_list, map_lookup_filter_Some. split; [exact Hk|].
    cbn [fst snd]. split; [exact Hlive|]. unfold starts_with. by rewrite strip_prefix_app.
Qed.

Lemma iso_of_seconds_printable {S} text (s : S) :
  printable text ->
  iso_of_seconds (parse_reply (Some text)) s = (Ok (listed text).2, s).
Proof.
  intros (z & Hz & Hvalid). unfold iso_of_seconds, parse_reply, listed. rewrite Hz.
  cbn [to_number snd]. by rewrite Hvalid.
Qed.

Lemma iso_of_seconds_throws {S} v (s : S) r s' :
  iso_of_seconds v s = (r, s') -> s' = s /\ forall e, r = Throw e -> e = RangeError.
Proof.
  unfold iso_of_seconds. destruct (to_number v) as [z|].
  - destruct (valid_time (z * 1000)); intros [= <- <-]; split; congruence.
  - intros [= <- <-]. split; congruence.
Qed.

Lemma unlockTimesLoop_ok now d (cities : list string) : forall result,
  (forall city, city ∈ cities ->
     exists text, lookup_live now d (geo_key city) = Some text /\ printable text) ->
  exists result',
    unlockTimesLoop now (geo_key <$> cities) result (World d []) = (Ok result', World d [])
    /\ forall city,
         result' !! city
         = if decide (city ∈ cities /\ city <> "__proto__")
           then listed <$> lookup_live now d (geo_key city)
           else result !! city.
Proof.
  induction cities as [|c cities IH]; intros result Hgood.
  - exists result. split; [reflexivity|]. intros city.
    rewrite decide_False; [reflexivity|]. intros [Hin _]. by apply elem_of_nil in Hin.
  - destruct (Hgood c) as (text & Hread & Hprint); [set_solver|].
    cbn [fmap list_fmap unlockTimesLoop].
    change (list_fmap _ _ geo_key cities) with (geo_key <$> cities).
    rewrite (bind_ok _ _ _ _ _ (redis_get_ok _ _ _)). rewrite Hread.
    rewrite (bind_ok _ _ _ _ _ (iso_of_seconds_printable _ _ Hprint)).
    unfold geo_key at 1. rewrite replace_first_prefix.
    assert (Hpair : (parse_reply (Some text), (listed text).2) = listed text).
    { destruct Hprint as (z & Hz & _). unfold parse_reply, listed. by rewrite Hz. }
    rewrite Hpair.
    destruct (IH (assign c (listed text) result)) as (result' & Hrun & Hresult).
    { intros; apply Hgood; set_solver. }
    exists result'. split; [exact Hrun|]. intros city. rewrite Hresult, lookup_assign.
    pose proof (assigned_cons city c cities) as Hcons.
    destruct (decide (city ∈ cities /\ city <> "__proto__")) as [Hlater|Hlater].
    + rewrite decide_True by tauto. reflexivity.
    + destruct (decide (city = c /\ city <> "__proto__")) as [[-> Hname]|Hhere].
      * rewrite decide_True by tauto. by rewrite Hread.
      * rewrite decide_False by tauto. reflexivity.
Qed.

Lemma unlockTimesLoop_throws now d (keys : list string) : forall result key text,
  key ∈ keys -> lookup_live now d key = Some text -> ~ printable text ->
  unlockTimesLoop now keys result (World d []) = (Throw RangeError, World d []).
Proof.
  induction keys as [|k keys IH]; intros result key text Hin Hread Hbad; [set_solver|].
  cbn [unlockTimesLoop]. rewrite (bind_ok _ _ _ _ _ (redis_get_ok _ _ _)).
  unfold bind at 1.
  destruct (iso_of_seconds (parse_reply (lookup_live now d k)) (World d [])) as [r w] eqn:Hiso.
  destruct (iso_of_seconds_throws _ _ _ _ Hiso) as [-> Hthrow].
  destruct r as [date|e]; [|by rewrite (Hthrow e)].
  apply IH with key text; [|done|done].
  apply elem_of_cons in Hin as [->|Hin]; [|done]. exfalso. apply Hbad.
  rewrite Hread in Hiso. unfold iso_of_seconds, parse_reply in Hiso.
  destruct (parseInt text) as [z|] eqn:Hz; [|done]. cbn [to_number] in Hiso.
  destruct (valid_time (z * 1000)) eqn:Hvalid; [|done]. by exists z.
Qed.

(** X17. Where every stored unlock time is a number within the range of a
    [Date], [getAllGeoUnlockTimes] only reads and lists exactly the cities
    that have an entry, [__proto__] apart, each under the stored
    (lower-cased) name with its number and its date.  An entry stored for
    the name [__proto__] is not listed. *)
Theorem getAllGeoUnlockTimes_lists now d :
  (forall city text, lookup_live now d (geo_key city) = Some text -> printable text) ->
  exists result,
    getAllGeoUnlockTimes now (World d []) = (Ok result, World d [])
    /\ forall city,
         result !! city
         = if decide (city = "__proto__") then None
           else listed <$> lookup_live now d (geo_key city).
Proof.
  intros Hgood. unfold getAllGeoUnlockTimes.
  rewrite (bind_ok _ _ _ _ _ (ensureConnection_ok d)).
  destruct (redis_keys_ok now "geo:unlock:" d) as (keys & Hkeys & Hnd & Hin).
  rewrite (bind_ok _ _ _ _ _ Hkeys).
  assert (Hcities : keys = geo_key <$> (replace_first "geo:unlock:" "" <$> keys)).
  { rewrite <- list_fmap_compose. rewrite <- (list_fmap_id keys) at 1.
    apply list_fmap_ext. intros i k Hk. apply list_elem_of_lookup_2, Hin in Hk.
    destruct Hk as (text & rest & _ & ->). cbn. unfold geo_key.
    by rewrite replace_first_prefix. }
  rewrite Hcities.
  destruct (unlockTimesLoop_ok now d (replace_first "geo:unlock:" "" <$> keys) ∅)
    as (result & Hrun & Hresult).
  { intros city (k & -> & Hk)%list_elem_of_fmap. apply Hin in Hk.
    destruct Hk as (text & rest & Hread & ->). rewrite replace_first_prefix.
    exists text. split; [exact Hread|]. by apply (Hgood rest). }
  exists result. split; [exact Hrun|]. intros city. rewrite Hresult, lookup_empty.
  destruct (decide (city = "__proto__")) as [Hname|Hname].
  { rewrite decide_False by tauto. reflexivity. }
  case_decide as Hcity; [reflexivity|].
  destruct (lookup_live now d (geo_key city)) as [text|] eqn:Hread; [|reflexivity].
  exfalso. apply Hcity. split; [|exact Hname]. apply list_elem_of_fmap. exists (geo_key city).
  split; [unfold geo_key; by rewrite replace_first_prefix|].
  apply Hin. by exists text, city.
Qed.

(** X18. One stored unlock time that is not a number, or is a number beyond
    the range of a [Date], makes [getAllGeoUnlockTimes] throw a RangeError
    (the store is untouched), whatever the other entries are. *)
Theorem getAllGeoUnlockTimes_throws now d city text :
  lookup_live now d (geo_key city) = Some text ->
  ~ printable text ->
  getAllGeoUnlockTimes now (World d []) = (Throw RangeError, World d []).
Proof.
  intros Hread Hbad. unfold getAllGeoUnlockTimes.
  rewrite (bind_ok _ _ _ _ _ (ensureConnection_ok d)).
  destruct (redis_keys_ok now "geo:unlock:" d) as (keys & Hkeys & _ & Hin).
  rewrite (bind_ok _ _ _ _ _ Hkeys).
  apply unlockTimesLoop_throws with (geo_key city) text; [|done|done].
  apply Hin. by exists text, city.
Qed.

End GateLife.

(** ** The handlers of /api/geo-unlock *)

Section GeoHandlers.
Context `{JsRuntime} `{JsText}.

Lemma setGeoUnlockTime_NaN city d :
  setGeoUnlockTime city VNaN (World d [])
  = (Throw RangeError,
     World (<[geo_key (toLowerCase city) := Entry (ToString VNaN) None]> d) []).
Proof.
  unfold setGeoUnlockTime. rewrite (bind_ok _ _ _ _ _ (ensureConnection_ok d)).
  unfold method_toString. cbn [nullish tpl]. unfold bind at 1, ret at 1.
  rewrite (bind_ok _ _ _ _ _ (redis_set_ok _ _ _)). reflexivity.
Qed.


(** X20. POST does not check that a date string parses: for a string that
    does not, the text of [NaN] is written as the unlock time of the city,
    and the answer is INTERNAL_ERROR, for the RangeError of the date that
    is printed after the write. *)
Theorem POST_unparseable_date_is_written now city text d other :
  city <> "" -> text <> "" -> Date_parse text = None ->
  POST now (VObj (("city", VStr city) :: ("unlocksAt", VStr text) :: other)) (World d [])
  = (Ok (PostInternalError RangeError),
     World (<[geo_key (toLowerCase city) := Entry (ToString VNaN) None]> d) []).
Proof.
  intros Hcity%String.eqb_neq Htext%String.eqb_neq Hdate.
  unfold POST, try_catch, bind, member. cbn [nullish prop assoc]. cbn [String.eqb Ascii.eqb Bool.eqb].
  unfold ret at 1 2. cbn [truthy]. rewrite Hcity, Htext, Hdate. cbn [negb orb].
  unfold js_lt. cbn [to_number]. rewrite setGeoUnlockTime_NaN. reflexivity.
Qed.

(** X21. POST with a number of seconds: a time more than 60 seconds in the
    past is turned down with INVALID_TIME and nothing is written; any
    other time within the range of a [Date] is written under the
    lower-cased city and the answer carries the number and its date. *)
Theorem POST_number now city z d other :
  city <> "" -> z <> 0 -> valid_time (z * 1000) = true ->
  POST now (VObj (("city", VStr city) :: ("unlocksAt", VNum z) :: other)) (World d [])
  = if z <? now / 1000 - 60 then (Ok PostInvalidTime, World d [])
    else (Ok (UnlockTimeSet (VStr city) (VNum z) (toISOString (z * 1000))),
          World (<[geo_key (toLowerCase city) := Entry (ToString (VNum z)) None]> d) []).
Proof.
  intros Hcity%String.eqb_neq Hz%Z.eqb_neq Hvalid.
  unfold POST, try_catch, bind, member. cbn [nullish prop assoc]. cbn [String.eqb Ascii.eqb Bool.eqb].
  unfold ret at 1 2. cbn [truthy]. rewrite Hcity, Hz. cbn [negb orb].
  unfold js_lt. cbn [to_number]. destruct (z <? now / 1000 - 60); [reflexivity|].
  rewrite setGeoUnlockTime_number by done. unfold iso_of_seconds. cbn [to_number].
  rewrite Hvalid. reflexivity.
Qed.

Lemma optional_date_state {S} status (s : S) :
  exists r, optional_date status s = (r, s) /\ forall e, r = Throw e -> e = RangeError.
Proof.
  unfold optional_date. destruct (truthy (unlocksAt status)); [|by eexists].
  unfold bind. destruct (iso_of_seconds (unlocksAt status) s) as [r s'] eqn:Hiso.
  destruct (iso_of_seconds_throws _ _ _ _ Hiso) as [-> Hthrow].
  destruct r as [date|e]; eexists; (split; [reflexivity|]); [done|].
  intros e' [= <-]. by apply Hthrow.
Qed.

Lemma viewLoop_state statuses : forall result d,
  exists r, viewLoop statuses result (World d []) = (r, World d []).
Proof.
  induction statuses as [|[city status] statuses IH]; intros result d; [by eexists|].
  cbn [viewLoop]. unfold bind at 1.
  destruct (optional_date_state status (World d [])) as ([date|e] & -> & _); [|by eexists].
  apply IH.
Qed.

Lemma allCitiesLoop_state now cities : forall result d,
  exists r, allCitiesLoop now cities result (World d []) = (r, World d []).
Proof.
  induction cities as [|city cities IH]; intros result d; [by eexists|].
  cbn [allCitiesLoop]. rewrite (bind_ok _ _ _ _ _ (isGeoUnlocked_ok _ _ _)).
  unfold bind at 1.
  match goal with |- context [iso_of_seconds ?v ?s] =>
    destruct (iso_of_seconds v s) as [r s'] eqn:Hiso end.
  destruct (iso_of_seconds_throws _ _ _ _ Hiso) as [-> _].
  destruct r; [apply IH | by eexists].
Qed.

Lemma unlockTimesLoop_state now keys : forall result d,
  exists r, unlockTimesLoop now keys result (World d []) = (r, World d []).
Proof.
  induction keys as [|key keys IH]; intros result d; [by eexists|].
  cbn [unlockTimesLoop]. rewrite (bind_ok _ _ _ _ _ (redis_get_ok _ _ _)).
  unfold bind at 1.
  match goal with |- context [iso_of_seconds ?v ?s] =>
    destruct (iso_of_seconds v s) as [r s'] eqn:Hiso end.
  destruct (iso_of_seconds_throws _ _ _ _ Hiso) as [-> _].
  destruct r; [apply IH | by eexists].
Qed.

(** X22. GET only reads and never lets an exception out: whatever the
    query and whatever is stored, it answers and the store is as it was. *)
Theorem GET_read_only now city citiesParam d :
  exists resp, GET now city citiesParam (World d []) = (Ok resp, World d []).
Proof.
  unfold GET, try_catch. destruct (negb (falsy_data city)).
  - rewrite (bind_ok _ _ _ _ _ (isGeoUnlocked_ok _ _ _)). unfold bind.
    match goal with |- context [optional_date ?st ?s] =>
      destruct (optional_date_state st s) as ([date|e] & -> & _) end; by eexists.
  - destruct (negb (falsy_data citiesParam)).
    + destruct (geoStatusLoop_ok now d (trim <$> split (default "" citiesParam) ",") ∅)
        as (statuses & Hrun & _).
      assert (Hstatus : getGeoUnlockStatus now (trim <$> split (default "" citiesParam) ",")
                          (World d []) = (Ok statuses, World d [])).
      { unfold getGeoUnlockStatus. by rewrite (bind_ok _ _ _ _ _ (ensureConnection_ok d)). }
      rewrite (bind_ok _ _ _ _ _ Hstatus). unfold bind.
      destruct (viewLoop_state (map_to_list statuses) ∅ d) as ([result|e] & ->); by eexists.
    + unfold bind at 1. unfold getAllGeoUnlockTimes.
      rewrite (bind_ok _ _ _ _ _ (ensureConnection_ok d)).
      destruct (redis_keys_ok now "geo:unlock:" d) as (keys & Hkeys & _).
      rewrite (bind_ok _ _ _ _ _ Hkeys).
      destruct (unlockTimesLoop_state now keys ∅ d) as ([allTimes|e] & ->); [|by eexists].
      unfold bind.
      destruct (allCitiesLoop_state now (map_to_list allTimes).*1 ∅ d) as ([result|e] & ->);
        by eexists.
Qed.

(** X23. GET for one city answers with the status of [isGeoUnlocked] and
    the date of the unlock time ([null] when the answer carries no unlock
    time); a stored unlock time beyond the range of a [Date] makes it
    answer INTERNAL_ERROR instead. *)
Theorem GET_city now city citiesParam d :
  city <> "" ->
  let reply := lookup_live now d (geo_key (toLowerCase city)) in
  let status := geo_answer now reply in
  GET now (Some city) citiesParam (World d [])
  = (Ok match unlocksAt status with
        | VNum t =>
          if valid_time (t * 1000)
          then CityStatus city (GeoView status (Some (toISOString (t * 1000))))
          else GetInternalError RangeError
        | _ => CityStatus city (GeoView status None)
        end, World d []).
Proof.
  intros Hcity%String.eqb_neq reply status. unfold GET, try_catch.
  cbn [falsy_data default from_option id].
  rewrite Hcity. cbn [negb]. rewrite (bind_ok _ _ _ _ _ (isGeoUnlocked_ok _ _ _)).
  fold reply. fold status. unfold bind, optional_date.
  assert (Hshape : unlocksAt status = VNull
                   \/ exists t, unlocksAt status = VNum t /\ t <> 0).
  { unfold status, geo_answer. destruct reply as [text|]; [|by left].
    destruct (String.eqb text ""); [by left|]. destruct (parseInt text) as [t|]; [|by left].
    destruct (Z.eqb_spec t 0); [by left|]. right. by exists t. }
  destruct Hshape as [->|(t & -> & Ht)]; [reflexivity|].
  cbn [truthy]. apply Z.eqb_neq in Ht. rewrite Ht. cbn [negb].
  unfold bind, iso_of_seconds. cbn [to_number].
  destruct (valid_time (t * 1000)); reflexivity.
Qed.

(** X24. GET for all cities answers INTERNAL_ERROR as soon as one stored
    unlock time is not a number within the range of a [Date], whatever
    the other entries are. *)
Theorem GET_all_fails_on_one_entry now city citiesParam d bad text :
  falsy_data city = true -> falsy_data citiesParam = true ->
  lookup_live now d (geo_key bad) = Some text ->
  ~ printable text ->
  GET now city citiesParam (World d []) = (Ok (GetInternalError RangeError), World d []).
Proof.
  intros Hcity Hcities Hread Hbad. unfold GET, try_catch. rewrite Hcity, Hcities.
  cbn [negb]. unfold bind at 1, getAllGeoUnlockTimes.
  rewrite (bind_ok _ _ _ _ _ (ensureConnection_ok d)).
  destruct (redis_keys_ok now "geo:unlock:" d) as (keys & Hkeys & _ & Hin).
  rewrite (bind_ok _ _ _ _ _ Hkeys).
  rewrite (unlockTimesLoop_throws now d keys ∅ (geo_key bad) text); [reflexivity| |done|done].
  apply Hin. by exists text, bad.
Qed.

End GeoHandlers.

(** ** The handler of /api/release-hold *)

Section ReleaseHandler.
Context `{JsRuntime}.

Lemma strict_eq_string v s : strict_eq v (VStr s) = strict_eq_str v s.
Proof. by destruct v. Qed.

Lemma releaseHoldAny_strings now seatId userId w :
  releaseHoldAny now (VStr seatId) (VStr userId) w = releaseHold now seatId userId w.
Proof.
  unfold releaseHoldAny, releaseHold, bind. cbn [tpl].
  destruct (ensureConnection w) as [[[]|e] w1]; [|reflexivity].
  destruct (getHold now (VStr seatId) w1) as [[hold|e] w2]; [|reflexivity].
  rewrite strict_eq_string. reflexivity.
Qed.


(** X26. On a request of the owner of a live hold the release handler
    answers with success, deletes the hold and the booking-index entry of
    its bookingId, and announces the seat; on a request of anyone else it
    answers that the validation failed, announces nothing and leaves the
    store as it is. *)
Theorem POST_release_hold_by_owner now seatId userId other d hold :
  seatId <> "" -> userId <> "" ->
  live_hold now d seatId hold ->
  POST_release_hold now
    (VObj (("seatId", VStr seatId) :: ("userId", VStr userId) :: other)) (World d [])
  = if strict_eq_str (prop hold "userId") userId
    then (Ok (Released, [SeatUpdate (VStr seatId) "AVAILABLE" now]),
          World (delete (booking_key (tpl (prop hold "bookingId")))
                   (delete (hold_key seatId) d)) [])
    else (Ok (HoldValidationFailed, []), World d []).
Proof.
  intros Hseat%String.eqb_neq Huser%String.eqb_neq (Hdecode & Hstale & Htruthy).
  unfold POST_release_hold, try_catch, bind, member. cbn [nullish prop assoc].
  cbn [String.eqb Ascii.eqb Bool.eqb]. unfold ret at 1 2. cbn [truthy].
  rewrite Hseat, Huser. cbn [negb orb].
  rewrite releaseHoldAny_strings, releaseHold_ok, Hdecode, Hstale, Htruthy. cbn [andb].
  destruct (strict_eq_str (prop hold "userId") userId); reflexivity.
Qed.

(** X27. Without a live hold of the seat (none stored, one that does not
    parse, or one whose [expiresAt] has passed) the release handler
    answers that the validation failed and announces nothing, whoever
    asks. *)
Theorem POST_release_hold_without_hold now seatId userId other d :
  seatId <> "" -> userId <> "" ->
  resolve_seat now d (VStr seatId) = None ->
  exists d',
    POST_release_hold now
      (VObj (("seatId", VStr seatId) :: ("userId", VStr userId) :: other)) (World d [])
    = (Ok (HoldValidationFailed, []), World d' []).
Proof.
  intros Hseat%String.eqb_neq Huser%String.eqb_neq Hnone.
  unfold POST_release_hold, try_catch, bind, member. cbn [nullish prop assoc].
  cbn [String.eqb Ascii.eqb Bool.eqb]. unfold ret at 1 2. cbn [truthy].
  rewrite Hseat, Huser. cbn [negb orb].
  rewrite releaseHoldAny_strings, releaseHold_ok.
  unfold resolve_seat in Hnone. cbn [tpl] in Hnone.
  destruct (decode_hold (lookup_live now d (hold_key seatId))) as [hold|]; [|by eexists].
  destruct (stale now hold); [by eexists|].
  destruct (truthy hold); [done|]. by eexists.
Qed.

End ReleaseHandler.

(** ** The handler of /api/seats *)

Section SeatsHandler.
Context `{JsRuntime}.

Lemma placeSeats_ok redisStatuses (seats : list seat_row) : forall sections,
  (forall seat, seat ∈ seats -> section_id seat ∉ prototype_names) ->
  exists sections',
    placeSeats redisStatuses seats sections = Ok sections'
    /\ forall sectionId,
         sections' !! sectionId
         = match rows_of sectionId seats with
           | [] => sections !! sectionId
           | rows =>
             Some (default [] (sections !! sectionId)
                   ++ ((fun seat => (seat_id seat,
                                     match redisStatuses !! seat_id seat with
                                     | Some st => status_name st
                                     | None => seat_status seat
                                     end)) <$> rows))%list
           end.
Proof.
  unfold rows_of.
  induction seats as [|seat seats IH]; intros sections Hplain; [by eexists|].
  cbn [placeSeats]. unfold placeSeat.
  rewrite bool_decide_eq_false_2 by (apply Hplain; apply list_elem_of_here).
  match goal with |- context [placeSeats _ _ ?next] => destruct (IH next)
    as (sections' & Hrun & Hlookup) end.
  { intros row Hrow. apply Hplain. by apply list_elem_of_further. }
  exists sections'. split; [exact Hrun|]. intros sectionId.
  rewrite Hlookup, filter_cons.
  destruct (decide (section_id seat = sectionId)) as [Hsec|Hne].
  - rewrite <- Hsec, lookup_insert_eq. cbn [default from_option id].
    destruct (filter _ seats) as [|row rows].
    + reflexivity.
    + cbn [fmap list_fmap]. by rewrite <- app_assoc.
  - by rewrite lookup_insert_ne.
Qed.

Lemma placeSeats_throws redisStatuses (seats : list seat_row) : forall sections seat,
  seat ∈ seats -> section_id seat ∈ prototype_names ->
  placeSeats redisStatuses seats sections = Throw TypeError.
Proof.
  induction seats as [|row seats IH]; intros sections seat Hin Hname.
  - by apply elem_of_nil in Hin.
  - cbn [placeSeats]. unfold placeSeat.
    destruct (decide (section_id row ∈ prototype_names)) as [Hrow|Hrow].
    + by rewrite bool_decide_eq_true_2.
    + rewrite bool_decide_eq_false_2 by done.
      apply elem_of_cons in Hin as [->|Hin]; [done|]. by apply IH with seat.
Qed.

(** X28. Once the inventory is initialised and answers, the handler only
    reads the store.  When no row has a section named as a member of
    [Object.prototype], it lists every row exactly once, under its section
    and in the order of the inventory; a row is shown with the status of
    the store (BOOKED for the marker, else HOLD for a hold key with some
    text) and with the status of the inventory only when the store has
    none; a section without rows is not listed.  When a row has such a
    section ([constructor], [toString], [__proto__], ...), the handler
    answers INTERNAL_ERROR with a TypeError. *)
Theorem GET_seats_sections now dbInitialized initDB seats d :
  dbInitialized = true \/ initDB = Ok tt ->
  exists resp,
    GET_seats now dbInitialized initDB (Ok seats) (World d [])
    = (Ok (resp, true), World d [])
    /\ ((exists seat, seat ∈ seats /\ section_id seat ∈ prototype_names) ->
        resp = SeatsInternalError TypeError)
    /\ ((forall seat, seat ∈ seats -> section_id seat ∉ prototype_names) ->
        exists sections,
          resp = Sections sections
          /\ forall sectionId,
               sections !! sectionId
               = match rows_of sectionId seats with
                 | [] => None
                 | rows => Some (shown now d <$> rows)
                 end).
Proof.
  intros Hinit. unfold GET_seats.
  assert ((if dbInitialized then Ok tt else initDB) = Ok tt) as ->.
  { destruct Hinit as [->| ->]; [done | by destruct dbInitialized]. }
  unfold try_catch, listSeats, bind at 1 2 3. rewrite getAllSeatStatuses_ok.
  unfold bind.
  destruct (placeSeats (fold_left (batch_step now d) (seat_id <$> seats) ∅) seats ∅)
    as [sections|err] eqn:Hplace.
  - eexists. split; [reflexivity|]. split.
    + intros (seat & Hin & Hname).
      rewrite (placeSeats_throws _ _ _ seat Hin Hname) in Hplace. discriminate Hplace.
    + intros Hplain. exists sections. split; [reflexivity|]. intros sectionId.
      destruct (placeSeats_ok (fold_left (batch_step now d) (seat_id <$> seats) ∅) seats ∅
                  Hplain) as (sections' & Hrun & Hlookup).
      rewrite Hplace in Hrun. injection Hrun as <-.
      rewrite Hlookup, lookup_empty. cbn [default from_option id app].
      assert (Hrows : forall row, row ∈ rows_of sectionId seats -> row ∈ seats).
      { intros row Hrow. unfold rows_of in Hrow.
        by apply list_elem_of_filter in Hrow as [_ ?]. }
      destruct (rows_of sectionId seats) as [|row rows]; [reflexivity|]. f_equal.
      apply Forall_fmap_ext_1.
      apply Forall_forall. intros seat Hseat. unfold shown. f_equal.
      rewrite batch_fold_lookup, lookup_empty.
      rewrite (decide_True (P := seat_id seat ∈ seat_id <$> seats))
        by (apply list_elem_of_fmap; exists seat; split; [done | by apply Hrows]).
      by destruct (batch_status now d (seat_id seat)).
  - eexists. split; [reflexivity|]. split.
    + intros (seat & Hin & Hname).
      rewrite (placeSeats_throws _ _ _ seat Hin Hname) in Hplace. by injection Hplace as <-.
    + intros Hplain.
      destruct (placeSeats_ok (fold_left (batch_step now d) (seat_id <$> seats) ∅) seats ∅
                  Hplain) as (sections' & Hrun & _).
      rewrite Hplace in Hrun. discriminate Hrun.
Qed.

(** X29. The handler never lets an exception out, and the module flag
    [dbInitialized] is set after a request exactly when it was set before
    or the initialisation succeeded, whatever happens afterwards; while
    the initialisation fails the handler answers with its error and sends
    no command to the store, and once the flag is set the initialisation
    is not run again. *)
Theorem GET_seats_initialises_once now dbInitialized initDB getAllSeats w :
  exists resp flag w',
    GET_seats now dbInitialized initDB getAllSeats w = (Ok (resp, flag), w')
    /\ flag = (dbInitialized || match initDB with Ok _ => true | Throw _ => false end)
    /\ (forall err, dbInitialized = false -> initDB = Throw err ->
          resp = SeatsInternalError err /\ w' = w)
    /\ (dbInitialized = true ->
          forall other, GET_seats now true other getAllSeats w = (Ok (resp, flag), w')).
Proof.
  unfold GET_seats. destruct dbInitialized.
  - unfold try_catch, bind.
    destruct (listSeats now getAllSeats w) as [[resp|e] w'];
      (eexists _, _, _; split; [reflexivity|]; split; [reflexivity|]; split; [done|]);
      intros _ other; reflexivity.
  - destruct initDB as [[]|err].
    + unfold try_catch, bind.
      destruct (listSeats now getAllSeats w) as [[resp|e] w'];
        (eexists _, _, _; split; [reflexivity|]; split; [reflexivity|]; split; done).
    + eexists _, _, _. split; [reflexivity|]. split; [reflexivity|]. split; [|done].
      by intros ? _ [= <-].
Qed.

End SeatsHandler.

(** * Runs on the reference runtime *)

#[local] Existing Instance Reference.runtime.

(** ** Seat holds *)


Example createMultipleHolds_refused_midway :
  createMultipleHolds 0 [("A1", "s1"); ("A2", "s1")] "u1" "bk9" (World ∅ [false; false; true])
  = (Throw StoreUnavailable, World ∅ []).
Proof. vm_compute. reflexivity. Qed.

(** A store that refuses the delete of the rollback as well is outside
    the schedules of C1: the hold acquired stays until its TTL lapses. *)
Example createMultipleHolds_rollback_refused :
  createMultipleHolds 0 [("A1", "s1"); ("A2", "s1")] "u1" "bk9"
    (World ∅ [false; false; true; true])
  = (Throw StoreUnavailable,
     World {[ hold_key "A1" :=
                Entry (JSON_stringify (hold_object "u1" "bk9" "s1" 120000)) (Some 120000) ]} []).
Proof. vm_compute. reflexivity. Qed.



Example createMultipleHolds_contended :
  let d := {[ hold_key "A2" := Entry "held" (Some 5000) ]} in
  createMultipleHolds 0 [("A1", "s1"); ("A2", "s1")] "u1" "bk9" (World d [])
  = (Ok false, World d []).
Proof. vm_compute. reflexivity. Qed.

Example createMultipleHolds_granted :
  (createMultipleHolds 0 [("A1", "s1"); ("A2", "s1")] "u1" "bk9" (World ∅ [])).1 = Ok true
  /\ (getHoldByBookingId 1 "bk9"
       (createMultipleHolds 0 [("A1", "s1"); ("A2", "s1")] "u1" "bk9" (World ∅ [])).2).1
     = Ok (VObj [("bookingId", VStr "bk9"); ("userId", VStr "u1");
                 ("seats", VArr [seat_record (VStr "A1") (hold_object "u1" "bk9" "s1" 120000);
                                 seat_record (VStr "A2") (hold_object "u1" "bk9" "s1" 120000)])]).
Proof. split; vm_compute; reflexivity. Qed.


Lemma at_most_one_live_hold_witness :
  createHold 10 "A1" "u2" "bk2" "s2" (World after_first_hold [])
  = (Ok false, World after_first_hold [])
  /\ (exists d',
        createMultipleHolds 10 [("A2", "s1"); ("A1", "s1")] "u2" "bk2"
          (World after_first_hold []) = (Ok false, World d' [])
        /\ d' !! hold_key "A1" = after_first_hold !! hold_key "A1")
  /\ (Ok false = Ok false /\ World after_first_hold [] = World after_first_hold []).
Proof.
  assert (Hheld : lookup_live 10 after_first_hold (hold_key "A1")
                  = Some (JSON_stringify (hold_object "u1" "bk1" "s1" 120000)))
    by (vm_compute; reflexivity).
  destruct (at_most_one_live_hold 10 after_first_hold "A1") as [Hheld_case _].
  destruct (at_most_one_live_hold 0 ∅ "A1") as [_ Hrace].
  split; [exact (proj1 (Hheld_case _ Hheld) "u2" "bk2" "s2")|].
  split.
  - apply (proj2 (Hheld_case _ Hheld)). vm_compute. set_solver.
  - apply (Hrace "u1" "bk1" "s1" "u2" "bk2" "s2" 10 (Ok true)
             (World after_first_hold []) (Ok false) (World after_first_hold [])).
    + unfold HOLD_TTL_SECONDS. lia.
    + vm_compute. reflexivity.
    + vm_compute. reflexivity.
    + reflexivity.
Defined.

(** Between the two expiry times the seat has no live hold, and yet
    [releaseHold] changes the store: it returns [false] and the record is
    gone. *)
Lemma releaseHold_deletes_stale_record :
  (forall hold, ~ live_hold 120200 lagging_hold "A1" hold)
  /\ (releaseHold 120200 "A1" "u1" (World lagging_hold [])).1 = Ok false
  /\ (releaseHold 120200 "A1" "u1" (World lagging_hold [])).2 <> World lagging_hold [].
Proof.
  split; [|split].
  - intros hold (Hdecode & Hstale & _). vm_compute in Hdecode.
    injection Hdecode as <-. vm_compute in Hstale. discriminate.
  - vm_compute. reflexivity.
  - intros Heq. apply (f_equal (fun w => db w !! hold_key "A1")) in Heq.
    vm_compute in Heq. discriminate.
Qed.

Lemma releaseHold_cases_witness :
  exists d',
    releaseHold 10 "A1" "u1" (World after_first_hold []) = (Ok true, World d' [])
    /\ d' = delete (booking_key "bk1") (delete (hold_key "A1") after_first_hold).
Proof.
  destruct (releaseHold_cases 10 "A1" "u1" after_first_hold)
    as (b & d' & Hrun & Hiff & Hdeleted & _).
  assert (Hlive : live_hold 10 after_first_hold "A1" (hold_object "u1" "bk1" "s1" 120000)).
  { repeat split; vm_compute; reflexivity. }
  assert (b = true) as ->.
  { apply Hiff. exists (hold_object "u1" "bk1" "s1" 120000). split; [exact Hlive | reflexivity]. }
  exists d'. split; [exact Hrun|].
  exact (Hdeleted _ Hlive eq_refl).
Defined.

(** The payload is not decodable as a Hold, and [getHold] returns it. *)
Lemma getHold_returns_non_hold :
  lookup_live 10 truncated_hold (hold_key "A1")
  = Some (JSON_stringify (VObj [("userId", VStr "u1")]))
  /\ JSON_parse (JSON_stringify (VObj [("userId", VStr "u1")]))
     = Some (VObj [("userId", VStr "u1")])
  /\ is_hold (VObj [("userId", VStr "u1")]) = false
  /\ getHold 10 (VStr "A1") (World truncated_hold [])
     = (Ok (VObj [("userId", VStr "u1")]), World truncated_hold [])
  /\ (getHold 10 (VStr "A1") (World truncated_hold [])).1 <> Ok VNull.
Proof.
  repeat split; try (vm_compute; reflexivity).
  vm_compute. discriminate.
Qed.

(** An [expiresAt] that is a text is compared as a number: the record is
    deleted. *)
Example getHold_deletes_on_text_expiry :
  let text := JSON_stringify (VObj [("userId", VStr "u1"); ("expiresAt", VStr "5")]) in
  stale 10 (VObj [("userId", VStr "u1"); ("expiresAt", VStr "5")]) = true
  /\ getHold 10 (VStr "A1") (World {[ hold_key "A1" := Entry text None ]} [])
     = (Ok VNull, World ∅ []).
Proof. split; vm_compute; reflexivity. Qed.

Lemma getHold_cases_witness :
  getHold 120200 (VStr "A1") (World lagging_hold []) = (Ok VNull, World ∅ [])
  /\ getHold 10 (VStr "A1") (World after_first_hold [])
     = (Ok (hold_object "u1" "bk1" "s1" 120000), World after_first_hold [])
  /\ getHold 10 (VStr "A1") (World {[ hold_key "A1" := Entry "u1,bk1,s1" None ]} [])
     = (Ok VNull, World {[ hold_key "A1" := Entry "u1,bk1,s1" None ]} [])
  /\ stale 120200 (hold_object "u1" "bk1" "s1" 120000) = true.
Proof.
  split; [|split; [|split]].
  - destruct (getHold_cases 120200 (VStr "A1") lagging_hold) as (_ & _ & Hexpired & _).
    rewrite (Hexpired (JSON_stringify (hold_object "u1" "bk1" "s1" 120000))
               (hold_object "u1" "bk1" "s1" 120000));
      try (vm_compute; reflexivity); try done.
  - destruct (getHold_cases 10 (VStr "A1") after_first_hold) as (_ & _ & _ & Hlive & _).
    apply (Hlive (JSON_stringify (hold_object "u1" "bk1" "s1" 120000)));
      try (vm_compute; reflexivity).
    vm_compute. discriminate.
  - destruct (getHold_cases 10 (VStr "A1") {[ hold_key "A1" := Entry "u1,bk1,s1" None ]})
      as (_ & Hmalformed & _).
    apply (Hmalformed "u1,bk1,s1"); [vm_compute; reflexivity|].
    left. vm_compute. reflexivity.
  - destruct (getHold_cases 120200 (VStr "A1") ∅) as (_ & _ & _ & _ & _ & Hnumber).
    apply (Hnumber (hold_object "u1" "bk1" "s1" 120000) 120000 eq_refl). lia.
Defined.

(** ** Seat status *)

(** C3 (the code departs from it).  For the hold that outlives its payload,
    and for a hold key that holds text that is not JSON, the batched
    reading reports HOLD where the per-seat reading reports no status. *)
Theorem getAllSeatStatuses_differs :
  getAllSeatStatuses 120200 ["A1"] (World lagging_hold [])
  = (Ok {[ "A1" := HOLD ]}, World lagging_hold [])
  /\ getRedisSeatStatus 120200 "A1" (World lagging_hold []) = (Ok None, World ∅ [])
  /\ resolve_each 120200 lagging_hold ["A1"] = ∅
  /\ getAllSeatStatuses 10 ["B7"] (World {[ hold_key "B7" := Entry "u1,bk1,s1" None ]} [])
     = (Ok {[ "B7" := HOLD ]}, World {[ hold_key "B7" := Entry "u1,bk1,s1" None ]} [])
  /\ getRedisSeatStatus 10 "B7" (World {[ hold_key "B7" := Entry "u1,bk1,s1" None ]} [])
     = (Ok None, World {[ hold_key "B7" := Entry "u1,bk1,s1" None ]} []).
Proof. repeat split; vm_compute; reflexivity. Qed.

(** C5 (the code departs from it).  [createHold] stores the seatId as it
    is, in the older encoding; a seatId that reads as JSON, here as the
    number [1E5], is taken for the parsed value, and the lookup by booking
    returns [null] although the hold of the seat is live. *)
Theorem getHoldByBookingId_misreads_legacy :
  let w := (createHold 0 "1E5" "u1" "bk1" "s1" (World ∅ [])).2 in
  (createHold 0 "1E5" "u1" "bk1" "s1" (World ∅ [])).1 = Ok true
  /\ lookup_live 1 (db w) (booking_key "bk1") = Some "1E5"
  /\ (getHold 1 (VStr "1E5") w).1 = Ok (hold_object "u1" "bk1" "s1" 120000)
  /\ JSON_parse "1E5" = Some (VNum 100000)
  /\ (getHoldByBookingId 1 "bk1" w).1 = Ok VNull.
Proof. repeat split; vm_compute; reflexivity. Qed.

Example getHoldByBookingId_both_encodings :
  (getHoldByBookingId 10 "bk1" (World after_first_hold [])).1
  = Ok (seat_record (VStr "A1") (hold_object "u1" "bk1" "s1" 120000))
  /\ (getHoldByBookingId 10 "bk9"
        (createMultipleHolds 0 [("A1", "s1"); ("A2", "s1")] "u1" "bk9" (World ∅ [])).2).1
     = Ok (VObj [("bookingId", VStr "bk9"); ("userId", VStr "u1");
                 ("seats", VArr [seat_record (VStr "A1") (hold_object "u1" "bk9" "s1" 120000);
                                 seat_record (VStr "A2") (hold_object "u1" "bk9" "s1" 120000)])]).
Proof.
  split.
  - destruct (getHoldByBookingId_cases 10 "bk1" after_first_hold) as (_ & Hstored & _).
    destruct (Hstored "A1") as (Hlegacy & _); [vm_compute; reflexivity | discriminate |].
    rewrite Hlegacy by (vm_compute; reflexivity). vm_compute. reflexivity.
  - set (w := (createMultipleHolds 0 [("A1", "s1"); ("A2", "s1")] "u1" "bk9" (World ∅ [])).2).
    assert (Hw : w = World (db w) []) by (vm_compute; reflexivity). rewrite Hw.
    destruct (getHoldByBookingId_cases 10 "bk9" (db w)) as (_ & Hstored & _).
    destruct (Hstored (JSON_stringify (VArr [VStr "A1"; VStr "A2"]))) as (_ & Hlist & _);
      [vm_compute; reflexivity | vm_compute; discriminate |].
    rewrite (Hlist [VStr "A1"; VStr "A2"]) by (vm_compute; reflexivity).
    vm_compute. reflexivity.
Qed.

(** A numeric seatId is found, as a number. *)
Example getHoldByBookingId_numeric_seat :
  let w := (createHold 0 "101" "u1" "bk1" "s1" (World ∅ [])).2 in
  (getHoldByBookingId 1 "bk1" w).1
  = Ok (seat_record (VNum 101) (hold_object "u1" "bk1" "s1" 120000)).
Proof. vm_compute. reflexivity. Qed.

Example getHoldByBookingId_plain_seat :
  let w := (createHold 0 "A1" "u1" "bk1" "s1" (World ∅ [])).2 in
  (getHoldByBookingId 1 "bk1" w).1
  = Ok (seat_record (VStr "A1") (hold_object "u1" "bk1" "s1" 120000)).
Proof. vm_compute. reflexivity. Qed.

(** ** The geo-time gate *)

Lemma isGeoUnlocked_cases_witness :
  isGeoUnlocked 1699999990000 "Delhi" (World {[ geo_key "pune" := Entry "1700000000" None ]} [])
  = (Ok (GeoStatus true VNull 0), World {[ geo_key "pune" := Entry "1700000000" None ]} [])
  /\ exists st,
      isGeoUnlocked 1699999990000 "Pune"
        (World {[ geo_key "pune" := Entry "1700000000" None ]} [])
      = (Ok st, World {[ geo_key "pune" := Entry "1700000000" None ]} [])
      /\ isUnlocked st = false /\ remainingSeconds st = 10.
Proof.
  split.
  - apply (proj1 (isGeoUnlocked_cases 1699999990000 "Delhi"
                    {[ geo_key "pune" := Entry "1700000000" None ]})).
    vm_compute. reflexivity.
  - destruct (proj2 (isGeoUnlocked_cases 1699999990000 "Pune"
                       {[ geo_key "pune" := Entry "1700000000" None ]})
                "1700000000" 1700000000) as (st & Hrun & Hunlocked & Hremaining & _).
    + vm_compute. reflexivity.
    + discriminate.
    + vm_compute. reflexivity.
    + lia.
    + exists st. split; [exact Hrun|]. split.
      * rewrite Hunlocked. vm_compute. reflexivity.
      * rewrite Hremaining. vm_compute. reflexivity.
Defined.

(** ** Bulk update of unlock times *)

Example PUT_stops_at_unparseable_date :
  PUT ([("Mumbai", VStr "2024-02-25T05:00:00Z")]
       ++ ("delhi", VStr "not-a-date") :: [("pune", VNum 1708837500)]) (World ∅ [])
  = (Ok (InvalidTimeFormat (Error (invalid_date_message "delhi" "not-a-date"))
           "delhi" (VStr "not-a-date")),
     World {[ geo_key "mumbai" := Entry "1708837200" None ]} []).
Proof.
  rewrite (PUT_stops_at_first_invalid [("Mumbai", VStr "2024-02-25T05:00:00Z")]
             "delhi" "not-a-date" [("pune", VNum 1708837500)] ∅).
  - vm_compute. reflexivity.
  - constructor; [|constructor]. exists 1708837200. split; vm_compute; reflexivity.
  - vm_compute. reflexivity.
Qed.

(** C9 (the code departs from it).  A time given in microseconds is a
    number beyond the range of a [Date]: the entry is written first, and
    then the call fails on the date it prints and answers with the failure
    that names this very entry; the entry was not checked before it was
    written. *)
Theorem PUT_writes_rejected_entry :
  PUT [("pune", VNum 1708837200000000)] (World ∅ [])
  = (Ok (InvalidTimeFormat RangeError "pune" (VNum 1708837200000000)),
     World {[ geo_key "pune" := Entry "1708837200000000" None ]} [])
  /\ db (PUT [("pune", VNum 1708837200000000)] (World ∅ [])).2 !! geo_key "pune"
     = Some (Entry "1708837200000000" None).
Proof. split; vm_compute; reflexivity. Qed.

(** ** The life of a hold *)

#[local] Existing Instance ReferenceText.text.

Lemma createHoldAt_expiries_witness :
  exists d',
    createHoldAt 0 500 600 "A1" "u1" "bk1" "s1" (World ∅ []) = (Ok true, World d' [])
    /\ lookup_live 120499 d' (hold_key "A1")
       = Some (JSON_stringify (hold_object "u1" "bk1" "s1" 120000))
    /\ lookup_live 120500 d' (hold_key "A1") = None
    /\ lookup_live 120599 d' (booking_key "bk1") = Some "A1"
    /\ lookup_live 120600 d' (booking_key "bk1") = None.
Proof.
  assert (Hfree : lookup_live 500 ∅ (hold_key "A1") = None) by (vm_compute; reflexivity).
  destruct (createHoldAt_expiries 0 500 600 "A1" "u1" "bk1" "s1" ∅ Hfree)
    as (d' & Hrun & Hread).
  exists d'. split; [exact Hrun|].
  split; [exact (proj1 (Hread 120499))|]. split; [exact (proj1 (Hread 120500))|].
  split; [exact (proj1 (proj2 (Hread 120599))) | exact (proj1 (proj2 (Hread 120600)))].
Defined.

Lemma createHoldAt_then_getHold_witness :
  exists d',
    createHoldAt 0 500 600 "A1" "u1" "bk1" "s1" (World ∅ []) = (Ok true, World d' [])
    /\ getHold 120200 (VStr "A1") (World d' [])
       = (Ok VNull, World (delete (hold_key "A1") d') [])
    /\ (isHeld 120200 "A1" (World d' [])).1 = Ok false.
Proof.
  assert (Hepoch : 0 <= 0) by lia.
  assert (Hfree : lookup_live 500 ∅ (hold_key "A1") = None) by (vm_compute; reflexivity).
  assert (Hlaw : JSON_parse (JSON_stringify (hold_object "u1" "bk1" "s1" (0 + 120000)))
                 = Some (hold_object "u1" "bk1" "s1" (0 + 120000)))
    by (vm_compute; reflexivity).
  assert (Htext : JSON_stringify (hold_object "u1" "bk1" "s1" (0 + 120000)) <> "")
    by (vm_compute; discriminate).
  exact (createHoldAt_then_getHold 0 500 600 "A1" "u1" "bk1" "s1" ∅ 120200
           Hepoch Hfree Hlaw Htext).
Defined.

Lemma createHoldAt_bars_until_key_expiry_witness :
  exists d',
    createHoldAt 0 500 600 "A1" "u1" "bk1" "s1" (World ∅ []) = (Ok true, World d' [])
    /\ createHoldAt 120100 120200 120300 "A1" "u2" "bk2" "s1" (World d' [])
       = (Ok false, World d' [])
    /\ exists d'',
         createHoldAt 120400 120500 120600 "A1" "u2" "bk2" "s1" (World d' [])
         = (Ok true, World d'' []).
Proof.
  assert (Hfree : lookup_live 500 ∅ (hold_key "A1") = None) by (vm_compute; reflexivity).
  destruct (createHoldAt_bars_until_key_expiry 0 500 600 "A1" "u1" "bk1" "s1" ∅
              120100 120200 120300 "u2" "bk2" "s1" Hfree) as (d' & Hrun & Hbarred & _).
  destruct (createHoldAt_bars_until_key_expiry 0 500 600 "A1" "u1" "bk1" "s1" ∅
              120400 120500 120600 "u2" "bk2" "s1" Hfree) as (d2 & Hrun2 & _ & Hgranted).
  assert (d2 = d') as -> by congruence.
  exists d'. split; [exact Hrun|]. split; [apply Hbarred; lia|].
  destruct Hgranted as (d'' & Hsecond & _); [lia|]. by exists d''.
Defined.

Lemma createHold_ignores_booked_marker_witness :
  exists d1 d2,
    setSeatBooked "A1" (World ∅ []) = (Ok tt, World d1 [])
    /\ createHold 0 "A1" "u1" "bk1" "s1" (World d1 []) = (Ok true, World d2 [])
    /\ getRedisSeatStatus 5 "A1" (World d2 []) = (Ok (Some BOOKED), World d2 []).
Proof.
  assert (Hfree : lookup_live 0 ∅ (hold_key "A1") = None) by (vm_compute; reflexivity).
  exact (createHold_ignores_booked_marker 0 "A1" "u1" "bk1" "s1" ∅ 5 Hfree).
Defined.

Lemma createHold_overwrites_index_witness :
  exists d1 d2,
    createHold 0 "A1" "u1" "bk1" "s1" (World ∅ []) = (Ok true, World d1 [])
    /\ createHold 0 "A2" "u1" "bk1" "s1" (World d1 []) = (Ok true, World d2 [])
    /\ lookup_live 0 d2 (hold_key "A1") <> None
    /\ lookup_live 0 d2 (booking_key "bk1") = Some "A2"
    /\ getHoldByBookingId 0 "bk1" (World d2 [])
       = (Ok (seat_record (VStr "A2") (hold_object "u1" "bk1" "s1" (0 + 120000))), World d2 []).
Proof.
  assert (Hne : "A1" <> "A2") by discriminate.
  assert (Hfree1 : lookup_live 0 ∅ (hold_key "A1") = None) by (vm_compute; reflexivity).
  assert (Hfree2 : lookup_live 0 ∅ (hold_key "A2") = None) by (vm_compute; reflexivity).
  assert (Hseat : "A2" <> "") by discriminate.
  assert (Hraw : JSON_parse "A2" = None) by (vm_compute; reflexivity).
  assert (Hlaw : JSON_parse (JSON_stringify (hold_object "u1" "bk1" "s1" (0 + 120000)))
                 = Some (hold_object "u1" "bk1" "s1" (0 + 120000)))
    by (vm_compute; reflexivity).
  assert (Htext : JSON_stringify (hold_object "u1" "bk1" "s1" (0 + 120000)) <> "")
    by (vm_compute; discriminate).
  exact (createHold_overwrites_index 0 "A1" "A2" "u1" "bk1" "s1" "s1" ∅
           Hne Hfree1 Hfree2 Hseat Hraw Hlaw Htext).
Defined.

Lemma release_by_owner_only_witness :
  exists d',
    createHold 0 "A1" "u1" "bk1" "s1" (World ∅ []) = (Ok true, World d' [])
    /\ releaseHold 10 "A1" "u2" (World d' []) = (Ok false, World d' [])
    /\ releaseHold 10 "A1" "u1" (World d' [])
       = (Ok true, World (delete (booking_key "bk1") (delete (hold_key "A1") d')) []).
Proof.
  assert (Hfree : lookup_live 0 ∅ (hold_key "A1") = None) by (vm_compute; reflexivity).
  assert (Hlaw : JSON_parse (JSON_stringify (hold_object "u1" "bk1" "s1" (0 + 120000)))
                 = Some (hold_object "u1" "bk1" "s1" (0 + 120000)))
    by (vm_compute; reflexivity).
  assert (Htext : JSON_stringify (hold_object "u1" "bk1" "s1" (0 + 120000)) <> "")
    by (vm_compute; discriminate).
  assert (Hbefore : 10 < 0 + 120000) by lia.
  assert (Hother : "u2" <> "u1") by discriminate.
  destruct (release_by_owner_only 0 "A1" "u1" "bk1" "s1" ∅ 10 "u2"
              Hfree Hlaw Htext Hbefore Hother) as (d' & Hrun & Hstranger & Howner & _).
  exists d'. split; [exact Hrun|]. split; [exact Hstranger | exact Howner].
Defined.

(** ** Bookings of several seats *)

Lemma createMultipleHolds_duplicate_seat_witness :
  exists d',
    createMultipleHolds 0 [("A1", "s1"); ("A1", "s1")] "u1" "bk9" (World ∅ [])
    = (Ok false, World d' [])
    /\ d' !! booking_key "bk9" = None.
Proof.
  assert (Hdup : ~ NoDup [("A1", "s1"); ("A1", "s1")].*1).
  { intros Hnd. apply NoDup_cons in Hnd as [Hnot _]. apply Hnot. apply list_elem_of_here. }
  destruct (createMultipleHolds_duplicate_seat 0 [("A1", "s1"); ("A1", "s1")] "u1" "bk9" ∅ Hdup)
    as (d' & Hrun & _ & Hindex).
  exists d'. split; [exact Hrun | exact Hindex].
Defined.

Lemma createMultipleHolds_empty_witness :
  createMultipleHolds 0 [] "u1" "bk9" (World ∅ [])
  = (Ok true,
     World (<[booking_key "bk9" := Entry (JSON_stringify (VArr [])) (Some (0 + 120000))]> ∅) [])
  /\ getHoldByBookingId 5 "bk9"
       (World (<[booking_key "bk9" := Entry (JSON_stringify (VArr [])) (Some (0 + 120000))]> ∅) [])
     = (Ok VNull,
        World (<[booking_key "bk9" := Entry (JSON_stringify (VArr [])) (Some (0 + 120000))]> ∅) []).
Proof.
  assert (Hlaw : JSON_parse (JSON_stringify (VArr [])) = Some (VArr []))
    by (vm_compute; reflexivity).
  exact (createMultipleHolds_empty 0 "u1" "bk9" ∅ 5 Hlaw).
Defined.

Lemma createMultipleHolds_then_getHoldByBookingId_witness :
  exists d',
    createMultipleHolds 0 [("A1", "s1"); ("A2", "s2")] "u1" "bk9" (World ∅ [])
    = (Ok true, World d' [])
    /\ getHoldByBookingId 1 "bk9" (World d' [])
       = (Ok (assemble "bk9" (granted_record 0 "u1" "bk9" <$> [("A1", "s1"); ("A2", "s2")])),
          World d' []).
Proof.
  assert (Hnd : NoDup [("A1", "s1"); ("A2", "s2")].*1).
  { apply (bool_decide_unpack _). vm_compute. exact I. }
  assert (Hfree : forall s, s ∈ [("A1", "s1"); ("A2", "s2")].*1 ->
                    lookup_live 0 ∅ (hold_key s) = None).
  { intros s _. unfold lookup_live. rewrite lookup_empty. reflexivity. }
  assert (Hlaw : forall seat, seat ∈ [("A1", "s1"); ("A2", "s2")] ->
            JSON_parse (JSON_stringify (hold_object "u1" "bk9" seat.2 (0 + 120000)))
            = Some (hold_object "u1" "bk9" seat.2 (0 + 120000))
            /\ JSON_stringify (hold_object "u1" "bk9" seat.2 (0 + 120000)) <> "").
  { intros seat Hin. apply elem_of_cons in Hin as [->|Hin];
      [split; vm_compute; [reflexivity | discriminate]|].
    apply elem_of_cons in Hin as [->|Hin];
      [split; vm_compute; [reflexivity | discriminate]|].
    by apply elem_of_nil in Hin. }
  assert (Hindex : JSON_parse (JSON_stringify (VArr (VStr <$> [("A1", "s1"); ("A2", "s2")].*1)))
                   = Some (VArr (VStr <$> [("A1", "s1"); ("A2", "s2")].*1)))
    by (vm_compute; reflexivity).
  assert (Htext : JSON_stringify (VArr (VStr <$> [("A1", "s1"); ("A2", "s2")].*1)) <> "")
    by (vm_compute; discriminate).
  assert (Ht : 1 < 0 + 120000) by lia.
  exact (createMultipleHolds_then_getHoldByBookingId 0 [("A1", "s1"); ("A2", "s2")] "u1" "bk9"
           ∅ 1 Hnd Hfree Hlaw Hindex Htext Ht).
Defined.

Lemma releaseHold_drops_whole_index_witness :
  exists d',
    releaseHold 10 "A1" "u1" (World after_first_hold []) = (Ok true, World d' [])
    /\ getHoldByBookingId 10 "bk1" (World d' []) = (Ok VNull, World d' []).
Proof.
  assert (Hlive : live_hold 10 after_first_hold "A1" (hold_object "u1" "bk1" "s1" 120000)).
  { repeat split; vm_compute; reflexivity. }
  destruct (releaseHold_drops_whole_index 10 "A1" "u1" "bk1" after_first_hold
              (hold_object "u1" "bk1" "s1" 120000) Hlive eq_refl eq_refl)
    as (d' & Hrun & _ & Hindex).
  exists d'. split; [exact Hrun | exact Hindex].
Defined.

(** ** The batched reading *)

Lemma getAllSeatStatuses_lookup_witness :
  exists statuses,
    getAllSeatStatuses 10 ["A1"; "A2"; "B1"] (World marked_store [])
    = (Ok statuses, World marked_store [])
    /\ statuses !! "A1" = Some HOLD
    /\ statuses !! "A2" = Some BOOKED
    /\ statuses !! "B1" = None
    /\ statuses !! "C1" = None.
Proof.
  destruct (getAllSeatStatuses_lookup 10 ["A1"; "A2"; "B1"] marked_store)
    as (statuses & Hrun & Hlookup & _).
  exists statuses. split; [exact Hrun|]. rewrite !Hlookup. vm_compute. auto.
Defined.

Lemma getAllSeatStatuses_never_misses_witness :
  resolveOne 10 after_first_hold "A1" = Some HOLD
  /\ (getAllSeatStatuses 10 ["A1"; "B1"] (World after_first_hold [])).1
     = Ok ({[ "A1" := HOLD ]} : gmap string status)
  /\ ({[ "A1" := HOLD ]} : gmap string status) !! "A1" = Some HOLD.
Proof.
  assert (Hasked : "A1" ∈ ["A1"; "B1"]) by apply list_elem_of_here.
  assert (Hone : resolveOne 10 after_first_hold "A1" = Some HOLD) by (vm_compute; reflexivity).
  assert (Hall : (getAllSeatStatuses 10 ["A1"; "B1"] (World after_first_hold [])).1
                 = Ok ({[ "A1" := HOLD ]} : gmap string status)) by (vm_compute; reflexivity).
  split; [exact Hone|]. split; [exact Hall|].
  exact (getAllSeatStatuses_never_misses 10 ["A1"; "B1"] after_first_hold "A1" HOLD _
           Hasked Hone Hall).
Defined.

(** ** The gate *)

Lemma setGeoUnlockTime_then_get_witness :
  exists d',
    setGeoUnlockTime "Pune" (VNum 1700000000) (World ∅ []) = (Ok tt, World d' [])
    /\ getGeoUnlockTime 99 "PUNE" (World d' []) = (Ok (VNum 1700000000), World d' []).
Proof.
  assert (Hvalid : valid_time (1700000000 * 1000) = true) by (vm_compute; reflexivity).
  assert (Hlaw : parseInt (ToString (VNum 1700000000)) = Some 1700000000)
    by (vm_compute; reflexivity).
  assert (Htext : ToString (VNum 1700000000) <> "") by (vm_compute; discriminate).
  assert (Hcity : toLowerCase "PUNE" = toLowerCase "Pune") by (vm_compute; reflexivity).
  destruct (setGeoUnlockTime_then_get "Pune" 1700000000 ∅ "PUNE" 99 Hvalid Hlaw Htext Hcity)
    as (d' & Hset & Hget & _).
  exists d'. split; [exact Hset | exact Hget].
Defined.

Lemma isGeoUnlocked_monotone_witness :
  (isGeoUnlocked 1699999900000 "Pune" (World pune_gate [])).1
  = Ok (GeoStatus false (VNum 1700000000) 100)
  /\ (isGeoUnlocked 1700000000000 "Pune" (World pune_gate [])).1
     = Ok (GeoStatus true (VNum 1700000000) 0)
  /\ remainingSeconds (GeoStatus true (VNum 1700000000) 0)
     <= remainingSeconds (GeoStatus false (VNum 1700000000) 100).
Proof.
  assert (Hlater : 1699999900000 <= 1700000000000) by lia.
  assert (Hfirst : (isGeoUnlocked 1699999900000 "Pune" (World pune_gate [])).1
                   = Ok (GeoStatus false (VNum 1700000000) 100)) by (vm_compute; reflexivity).
  assert (Hsecond : (isGeoUnlocked 1700000000000 "Pune" (World pune_gate [])).1
                    = Ok (GeoStatus true (VNum 1700000000) 0)) by (vm_compute; reflexivity).
  split; [exact Hfirst|]. split; [exact Hsecond|].
  exact (proj1 (isGeoUnlocked_monotone 1699999900000 1700000000000 "Pune" pune_gate _ _
                  Hlater Hfirst Hsecond)).
Defined.

(** A city named [__proto__] is answered for but gets no entry. *)
Example getGeoUnlockStatus_skips_proto :
  (getGeoUnlockStatus 1699999900000 ["Pune"; "__proto__"] (World pune_gate [])).1
  = Ok ({[ "Pune" := GeoStatus false (VNum 1700000000) 100 ]} : gmap string geo_status).
Proof. vm_compute. reflexivity. Qed.

(** A bulk update for the name [__proto__] is written and not counted. *)
Example PUT_proto_not_counted :
  PUT [("__proto__", VNum 1700000000)] (World ∅ [])
  = (Ok (BulkUpdated 0 ∅),
     World {[ geo_key "__proto__" := Entry "1700000000" None ]} []).
Proof. vm_compute. reflexivity. Qed.

Lemma getAllGeoUnlockTimes_lists_witness :
  exists result,
    getAllGeoUnlockTimes 0 (World pune_gate []) = (Ok result, World pune_gate [])
    /\ result !! "pune" = Some (VNum 1700000000, "2023-11-14T22:13:20.000Z")
    /\ result !! "delhi" = None.
Proof.
  assert (Hgood : forall city text,
            lookup_live 0 pune_gate (geo_key city) = Some text -> printable text).
  { intros city text Hread. unfold lookup_live, pune_gate in Hread.
    destruct (decide (geo_key "pune" = geo_key city)) as [Heq|Hne].
    - rewrite <- Heq, lookup_insert_eq in Hread. injection Hread as <-.
      exists 1700000000. split; vm_compute; reflexivity.
    - rewrite lookup_insert_ne, lookup_empty in Hread by exact Hne. discriminate Hread. }
  destruct (getAllGeoUnlockTimes_lists 0 pune_gate Hgood) as (result & Hrun & Hresult).
  exists result. split; [exact Hrun|]. rewrite !Hresult. vm_compute. auto.
Defined.

Lemma getAllGeoUnlockTimes_throws_witness :
  getAllGeoUnlockTimes 0 (World broken_gate []) = (Throw RangeError, World broken_gate []).
Proof.
  apply (getAllGeoUnlockTimes_throws 0 broken_gate "pune" "1708837200000000").
  - vm_compute. reflexivity.
  - intros (z & Hz & Hvalid). vm_compute in Hz. injection Hz as <-.
    vm_compute in Hvalid. discriminate Hvalid.
Defined.

(** ** The handlers of /api/geo-unlock *)


Lemma POST_unparseable_date_is_written_witness :
  POST 0 (VObj [("city", VStr "Pune"); ("unlocksAt", VStr "soon")]) (World ∅ [])
  = (Ok (PostInternalError RangeError),
     World (<[geo_key (toLowerCase "Pune") := Entry (ToString VNaN) None]> ∅) []).
Proof.
  apply (POST_unparseable_date_is_written 0 "Pune" "soon" ∅ []).
  - discriminate.
  - discriminate.
  - vm_compute. reflexivity.
Defined.

Lemma POST_number_witness :
  POST 1700000000000 (VObj [("city", VStr "Pune"); ("unlocksAt", VNum 1699999000)]) (World ∅ [])
  = (Ok PostInvalidTime, World ∅ [])
  /\ POST 1700000000000 (VObj [("city", VStr "Pune"); ("unlocksAt", VNum 1699999950)])
       (World ∅ [])
     = (Ok (UnlockTimeSet (VStr "Pune") (VNum 1699999950) "2023-11-14T22:12:30.000Z"),
        World (<[geo_key "pune" := Entry "1699999950" None]> ∅) []).
Proof.
  split.
  - rewrite (POST_number 1700000000000 "Pune" 1699999000 ∅ []);
      [vm_compute; reflexivity | discriminate | discriminate | vm_compute; reflexivity].
  - rewrite (POST_number 1700000000000 "Pune" 1699999950 ∅ []);
      [vm_compute; reflexivity | discriminate | discriminate | vm_compute; reflexivity].
Defined.

Lemma GET_city_witness :
  GET 1699999900000 (Some "Pune") None (World pune_gate [])
  = (Ok (CityStatus "Pune"
           (GeoView (GeoStatus false (VNum 1700000000) 100) (Some "2023-11-14T22:13:20.000Z"))),
     World pune_gate [])
  /\ GET 1699999900000 (Some "Pune") None (World broken_gate [])
     = (Ok (GetInternalError RangeError), World broken_gate []).
Proof.
  assert (Hcity : "Pune" <> "") by discriminate.
  split.
  - pose proof (GET_city 1699999900000 "Pune" None pune_gate Hcity) as Hrun.
    cbv zeta in Hrun. rewrite Hrun. vm_compute. reflexivity.
  - pose proof (GET_city 1699999900000 "Pune" None broken_gate Hcity) as Hrun.
    cbv zeta in Hrun. rewrite Hrun. vm_compute. reflexivity.
Defined.

Lemma GET_all_fails_on_one_entry_witness :
  GET 0 None None (World broken_gate []) = (Ok (GetInternalError RangeError), World broken_gate []).
Proof.
  apply (GET_all_fails_on_one_entry 0 None None broken_gate "pune" "1708837200000000").
  - reflexivity.
  - reflexivity.
  - vm_compute. reflexivity.
  - intros (z & Hz & Hvalid). vm_compute in Hz. injection Hz as <-.
    vm_compute in Hvalid. discriminate Hvalid.
Defined.

(** ** The handler of /api/release-hold *)


Lemma POST_release_hold_by_owner_witness :
  POST_release_hold 10 (VObj [("seatId", VStr "A1"); ("userId", VStr "u1")])
    (World after_first_hold [])
  = (Ok (Released, [SeatUpdate (VStr "A1") "AVAILABLE" 10]),
     World (delete (booking_key "bk1") (delete (hold_key "A1") after_first_hold)) [])
  /\ POST_release_hold 10 (VObj [("seatId", VStr "A1"); ("userId", VStr "u2")])
       (World after_first_hold [])
     = (Ok (HoldValidationFailed, []), World after_first_hold []).
Proof.
  assert (Hseat : "A1" <> "") by discriminate.
  assert (Hu1 : "u1" <> "") by discriminate.
  assert (Hu2 : "u2" <> "") by discriminate.
  assert (Hlive : live_hold 10 after_first_hold "A1" (hold_object "u1" "bk1" "s1" 120000)).
  { repeat split; vm_compute; reflexivity. }
  split.
  - rewrite (POST_release_hold_by_owner 10 "A1" "u1" [] after_first_hold _ Hseat Hu1 Hlive).
    reflexivity.
  - rewrite (POST_release_hold_by_owner 10 "A1" "u2" [] after_first_hold _ Hseat Hu2 Hlive).
    reflexivity.
Defined.

Lemma POST_release_hold_without_hold_witness :
  exists d',
    POST_release_hold 120200 (VObj [("seatId", VStr "A1"); ("userId", VStr "u1")])
      (World lagging_hold [])
    = (Ok (HoldValidationFailed, []), World d' []).
Proof.
  apply (POST_release_hold_without_hold 120200 "A1" "u1" [] lagging_hold).
  - discriminate.
  - discriminate.
  - vm_compute. reflexivity.
Defined.

(** ** The handler of /api/seats *)

Lemma GET_seats_sections_witness :
  (exists sections,
     GET_seats 10 false (Ok tt) (Ok inventory) (World marked_store [])
     = (Ok (Sections sections, true), World marked_store [])
     /\ sections !! "s1" = Some [("A1", "HOLD"); ("A2", "BOOKED")]
     /\ sections !! "s2" = Some [("B1", "AVAILABLE")]
     /\ sections !! "s3" = None)
  /\ GET_seats 10 true (Ok tt) (Ok (inventory ++ [SeatRow "C1" "constructor" "AVAILABLE"])%list)
       (World marked_store [])
     = (Ok (SeatsInternalError TypeError, true), World marked_store []).
Proof.
  split.
  - destruct (GET_seats_sections 10 false (Ok tt) inventory marked_store (or_intror eq_refl))
      as (resp & Hrun & _ & Hplain).
    destruct Hplain as (sections & -> & Hlookup).
    { intros seat Hin. unfold inventory in Hin.
      repeat (apply elem_of_cons in Hin as [->|Hin]; [vm_compute; set_solver|]).
      by apply elem_of_nil in Hin. }
    exists sections. split; [exact Hrun|]. rewrite !Hlookup. vm_compute. auto.
  - destruct (GET_seats_sections 10 true (Ok tt)
                (inventory ++ [SeatRow "C1" "constructor" "AVAILABLE"])%list marked_store
                (or_introl eq_refl)) as (resp & Hrun & Hthrows & _).
    rewrite Hrun, Hthrows; [reflexivity|].
    exists (SeatRow "C1" "constructor" "AVAILABLE"). split; vm_compute; set_solver.
Defined.

Lemma GET_seats_initialises_once_witness :
  GET_seats 10 false (Throw (Error "no database")) (Ok inventory) (World marked_store [])
  = (Ok (SeatsInternalError (Error "no database"), false), World marked_store []).
Proof.
  destruct (GET_seats_initialises_once 10 false (Throw (Error "no database")) (Ok inventory)
              (World marked_store [])) as (resp & flag & w' & Hrun & Hflag & Hfails & _).
  destruct (Hfails (Error "no database") eq_refl eq_refl) as [Hresp Hsame].
  rewrite Hrun, Hflag, Hresp, Hsame. reflexivity.
Defined.
